(* ===== verification/_CoqProject ===== *)
-Q . S2P
Prelude.v
Types.v
Assistant.v
Severity.v
Lifecycle.v
Trends.v
Scene.v
Stats.v
Settings.v
TasksScreen.v
Chat.v
App.v
Auth.v
Render.v
