(* ===== verification/Prelude.v ===== *)
(** * Sporacle: a verification development of the mushroom-farm dashboard

    The repository (src/) is a React/TypeScript mobile dashboard for a
    mushroom farm.  Its logic, as opposed to its presentation, is:

    - the shared data types of [src/types.ts] (severities, tabs, task
      statuses, metrics, alerts, tasks, chat messages);
    - the rule-based chat assistant [generateSporcbotResponse] and its
      sensor context [SPORCBOT_CONTEXT] in [src/constants.ts];
    - the derived dashboard status of [src/screens/Dashboard.tsx]
      (the [worstStatus] reduction), its grid of metric tiles, and what a
      tile of [src/components/MetricTile.tsx] shows per severity;
    - the simulated trend series [TRENDS_DATA] of [src/constants.ts] and
      the cards of [src/screens/Trends.tsx] that plot them against their
      optimal bands;
    - the lifecycle computations of [src/screens/Progress.tsx]
      ([getDaysRemaining], [getCurrentPhase], the progress percentage and
      the per-phase legend flags);
    - the alert/task workflow of [src/screens/Tasks.tsx] (assignment of an
      alert to a worker, completion, notes);
    - the chat session of [src/components/Sporcbot.tsx] (open/close,
      greeting effect, send with a delayed bot reply);
    - the navigation of [src/App.tsx], [src/components/Layout.tsx],
      [src/screens/Trends.tsx] and [src/screens/Settings.tsx] (login,
      tabs, dark mode, the [returnTab] entry of [sessionStorage] through
      which Trends hands a return tab to Tasks);
    - the Login and Register forms of [src/screens/Login.tsx] and
      [src/screens/Register.tsx], which the browser validates before
      their handlers call App's [handleLogin];
    - the Stats and Settings screens and their data ([MUSHROOM_VARIETIES],
      [TOTAL_STATS_HISTORY], [COMPANY_INFO], [EMPLOYEE_PROFILE]);
    - what every screen renders, composed by App and Layout into a page;
    - the animated scene of [src/components/three/TrendsScene.tsx], which
      no module imports.

    ** Files

    - [Prelude] (this file): the [sporacle_scope] notations, the string
      functions the code calls ([toLowerCase], [includes], [trim],
      number printing), their lemmas, the [selector] of a row of options
      with one highlighted (period buttons, navigation bar, chamber menu)
      and its lemma, the [sporacle] hint database and the tactics.
    - [Types]: [src/types.ts] as inductive types and records, with
      decidable equality instances, and the string values of [Tab] with
      their parse (the [as Tab] cast of a stored string).
    - [Assistant]: [SPORCBOT_CONTEXT] and [generateSporcbotResponse]
      (Module [Assistant]); the abstract specification of the spec's
      "ordered table of (predicate, handler) pairs, first match wins"
      (Module [AssistantSpec]) and the refinement theorem between them.
    - [Severity]: the [worstStatus] fold of the dashboard, its reference
      specification (maximum in the order CRITICAL > WARNING > NORMAL),
      order independence, the status colour/text functions, and the view
      of a metric tile (Module [MetricTile]) and of the dashboard grid.
    - [Lifecycle]: the phase tables of [Progress.tsx] and the functions
      computed per card, with the IEEE results of its divisions.
    - [Trends]: [generateTrend], [TRENDS_DATA] with [Math.random] as a
      stream of draws in [0, 1) (Module [TrendsData]), the hour-axis
      formatter, what each card shows, the time selector, the tooltip
      with [toFixed(1)] and the card tilt of [handleMove].
    - [Scene]: [TrendsScene.tsx] (Module [Scene]): bubbles and droplets
      with positions drawn from [Math.random()] and one animation frame.
    - [Stats]: [Stats.tsx] (Module [Stats]): the tables, the screen's
      view and [toLocaleString] as en-US digit grouping.
    - [Settings]: [Settings.tsx] (Module [Settings]): the company and
      profile data and what the screen shows for the dark mode and its
      [showProfile] hook.
    - [TasksScreen]: the eight [useState] hooks of [Tasks.tsx] as one
      record (Module [Tasks]), one function per handler, the buttons'
      [disabled] guards, the render decisions ([view]) and the runs of
      the screen ([reachable]).
    - [Chat]: the [Sporcbot] component (Module [Sporcbot]): its hooks, the
      greeting effect, [toggleOpen], [handleSend] as the closure of the
      render it belongs to, and the reply timers as pending events of a
      timed step relation, fired earliest first.
    - [App]: [App.tsx] and [Layout.tsx] (Module [App]): login, logout,
      tabs, dark mode, the mounting of each screen with its local state
      (so that a tab change or a logout drops it), [sessionStorage] as a
      map from strings to strings with [setItem], [removeItem] and the
      typed read of [returnTab] that Trends and Tasks share, and runs of the
      whole application composing the Tasks screen and the chat window on
      one clock.  The class [Component] is the interface between the
      shell and the components it mounts; [Tasks] and [Sporcbot] are its
      instances.
    - [Auth]: Login and Register (Module [Auth]): uncontrolled inputs with
      their values and dirty flags, the browser's constraint validation
      ([required], [type="email"] with the HTML grammar of a valid
      address, [minLength]), and the page while logged out as a layer over
      [App] whose steps refine [App.dispatch] of the abstract events.
    - [Render]: App's render, [renderScreen] and Layout's navigation bar
      (Module [Render]), with the Dashboard's view; [render] maps an
      application state to the page shown.

    ** What the theorems show

    - The assistant implements the spec's ordered table, first match wins
      (a refinement theorem), never leaves a message without a reply, and
      for every context reports a humidity above its maximum as optimal;
      the FAQ questions are routed by substring matching, several to the
      greeting or the fallback.
    - The dashboard status is the maximum severity, independent of the
      order of the metrics; OFFLINE sensors count as optimal, and their
      tiles are drawn as live readings with a red sparkline.
    - [getCurrentPhase] equals a lookup written from the spec's interval
      (independent of the code's test): the first phase containing the
      day; for tables
      of contiguous phases from day 1 it is the unique one; percentages
      stay within [0, 100] and are NaN for a zero total.
    - The Tasks screen keeps distinct task ids and accounts for every mock
      alert as listed or assigned exactly once, in every run; assignment,
      completion and notes do what the handlers mean.
    - The trend series carry the hours 0:00 to 23:00, read back by the
      axis as 0h to 23h (a round trip); whatever [Math.random] returns,
      temperature, CO2 and air flow stay within their bands and humidity
      leaves its band after 18:00.
    - The chat window keeps its typing indicator consistent with its
      pending replies, every reply arrives within 2 s, firing the reply
      timers terminates (a well-founded step), and four defects
      are shown on concrete runs (stale reply after reopening, FAQ never
      shown again, FAQ click sending the typed text, typing indicator
      cleared early).
    - The forms refine App's abstract login events; registration accepts
      exactly what the browser's checks accept, without comparing the two
      passwords, and login accepts any password and an empty e-mail.
    - In every state keeping the application invariant the page shown
      has exactly the active tab highlighted and shows that tab's screen.
    - The Stats screen plots the selected period and lists every variety
      with its production and inventory in their columns ([toLocaleString]
      prints digits in groups of three and reads back as the number); the
      card tilt stays within 8 degrees; the particles of
      the 3D scene stay in their box over any sequence of frames.
    - The application keeps the screen of the active tab mounted, the
      component invariants of Tasks and Chat, and never shows CAMERA;
      an assignment started from Trends is lost on return, and a stale
      [returnTab] survives logout; the only string ever stored is that of
      a tab, so the unchecked [as Tab] cast of Tasks is sound.

    ** Bounds and fuel

    No definition uses fuel: every recursion is structural, and runs are
    lists of events folded over the state.  The 3D scene's frames have
    any non-negative duration.  Reply timers
    are due 1200 ms to 2000 ms after the send ([1200 + Math.random() *
    800], any value of [Math.random()] in [0, 1)), which is what bounds
    the arrival of replies.  A task confirmation reads a clock later than
    the previous one: the ids [t-<Date.now()>] are distinct only then
    (two confirmations in one millisecond would share an id).

    ** Not modelled

    Presentation and I/O: styles, colours other than those that encode a
    state, layout and animations ([Aurora], [Button], the motion
    transitions, the geometry, materials and lights of [TrendsScene]),
    sounds ([playClickSound], [playReceiveSound]), the dark-mode class
    the effect of [App.tsx] sets on the HTML element, and the drawing of
    the charts by Recharts (the model stops at the rows it is given).
    [Math.random] is not a definition: the trend series and the 3D scene
    take its draws as a parameter.  The views record what each screen
    shows as text and flags, not as a DOM tree.  [toLocaleString] is
    modelled for the en-US locale only, and [toFixed(1)] on exact
    rationals, not on the binary doubles the code rounds.

    ** Modelling conventions

    - Strings are [String.string] (bytes; UTF-8 literals).  [toLowerCase]
      maps ASCII A-Z only; JavaScript also lower-cases non-ASCII letters,
      which the model leaves unchanged (the keywords the assistant tests
      are ASCII, so this matters only for the two non-ASCII code points
      whose lower case contains an ASCII letter, U+0130 and U+212A).
      [trim] removes the ASCII white space characters.
    - The trend values are rationals ([Q]): the code adds, multiplies and
      halves them, exactly in the model; the band bounds are integers.
    - JavaScript numbers in the sensor context are decimals with one
      fractional digit, kept exactly as an integer number of tenths ([Z]).
      [js_num_to_string] prints them as [Number.prototype.toString] does
      for such values below 10^21 in magnitude.  Subtraction in the model
      is exact; in JavaScript it is exact on the integer CO2 readings the
      code subtracts.
    - Day counts are integers ([Z], as the code compares and subtracts
      them); clock readings are milliseconds ([N]).
*)

From stdpp Require Import base list strings.
From Stdlib Require Import String Ascii ZArith DecimalString DecimalN Lia.

Declare Scope sporacle_scope.
Delimit Scope sporacle_scope with sp.
Open Scope string_scope.

Create HintDb sporacle discriminated.
Create Rewrite HintDb sporacle.

(** ** ASCII case mapping: [String.prototype.toLowerCase] *)

Definition is_upper_ascii (c : ascii) : bool :=
  let n := N_of_ascii c in (65 <=? n)%N && (n <=? 90)%N.

Definition lower_ascii (c : ascii) : ascii :=
  if is_upper_ascii c then ascii_of_N (N_of_ascii c + 32) else c.

Fixpoint toLowerCase (s : string) : string :=
  match s with
  | EmptyString => EmptyString
  | String c s' => String (lower_ascii c) (toLowerCase s')
  end.

(** ** Substring test: [String.prototype.includes] *)

Fixpoint startsWith (s k : string) {struct k} : bool :=
  match k, s with
  | EmptyString, _ => true
  | String c k', String d s' => if ascii_dec c d then startsWith s' k' else false
  | String _ _, EmptyString => false
  end.

Fixpoint includes (s k : string) : bool :=
  startsWith s k ||
  match s with
  | EmptyString => false
  | String _ s' => includes s' k
  end.

Notation "s ∋ₛ k" := (includes s k) (at level 70, no associativity) : sporacle_scope.

(** [a || b || ...] over a list of keywords, as the code writes
    [msg.includes(k1) || msg.includes(k2) || ...]. *)
Fixpoint includes_any (s : string) (ks : list string) : bool :=
  match ks with
  | [] => false
  | k :: ks' => includes s k || includes_any s ks'
  end.

(** ** White space: [String.prototype.trim] *)

Definition is_space (c : ascii) : bool :=
  let n := N_of_ascii c in
  (n =? 32)%N || ((9 <=? n)%N && (n <=? 13)%N).

Fixpoint trim_start (s : string) : string :=
  match s with
  | EmptyString => EmptyString
  | String c s' => if is_space c then trim_start s' else s
  end.

Fixpoint string_rev (s : string) : string :=
  match s with
  | EmptyString => EmptyString
  | String c s' => string_rev s' ++ String c EmptyString
  end.

Definition trim (s : string) : string :=
  string_rev (trim_start (string_rev (trim_start s))).

Fixpoint all_space (s : string) : bool :=
  match s with
  | EmptyString => true
  | String c s' => is_space c && all_space s'
  end.

(** ** Number printing *)

(** [n.toString()] for a non-negative integer below 10^21. *)
Definition N_to_string (n : N) : string :=
  NilEmpty.string_of_uint (N.to_uint n).

Definition N_of_string (s : string) : option N :=
  match NilEmpty.uint_of_string s with
  | Some d => Some (N.of_uint d)
  | None => None
  end.

Definition nat_to_string (n : nat) : string := N_to_string (N.of_nat n).

(** [x.toString()] for a number given in tenths: ["-"] for a negative
    value, the integer part, and the tenths digit when it is not zero. *)
Definition js_num_to_string (x : Z) : string :=
  let a := Z.to_N (Z.abs x) in
  let int_part := N_to_string (a / 10) in
  let frac := (a mod 10)%N in
  (if (x <? 0)%Z then "-" else "")
    ++ int_part
    ++ (if (frac =? 0)%N then "" else "." ++ N_to_string frac).

(** ** Selectors *)

(** A row of options with the selected one highlighted, as the screens
    render them: [options.map(o => ... selected === o ? active : idle)]. *)
Definition selector {A} `{EqDecision A} (label : A -> string) (options : list A) (selected : A) :
    list (string * bool) :=
  map (fun o => (label o, bool_decide (selected = o))) options.

(** ** Tactics *)

(** Split every boolean [if] of the goal, remembering the test. *)
Ltac case_ifs :=
  repeat match goal with
  | |- context [if ?b then _ else _] =>
      lazymatch b with
      | true => fail
      | false => fail
      | _ => let E := fresh "E" in destruct b eqn:E
      end
  end.

(** ** Lemmas on strings *)

(** stdpp makes [String.append] opaque to [simpl]; these are its two
    computation rules. *)
Lemma append_empty (b : string) : "" ++ b = b.
Proof. reflexivity. Qed.

Lemma append_cons (c : ascii) (a b : string) : String c a ++ b = String c (a ++ b).
Proof. reflexivity. Qed.

Ltac simpl_app := repeat progress rewrite ?append_empty, ?append_cons in * .

Lemma append_nil_r (s : string) : s ++ "" = s.
Proof. induction s as [|c s IH]; simpl_app; [done | by rewrite IH]. Qed.

Lemma string_length_app (a b : string) : String.length (a ++ b) = (String.length a + String.length b)%nat.
Proof. induction a; simpl; auto. Qed.

Lemma selector_none {A} `{EqDecision A} (label : A -> string) (options : list A) (selected : A) :
  selected ∉ options -> filter (fun b => b.2 = true) (selector label options selected) = [].
Proof.
  unfold selector. induction options as [|o os IH]; [done|]. intros [Hne Hn]%not_elem_of_cons.
  simpl. rewrite filter_cons. simpl. rewrite bool_decide_eq_false_2 by done.
  rewrite decide_False by done. by apply IH.
Qed.

(** A left fold whose step commutes does not depend on the order of the
    list. *)
Lemma fold_left_perm {A B} (f : B -> A -> B) (l l' : list A) (b : B) :
  (forall b x y, f (f b x) y = f (f b y) x) -> Permutation l l' -> fold_left f l b = fold_left f l' b.
Proof.
  intros Hc H. revert b. induction H as [|x l l' _ IH|x y l|l l' l'' _ IH1 _ IH2]; intros b; simpl.
  - done.
  - apply IH.
  - by rewrite Hc.
  - by rewrite IH1, IH2.
Qed.

(** Among distinct options, exactly the selected one is highlighted. *)
Lemma selector_highlight {A} `{EqDecision A} (label : A -> string) (options : list A) (selected : A) :
  NoDup options -> selected ∈ options ->
  filter (fun b => b.2 = true) (selector label options selected) = [(label selected, true)].
Proof.
  unfold selector. induction 1 as [|o os Hno Hnd IH]; [by intros ?%elem_of_nil|].
  intros Hin. simpl. rewrite filter_cons. simpl.
  destruct (decide (selected = o)) as [->|Hne].
  - rewrite bool_decide_eq_true_2 by done. rewrite decide_True by done. f_equal.
    by apply (selector_none label).
  - rewrite bool_decide_eq_false_2 by done. rewrite decide_False by done.
    apply IH. by apply elem_of_cons in Hin as [?|?].
Qed.

Lemma append_assoc (a b c : string) : a ++ (b ++ c) = (a ++ b) ++ c.
Proof. induction a as [|x a IH]; simpl_app; [done | by rewrite IH]. Qed.

Lemma startsWith_spec (s k : string) :
  startsWith s k = true <-> exists b, s = k ++ b.
Proof.
  revert s. induction k as [|c k IH]; intros s; simpl; simpl_app.
  - split; [intros _; by exists s | done].
  - destruct s as [|d s].
    + split; [done | intros [b Hb]; discriminate].
    + destruct (ascii_dec c d) as [->|Hne].
      * rewrite IH. split; intros [b Hb]; exists b; [by subst | simpl_app; congruence].
      * split; [done | intros [b Hb]; simpl_app; congruence].
Qed.

(** [includes] decides the substring relation. *)
Lemma includes_spec (s k : string) :
  includes s k = true <-> exists a b, s = a ++ k ++ b.
Proof.
  induction s as [|c s IH]; simpl; rewrite orb_true_iff, startsWith_spec.
  - split.
    + intros [[b Hb]|?]; [|discriminate]. exists "", b. by rewrite append_empty.
    + intros [a [b Hab]]. left. destruct a; simpl_app; [by exists b | discriminate].
  - rewrite IH. split.
    + intros [[b Hb]|[a [b Hab]]]; [exists "", b; by rewrite append_empty|].
      exists (String c a), b. by rewrite Hab.
    + intros [a [b Hab]]. destruct a as [|d a]; simpl_app.
      * left. by exists b.
      * right. exists a, b. congruence.
Qed.

Lemma includes_app_l (a b k : string) :
  includes a k = true -> includes (a ++ b) k = true.
Proof.
  rewrite !includes_spec. intros [x [y ->]].
  exists x, (y ++ b). by rewrite <- !append_assoc.
Qed.

Lemma includes_app_r (a b k : string) :
  includes b k = true -> includes (a ++ b) k = true.
Proof.
  rewrite !includes_spec. intros [x [y ->]].
  exists (a ++ x), y. by rewrite <- !append_assoc.
Qed.

Lemma includes_refl (k : string) : includes k k = true.
Proof. apply includes_spec. exists "", "". by rewrite append_empty, append_nil_r. Qed.

Lemma includes_any_spec (s : string) (ks : list string) :
  includes_any s ks = true <-> Exists (fun k => includes s k = true) ks.
Proof.
  induction ks as [|k ks IH]; simpl.
  - split; [done | inversion 1].
  - rewrite orb_true_iff, IH, Exists_cons. done.
Qed.

Lemma includes_any_false (s : string) (ks : list string) :
  includes_any s ks = false <-> Forall (fun k => includes s k = false) ks.
Proof.
  induction ks as [|k ks IH]; simpl.
  - split; constructor.
  - rewrite orb_false_iff, IH, Forall_cons. done.
Qed.

Lemma lower_ascii_idem (c : ascii) : lower_ascii (lower_ascii c) = lower_ascii c.
Proof. destruct c as [[] [] [] [] [] [] [] []]; reflexivity. Qed.

(** Lower-casing twice is lower-casing once. *)
Lemma toLowerCase_idem (s : string) : toLowerCase (toLowerCase s) = toLowerCase s.
Proof. induction s as [|c s IH]; simpl; [done | by rewrite lower_ascii_idem, IH]. Qed.

Lemma toLowerCase_app (a b : string) :
  toLowerCase (a ++ b) = toLowerCase a ++ toLowerCase b.
Proof. induction a as [|c a IH]; simpl_app; simpl; [done | by rewrite IH]. Qed.

(** ** Lemmas on number printing *)

(** Printing a count and reading it back gives the count. *)
Lemma N_of_to_string (n : N) : N_of_string (N_to_string n) = Some n.
Proof.
  unfold N_of_string, N_to_string. rewrite NilEmpty.usu.
  by rewrite Unsigned.of_to.
Qed.

Lemma N_to_string_inj (n m : N) : N_to_string n = N_to_string m -> n = m.
Proof.
  intros H. apply (f_equal N_of_string) in H.
  rewrite !N_of_to_string in H. congruence.
Qed.

Lemma nat_to_string_inj (n m : nat) : nat_to_string n = nat_to_string m -> n = m.
Proof. unfold nat_to_string. intros H%N_to_string_inj. lia. Qed.

(** A whole non-negative number of tenths prints as its integer part. *)
Lemma js_num_to_string_whole (n : N) :
  js_num_to_string (Z.of_N (10 * n)) = N_to_string n.
Proof.
  unfold js_num_to_string.
  replace (Z.to_N (Z.abs (Z.of_N (10 * n)))) with (n * 10)%N by lia.
  rewrite N.div_mul, N.Div0.mod_mul by lia.
  destruct (Z.ltb_spec (Z.of_N (10 * n)) 0); [lia|].
  rewrite append_empty. apply append_nil_r.
Qed.

(** Prove [includes s k = true] where [s] is a concatenation of literals
    and symbolic parts: walk right along [s] until a part contains [k]. *)
Ltac solve_includes :=
  repeat first
    [ apply includes_refl
    | solve [vm_compute; reflexivity]
    | apply includes_app_l; first [apply includes_refl | vm_compute; reflexivity]
    | apply includes_app_r ].

#[export] Hint Rewrite append_nil_r toLowerCase_idem N_of_to_string string_length_app : sporacle.
#[export] Hint Resolve includes_app_l includes_app_r includes_refl : sporacle.
