(* ===== verification/Types.v ===== *)
(** * Types: the shared data types of [src/types.ts]

    Enums become inductive types with the source's constructors; each
    TypeScript interface becomes a record in a module of the same name, so
    that the source's field names ([id], [status], ...) can be kept
    ([Alert.id], [Task.status]).  Optional fields ([assignedTo?],
    [isFan?]) are [option]s.  Numbers shown to the user ([Metric.value],
    [Metric.history]) are in tenths ([Z]), as in [Prelude]; timestamps
    of chat messages ([Date]) are milliseconds since the epoch ([N]). *)

From stdpp Require Import base list strings.
From Stdlib Require Import String ZArith.
From S2P Require Import Prelude.

Inductive Severity := CRITICAL | WARNING | NORMAL | OFFLINE.

Inductive Tab := HOME | STATS | TRENDS | TASKS | PROGRESS | CAMERA | SETTINGS.

(** The string each member of [Tab] stands for ([HOME = 'HOME'], ...,
    types.ts 8-16): what [sessionStorage] holds when the code stores a
    tab. *)
Definition tab_to_string (t : Tab) : string :=
  match t with
  | HOME => "HOME" | STATS => "STATS" | TRENDS => "TRENDS" | TASKS => "TASKS"
  | PROGRESS => "PROGRESS" | CAMERA => "CAMERA" | SETTINGS => "SETTINGS"
  end.

(** A string read back [as Tab]: the member it stands for, if any. *)
Definition tab_of_string (v : string) : option Tab :=
  List.find (fun t => bool_decide (tab_to_string t = v))
    [HOME; STATS; TRENDS; TASKS; PROGRESS; CAMERA; SETTINGS].

Inductive TaskStatus := PENDING | IN_PROGRESS | COMPLETED | OVERDUE.

(** The string values of [TaskStatus], which the screens print. *)
Definition taskStatus_to_string (t : TaskStatus) : string :=
  match t with
  | PENDING => "PENDING" | IN_PROGRESS => "IN_PROGRESS"
  | COMPLETED => "COMPLETED" | OVERDUE => "OVERDUE"
  end.

Module Metric.
Record t := mk {
  id : string;
  label : string;
  value : Z;
  unit : string;
  status : Severity;
  history : list Z;
  isFan : option bool;
  isActive : option bool
}.
End Metric.

Module Alert.
Record t := mk {
  id : string;
  chamber : string;
  timestamp : string;
  message : string;
  action : string;
  severity : Severity
}.
End Alert.

Module Task.
Record t := mk {
  id : string;
  title : string;
  location : string;
  assignedTo : option string;
  status : TaskStatus;
  timestamp : string;
  description : string
}.
End Task.

(** [status: 'AVAILABLE' | 'BUSY' | 'OFFLINE'] of [WorkerProfile]. *)
Inductive WorkerStatus := AVAILABLE | BUSY | WORKER_OFFLINE.

Module WorkerProfile.
Record t := mk {
  id : string;
  name : string;
  status : WorkerStatus;
  avatar : string
}.
End WorkerProfile.

Inductive Sender := user | bot.

Module ChatMessage.
Record t := mk {
  id : string;
  text : string;
  sender : Sender;
  timestamp : N
}.
End ChatMessage.

#[export] Instance Severity_eq_dec : EqDecision Severity.
Proof. solve_decision. Defined.
#[export] Instance Tab_eq_dec : EqDecision Tab.
Proof. solve_decision. Defined.
#[export] Instance TaskStatus_eq_dec : EqDecision TaskStatus.
Proof. solve_decision. Defined.
#[export] Instance WorkerStatus_eq_dec : EqDecision WorkerStatus.
Proof. solve_decision. Defined.
#[export] Instance Sender_eq_dec : EqDecision Sender.
Proof. solve_decision. Defined.
#[export] Instance Alert_eq_dec : EqDecision Alert.t.
Proof. solve_decision. Defined.
#[export] Instance Task_eq_dec : EqDecision Task.t.
Proof. solve_decision. Defined.
#[export] Instance ChatMessage_eq_dec : EqDecision ChatMessage.t.
Proof. solve_decision. Defined.

(** Reading back what was stored gives the tab stored. *)
Lemma tab_of_to_string (t : Tab) : tab_of_string (tab_to_string t) = Some t.
Proof. by destruct t. Qed.
