(* ===== verification/Assistant.v ===== *)
(** * Assistant: the rule-based chat engine of [src/constants.ts]

    Module [Assistant] translates [SPORCBOT_CONTEXT] and
    [generateSporcbotResponse] (constants.ts, lines 236-303).  The
    function lower-cases the message and runs an ordered chain of
    keyword tests ([msg.includes(..) || ...]); the first test that holds
    selects a reply built from the context.  The source reads the global
    constant [SPORCBOT_CONTEXT]; the model takes the context as an argument
    ([respond_in]) and instantiates it with the constant
    ([generateSporcbotResponse]), so theorems hold for every context and
    for the one the code ships with.  Each branch of the chain is a named
    reply ([status_reply], [co2_reply], ...), the chain itself is
    [respond_in].

    Module [AssistantSpec] is the design of the spec (section 9): an
    ordered table of (keywords, category) pairs evaluated first match
    first, with a renderer per category.  [respond_in_refines] proves the
    if-chain equal to it. *)

From stdpp Require Import base list strings.
From Stdlib Require Import String Ascii ZArith Lia.
From S2P Require Import Prelude Types.

Open Scope string_scope.

(** The characters the templates need that a literal cannot hold. *)
Definition nl : string := String "010"%char EmptyString.
Definition dq : string := String "034"%char EmptyString.

Module Assistant.

(** [thresholds.*: { min, max, ideal }], in tenths. *)
Record Threshold := mkThreshold { min : Z; max : Z; ideal : Z }.

(** [sensors: { temp, humidity, co2, airflow }], in tenths. *)
Record Sensors := mkSensors { temp : Z; humidity : Z; co2 : Z; airflow : Z }.

Record Thresholds := mkThresholds {
  th_temp : Threshold; th_humidity : Threshold; th_co2 : Threshold }.

Record Context := mkContext {
  date : string;
  chamberId : string;
  variety : string;
  phase : string;
  sensors : Sensors;
  thresholds : Thresholds
}.

(** [SPORCBOT_CONTEXT] (constants.ts 236-253); every number times 10. *)
Definition SPORCBOT_CONTEXT : Context := {|
  date := "Saturday, November 29, 2025";
  chamberId := "FZ-402";
  variety := "Oyster (Pleurotus)";
  phase := "Pinning";
  sensors := mkSensors 251 750 12500 2500;
  thresholds := mkThresholds
    (mkThreshold 100 240 180)
    (mkThreshold 850 950 900)
    (mkThreshold 4000 10000 7000)
|}.

Definition num := js_num_to_string.

(** The [issues] array of the status branch: three guarded [push]es, in
    the source's order (CO2, humidity, temperature). *)
Definition status_issues (ctx : Context) : list string :=
  let s := sensors ctx in
  let th := thresholds ctx in
  let issues : list string := [] in
  let issues :=
    if (max (th_co2 th) <? co2 s)%Z
    then app issues ["CO2 is critically high (" ++ num (co2 s)
                    ++ " PPM) for the Pinning phase (Target: <1000)."]
    else issues in
  let issues :=
    if (humidity s <? min (th_humidity th))%Z
    then app issues ["Humidity is too low (" ++ num (humidity s)
                    ++ "%) for pinning (Target: >85%)."]
    else issues in
  let issues :=
    if (max (th_temp th) <? temp s)%Z
    then app issues ["Temperature is slightly elevated (" ++ num (temp s) ++ "°C)."]
    else issues in
  issues.

Definition status_reply (ctx : Context) : string :=
  let issues := status_issues ctx in
  if (0 <? List.length issues)%nat then
    "Analysis for Chamber " ++ chamberId ctx ++ " (" ++ variety ctx ++ "):"
      ++ nl ++ nl ++ String.concat nl issues ++ nl ++ nl
      ++ "Recommended Action: Increase fresh air exchange (FAE) immediately to lower CO2, and increase misting duration to correct humidity."
  else
    "Chamber " ++ chamberId ctx ++ " is currently within optimal parameters for "
      ++ variety ctx ++ " in the " ++ phase ctx ++ " phase.".

Definition co2_reply (ctx : Context) : string :=
  let diff := (co2 (sensors ctx) - max (th_co2 (thresholds ctx)))%Z in
  "Current CO2: " ++ num (co2 (sensors ctx)) ++ " PPM. This is "
    ++ (if (0 <? diff)%Z then "above target by " ++ num diff ++ " PPM" else "optimal")
    ++ ". High CO2 during pinning causes long, spindly stems. Increase airflow immediately.".

Definition humidity_reply (ctx : Context) : string :=
  "Current Humidity: " ++ num (humidity (sensors ctx)) ++ "%. This is suboptimal for "
    ++ phase ctx
    ++ " (Target: 90-95%). Risk of pin aborts is high. Please verify the misting nozzles in sector 2.".

Definition temp_reply (ctx : Context) : string :=
  "Current Temp: " ++ num (temp (sensors ctx))
    ++ "°C. It is slightly above the ideal range (10-24°C) for Oysters. Consider lowering ambient temperature to encourage robust fruiting body formation.".

Definition prediction_reply : string :=
  "Linear Regression models indicate a trend of rising CO2 (+50 PPM/10min). Without intervention, CO2 will breach 1500 PPM within 45 minutes, risking suffocation of pins.".

Definition contamination_reply : string :=
  "Isolation Forest model check: Normal. No multivariate anomalies detected that suggest contamination ("
    ++ dq ++ "Silent Killer" ++ dq ++ "). Regular visual inspection is still recommended.".

Definition greeting_reply (ctx : Context) : string :=
  "Hello. I am Sporcbot. I am currently monitoring Chamber " ++ chamberId ctx
    ++ ". Current phase: " ++ phase ctx
    ++ ". How can I assist with the environmental regulation?".

Definition fallback_reply : string :=
  "I understand. Based on current sensor data, please monitor the CO2 and Humidity levels closely. Would you like me to generate a maintenance task for the airflow system?".

(** The keyword lists of the chain, in the source's order. *)
Definition status_keys := ["status"; "health"; "how is"; "check"].
Definition co2_keys := ["co2"].
Definition humidity_keys := ["humidity"; "rh"].
Definition temp_keys := ["temp"].
Definition prediction_keys := ["predict"; "future"; "trend"].
Definition contamination_keys := ["contam"; "mold"; "clean"].
Definition greeting_keys := ["hello"; "hi"; "hey"].

(** [generateSporcbotResponse] with the context as a parameter. *)
Definition respond_in (ctx : Context) (userMessage : string) : string :=
  let msg := toLowerCase userMessage in
  if includes_any msg status_keys then status_reply ctx
  else if includes_any msg co2_keys then co2_reply ctx
  else if includes_any msg humidity_keys then humidity_reply ctx
  else if includes_any msg temp_keys then temp_reply ctx
  else if includes_any msg prediction_keys then prediction_reply
  else if includes_any msg contamination_keys then contamination_reply
  else if includes_any msg greeting_keys then greeting_reply ctx
  else fallback_reply.

Definition generateSporcbotResponse (userMessage : string) : string :=
  respond_in SPORCBOT_CONTEXT userMessage.

(** [SPORCBOT_FAQ] (constants.ts 25-38): the suggested questions of the
    chat window, with the answers the source stores beside them. *)
Definition SPORCBOT_FAQ : list (string * string) := [
  ("Optimal CO2 during pinning?", "Maintain 800–1200 ppm. Use frequent fresh air exchanges to avoid spikes.");
  ("Ideal humidity for fruiting?", "Keep 85–95% RH. Prefer short mist pulses to avoid pooling.");
  ("Best temperature for oyster?", "Target 20–22°C (range 18–24°C) for consistent cap formation.");
  ("CO2 rising at night — fix?", "Add low-speed ventilation cycles (10–15 min/hr) overnight; verify intake filters.");
  ("Caps yellowing — cause?", "Likely low humidity or heat. Increase RH and diffuse lighting; check hotspots.");
  ("Post-harvest misting?", "Mist 8–12 minutes immediately, then hold ~90% RH for 2–3 hours to rehydrate.");
  ("Assign corrective action fast?", "Open Alerts, tap Assign Task, select worker, add duration and notes, confirm.");
  ("Flat RH but rising CO2?", "Ventilation inadequate. Increase air exchanges; inspect dampers and obstructions.");
  ("Stems elongating?", "High CO2 or poor light diffusion. Improve airflow and adjust light angle/intensity.");
  ("Misting: long vs pulses?", "Prefer 1–2 min pulses spaced 10–15 min; reduces pooling and bacterial risk.");
  ("Shiitake vs oyster conditions?", "Shiitake browning at lower RH and cooler temps (16–20°C); longer rest between flushes.");
  ("Basic PPE for maintenance?", "N95/KN95, nitrile gloves, eye protection; sanitize hands/tools between chambers.")
].

(** A context in which humidity (99%) is above its maximum (95%) and the
    other readings are within their bands. *)
Definition humid_context : Context :=
  mkContext (date SPORCBOT_CONTEXT) (chamberId SPORCBOT_CONTEXT)
    (variety SPORCBOT_CONTEXT) (phase SPORCBOT_CONTEXT)
    (mkSensors 180 990 7000 2500) (thresholds SPORCBOT_CONTEXT).

End Assistant.

Module AssistantSpec.
Import Assistant.

(** The reply categories of spec section 4.3, in its order. *)
Inductive Category :=
  Status | CO2 | Humidity | Temperature | Prediction | Contamination | Greeting | Fallback.

(** The spec's dispatch table: keyword lists and the category they
    select, evaluated in order. *)
Definition table : list (list string * Category) := [
  (["status"; "health"; "how is"; "check"], Status);
  (["co2"], CO2);
  (["humidity"; "rh"], Humidity);
  (["temp"], Temperature);
  (["predict"; "future"; "trend"], Prediction);
  (["contam"; "mold"; "clean"], Contamination);
  (["hello"; "hi"; "hey"], Greeting)
].

(** First match wins; no match selects the fallback. *)
Fixpoint first_match (msg : string) (tbl : list (list string * Category)) : Category :=
  match tbl with
  | [] => Fallback
  | (ks, c) :: tbl' => if includes_any msg ks then c else first_match msg tbl'
  end.

Definition category (userText : string) : Category :=
  first_match (toLowerCase userText) table.

Definition render (ctx : Context) (c : Category) : string :=
  match c with
  | Status => status_reply ctx
  | CO2 => co2_reply ctx
  | Humidity => humidity_reply ctx
  | Temperature => temp_reply ctx
  | Prediction => prediction_reply
  | Contamination => contamination_reply
  | Greeting => greeting_reply ctx
  | Fallback => fallback_reply
  end.

Definition respond (ctx : Context) (userText : string) : string :=
  render ctx (category userText).

(** Every keyword of the table. *)
Definition all_keys : list string := List.concat (map fst table).

Definition no_match (msg : string) (e : list string * Category) : Prop :=
  includes_any msg e.1 = false.

(** Table semantics: the entry selected is one whose keywords occur,
    preceded only by entries whose keywords do not. *)
Lemma first_match_app (msg : string) (pre post : list (list string * Category))
    (ks : list string) (c : Category) :
  Forall (no_match msg) pre -> includes_any msg ks = true ->
  first_match msg (pre ++ (ks, c) :: post)%list = c.
Proof.
  induction 1 as [|[ks' c'] pre Hno _ IH]; intros Hks; simpl.
  - by rewrite Hks.
  - unfold no_match in Hno. simpl in Hno. rewrite Hno. by apply IH.
Qed.

Lemma first_match_none (msg : string) tbl :
  Forall (no_match msg) tbl -> first_match msg tbl = Fallback.
Proof.
  induction 1 as [|[ks c] tbl Hno _ IH]; simpl; [done|].
  unfold no_match in Hno. simpl in Hno. by rewrite Hno.
Qed.

Lemma no_match_table (msg : string) :
  Forall (fun k => includes msg k = false) all_keys -> Forall (no_match msg) table.
Proof.
  unfold all_keys. rewrite Forall_concat, Forall_map. intros H.
  eapply Forall_impl; [exact H|]. intros e He. by apply includes_any_false.
Qed.

End AssistantSpec.

(** ** Theorems *)

Import Assistant AssistantSpec.

(** The chain of [generateSporcbotResponse] is the table lookup of the
    spec followed by the category's reply. *)
Lemma respond_in_spec_eq (ctx : Context) (userText : string) :
  respond_in ctx userText = render ctx (category userText).
Proof.
  unfold respond_in, category, first_match, table, status_keys, co2_keys,
    humidity_keys, temp_keys, prediction_keys, contamination_keys, greeting_keys.
  case_ifs; reflexivity.
Qed.

(** C1: First match wins.  If the lower-cased message contains a keyword
    of an entry of the spec's dispatch table and no keyword of any entry
    before it, [generateSporcbotResponse] (with any sensor context) replies
    with that entry's reply, whatever the later entries would match. *)
Theorem respond_first_match (ctx : Context) (userText : string)
    (pre post : list (list string * Category)) (ks : list string) (c : Category) :
  table = (pre ++ (ks, c) :: post)%list ->
  Forall (no_match (toLowerCase userText)) pre ->
  includes_any (toLowerCase userText) ks = true ->
  respond_in ctx userText = render ctx c.
Proof.
  intros Ht Hpre Hks. rewrite respond_in_spec_eq. unfold category.
  rewrite Ht. by rewrite first_match_app.
Qed.

Lemma respond_first_match_witness :
  table = ([] ++ (["status"; "health"; "how is"; "check"], Status) :: tail table)%list /\
  Forall (no_match (toLowerCase "check co2 status")) [] /\
  includes_any (toLowerCase "check co2 status") ["status"; "health"; "how is"; "check"] = true /\
  respond_in SPORCBOT_CONTEXT "check co2 status" = render SPORCBOT_CONTEXT Status.
Proof.
  split; [reflexivity|]. split; [constructor|]. split; [vm_compute; reflexivity|].
  eapply (respond_first_match _ _ [] (tail table)); [reflexivity | constructor | vm_compute; reflexivity].
Defined.

(** C17: Total coverage.  A message whose lower-cased text contains none
    of the table's keywords gets the fixed fallback reply, for every
    context: no input, the empty one included, is left without a reply. *)
Theorem respond_in_fallback (ctx : Context) (userText : string) :
  Forall (fun k => includes (toLowerCase userText) k = false) all_keys ->
  respond_in ctx userText = fallback_reply.
Proof.
  intros H. rewrite respond_in_spec_eq. unfold category.
  by rewrite first_match_none by (by apply no_match_table).
Qed.

Lemma respond_in_fallback_witness :
  Forall (fun k => includes (toLowerCase "xyzabc") k = false) all_keys /\
  generateSporcbotResponse "xyzabc" = fallback_reply.
Proof.
  assert (H : Forall (fun k => includes (toLowerCase "xyzabc") k = false) all_keys)
    by (vm_compute; repeat constructor).
  split; [exact H | exact (respond_in_fallback SPORCBOT_CONTEXT "xyzabc" H)].
Defined.

(** The status query is tested before every other category: a
    message that contains "status", "health", "how is" or "check" (in
    any letter case) gets the status report, even when it also names CO2,
    humidity or temperature. *)
Theorem respond_in_status_first (ctx : Context) (userText : string) :
  includes_any (toLowerCase userText) status_keys = true ->
  respond_in ctx userText = status_reply ctx.
Proof. intros H. unfold respond_in. by rewrite H. Qed.

Lemma respond_in_status_first_witness :
  includes_any (toLowerCase "Check CO2 status") status_keys = true /\
  generateSporcbotResponse "Check CO2 status" = status_reply SPORCBOT_CONTEXT.
Proof.
  split; [vm_compute; reflexivity|].
  apply respond_in_status_first. vm_compute. reflexivity.
Defined.

(** The reply does not depend on the letter case of the message:
    lower-casing the input first gives the same reply. *)
Theorem respond_in_case_insensitive (ctx : Context) (userText : string) :
  respond_in ctx (toLowerCase userText) = respond_in ctx userText.
Proof. unfold respond_in. by rewrite toLowerCase_idem. Qed.

(** The status report lists one issue per violated threshold: CO2
    above its maximum, humidity below its minimum, temperature above its
    maximum; it is empty, and the reply says the chamber is within
    optimal parameters, exactly when none of the three holds. *)
Theorem status_issues_length (ctx : Context) :
  let s := sensors ctx in let th := thresholds ctx in
  List.length (status_issues ctx) =
    (Nat.b2n (max (th_co2 th) <? co2 s)%Z + Nat.b2n (humidity s <? min (th_humidity th))%Z
     + Nat.b2n (max (th_temp th) <? temp s)%Z)%nat.
Proof.
  unfold status_issues. simpl.
  case_ifs; rewrite ?length_app; simpl; lia.
Qed.

(** The spec's example: asked "What's the CO2 status?", the engine
    with the shipped context (CO2 1250 > 1000) answers with the status
    report, which quotes the reading 1250 and the remediation advice. *)
Example generate_co2_status_report :
  includes (generateSporcbotResponse "What's the CO2 status?") "1250" = true /\
  includes (generateSporcbotResponse "What's the CO2 status?")
           "Recommended Action: Increase fresh air exchange" = true.
Proof. split; vm_compute; reflexivity. Qed.

(** The suggested FAQ questions are not answered by their stored
    answers: the engine routes "Flat RH but rising CO2?" to the CO2
    reply, "Shiitake vs oyster conditions?" to the greeting (the letters
    "hi" of "shiitake"), and six of the twelve to the fallback. *)
Example faq_questions_routing :
  map (fun qa => generateSporcbotResponse qa.1) SPORCBOT_FAQ =
  map (render SPORCBOT_CONTEXT)
    [CO2; Humidity; Temperature; CO2; Fallback; Fallback; Fallback; CO2;
     Fallback; Fallback; Greeting; Fallback].
Proof. vm_compute. reflexivity. Qed.

(** C33: The status check tests only CO2 above its maximum, humidity
    below its minimum and temperature above its maximum: for every
    context whose humidity is above its maximum, with CO2 and temperature
    within their maxima and a humidity band with its minimum below its
    maximum, the report says the chamber is within optimal parameters. *)
Theorem status_reply_ignores_high_humidity (ctx : Context) :
  (max (th_humidity (thresholds ctx)) < humidity (sensors ctx))%Z ->
  (min (th_humidity (thresholds ctx)) <= max (th_humidity (thresholds ctx)))%Z ->
  (co2 (sensors ctx) <= max (th_co2 (thresholds ctx)))%Z ->
  (temp (sensors ctx) <= max (th_temp (thresholds ctx)))%Z ->
  status_reply ctx =
    "Chamber " ++ chamberId ctx ++ " is currently within optimal parameters for "
      ++ variety ctx ++ " in the " ++ phase ctx ++ " phase.".
Proof.
  intros Hh Hb Hc Ht. unfold status_reply, status_issues.
  rewrite (proj2 (Z.ltb_ge _ _) Hc), (proj2 (Z.ltb_ge (humidity (sensors ctx)) _)) by lia.
  by rewrite (proj2 (Z.ltb_ge _ _) Ht).
Qed.

Lemma status_reply_ignores_high_humidity_witness :
  (max (th_humidity (thresholds humid_context)) < humidity (sensors humid_context))%Z /\
  status_reply humid_context =
    "Chamber FZ-402 is currently within optimal parameters for Oyster (Pleurotus) in the Pinning phase.".
Proof.
  split; [vm_compute; reflexivity|].
  apply status_reply_ignores_high_humidity; vm_compute; congruence.
Defined.

(** The humidity reply ignores the thresholds: for every context it
    calls the humidity suboptimal and quotes the fixed band 90-95%, while
    the shipped minimum is 85%. *)
Theorem humidity_reply_fixed_verdict (ctx : Context) :
  includes (humidity_reply ctx) "suboptimal" = true /\
  includes (humidity_reply ctx) "(Target: 90-95%)" = true.
Proof. unfold humidity_reply. split; solve_includes. Qed.

(** The CO2 reply reports the excess over the maximum, printed as a
    number, when the reading is above the maximum, and calls the reading
    optimal otherwise. *)
Theorem co2_reply_excess (ctx : Context) :
  let d := (co2 (sensors ctx) - max (th_co2 (thresholds ctx)))%Z in
  (0 < d)%Z ->
  includes (co2_reply ctx) ("above target by " ++ num d ++ " PPM") = true.
Proof.
  intros d Hd. unfold co2_reply. fold d.
  destruct (Z.ltb_spec 0 d); [|lia]. solve_includes.
Qed.

Lemma co2_reply_excess_witness :
  (0 < co2 (sensors SPORCBOT_CONTEXT) - max (th_co2 (thresholds SPORCBOT_CONTEXT)))%Z /\
  includes (co2_reply SPORCBOT_CONTEXT) ("above target by " ++ num 2500 ++ " PPM") = true.
Proof.
  split; [vm_compute; reflexivity|].
  apply (co2_reply_excess SPORCBOT_CONTEXT). vm_compute. reflexivity.
Defined.

Theorem co2_reply_within (ctx : Context) :
  (co2 (sensors ctx) <= max (th_co2 (thresholds ctx)))%Z ->
  includes (co2_reply ctx) "This is optimal." = true.
Proof.
  intros H. unfold co2_reply.
  destruct (Z.ltb_spec 0 (co2 (sensors ctx) - max (th_co2 (thresholds ctx)))); [lia|].
  apply includes_app_r, includes_app_r. vm_compute. reflexivity.
Qed.

Lemma co2_reply_within_witness :
  (co2 (sensors humid_context) <= max (th_co2 (thresholds humid_context)))%Z /\
  includes (co2_reply humid_context) "This is optimal." = true.
Proof.
  split; [vm_compute; discriminate|].
  apply co2_reply_within. vm_compute. discriminate.
Defined.
