(* ===== verification/Severity.v ===== *)
(** * Severity: the dashboard status of [src/screens/Dashboard.tsx]

    [worstStatus] is the [reduce] of Dashboard.tsx (lines 17-21) over the
    metrics, here over any list of metrics ([Dashboard.worstStatus]) and
    over the shipped [MOCK_METRICS].  [getStatusColor] and [getStatusText]
    are the card's colour and title; [MetricTile] holds the tile colours
    of src/components/MetricTile.tsx and what a tile shows ([tile_view]);
    [dashboard_tiles] is the grid of Dashboard.tsx (lines 120-132), which
    never passes [isOffline].

    The reference specification ([worstOf], spec section 4.1) returns
    CRITICAL if some metric is critical, else WARNING if some metric is a
    warning, else NORMAL.  The fold implements it ([worstStatus_spec]);
    since two steps of the [reduce] commute ([worst_step_comm]), it does
    not depend on the order of the metrics (a [Proper] instance for
    [Permutation]). *)

From stdpp Require Import base list strings.
From Stdlib Require Import String ZArith Permutation Morphisms.
From S2P Require Import Prelude Types.

Open Scope string_scope.

Module Dashboard.

(** The callback of [MOCK_METRICS.reduce]. *)
Definition worst_step (acc : Severity) (curr : Metric.t) : Severity :=
  if decide (Metric.status curr = CRITICAL) then CRITICAL
  else if bool_decide (Metric.status curr = WARNING) && negb (bool_decide (acc = CRITICAL))
  then WARNING
  else acc.

Definition worstStatus (metrics : list Metric.t) : Severity :=
  fold_left worst_step metrics NORMAL.

Definition getStatusColor (s : Severity) : string :=
  if decide (s = CRITICAL) then "bg-alert-red text-white"
  else if decide (s = WARNING) then "bg-alert-yellow text-white"
  else "bg-alert-green text-white".

Definition getStatusText (s : Severity) : string :=
  if decide (s = CRITICAL) then "CRITICAL CONDITIONS"
  else if decide (s = WARNING) then "WARNING DETECTED"
  else "SYSTEM OPTIMAL".

End Dashboard.

Module MetricTile.

(** [getBorderColor] (MetricTile.tsx 16-24). *)
Definition getBorderColor (isOffline : bool) (status : Severity) : string :=
  if isOffline then "border-gray-200 dark:border-gray-700"
  else match status with
       | CRITICAL => "border-alert-red shadow-red-100 dark:shadow-none"
       | WARNING => "border-alert-yellow shadow-yellow-100 dark:shadow-none"
       | NORMAL => "border-alert-green shadow-green-100 dark:shadow-none"
       | OFFLINE => "border-gray-200 dark:border-gray-700"
       end.

(** [getTextColor] (MetricTile.tsx 26-34). *)
Definition getTextColor (isOffline : bool) (status : Severity) : string :=
  if isOffline then "text-offline"
  else match status with
       | CRITICAL => "text-alert-red"
       | WARNING => "text-alert-yellow"
       | _ => "text-gray-900 dark:text-white"
       end.

(** The sparkline colour (MetricTile.tsx 87). *)
Definition strokeColor (status : Severity) : string :=
  if decide (status = NORMAL) then "#10B981"
  else if decide (status = WARNING) then "#F59E0B"
  else "#EF4444".

(** What a tile shows (MetricTile.tsx 36-96): its border, the label, the
    fan icon ([Some spinning] when [metric.isFan && !isOffline]), the
    cloud icon of an offline tile, the value with its unit and colour
    (the word OFFLINE instead when [isOffline]), and the sparkline's
    colour and points ([history.map((val, idx) => ({ i: idx, v: val }))],
    none when offline). *)
Record TileView := mkTileView {
  border : string;
  label : string;
  fanIcon : option bool;
  offlineIcon : bool;
  shownValue : option (string * string * string);
  sparkline : option (string * list (nat * Z))
}.

Definition tile_view (isOffline : bool) (m : Metric.t) : TileView :=
  mkTileView (getBorderColor isOffline (Metric.status m)) (Metric.label m)
    (if (default false (Metric.isFan m)) && negb isOffline
     then Some (default false (Metric.isActive m)) else None)
    isOffline
    (if isOffline then None
     else Some (js_num_to_string (Metric.value m), Metric.unit m, getTextColor isOffline (Metric.status m)))
    (if isOffline then None
     else Some (strokeColor (Metric.status m), imap (fun i v => (i, v)) (Metric.history m))).

End MetricTile.

(** [MOCK_METRICS] (constants.ts 40-75), values in tenths. *)
Definition MOCK_METRICS : list Metric.t := [
  Metric.mk "temp" "Temperature" 225 "°C" NORMAL
    [210; 215; 220; 222; 225; 225; 224; 225]%Z None None;
  Metric.mk "humidity" "Humidity %RH" 780 "%" WARNING
    [850; 840; 820; 800; 790; 780; 780; 780]%Z None None;
  Metric.mk "co2" "CO2" 8500 "ppm" NORMAL
    [8000; 8100; 8200; 8300; 8400; 8500; 8500; 8500]%Z None None;
  Metric.mk "aer" "Air Flow (ACH)" 124 "ACH" NORMAL
    [120; 120; 120; 122; 124; 124; 124; 124]%Z (Some true) (Some true)
].

(** The metric grid of the dashboard (Dashboard.tsx 119-132): one tile
    per metric, with the [isOffline] prop left at its default [false]. *)
Definition dashboard_tiles (metrics : list Metric.t) : list MetricTile.TileView :=
  map (MetricTile.tile_view false) metrics.

(** ** Reference specification *)

Module SeveritySpec.
Definition has_status (s : Severity) (metrics : list Metric.t) : bool :=
  existsb (fun m => bool_decide (Metric.status m = s)) metrics.

Definition worstOf (metrics : list Metric.t) : Severity :=
  if has_status CRITICAL metrics then CRITICAL
  else if has_status WARNING metrics then WARNING
  else NORMAL.

(** CRITICAL > WARNING > NORMAL; an offline metric ranks as normal. *)
Definition rank (s : Severity) : nat :=
  match s with CRITICAL => 2 | WARNING => 1 | NORMAL | OFFLINE => 0 end.
End SeveritySpec.

Import Dashboard SeveritySpec.

Definition offline_metrics : list Metric.t :=
  map (fun m => Metric.mk (Metric.id m) (Metric.label m) (Metric.value m) (Metric.unit m)
                          OFFLINE (Metric.history m) (Metric.isFan m) (Metric.isActive m))
      MOCK_METRICS.

(** ** Lemmas *)

(** Once CRITICAL, the fold stays CRITICAL. *)
Lemma fold_worst_critical (ms : list Metric.t) :
  fold_left worst_step ms CRITICAL = CRITICAL.
Proof.
  induction ms as [|m ms IH]; simpl; [done|].
  unfold worst_step at 2. case_decide; [done|]. by rewrite andb_false_r.
Qed.

(** From any accumulator the fold computes the accumulator joined with
    the specification's worst status. *)
Lemma fold_worst_acc (ms : list Metric.t) (acc : Severity) :
  acc <> OFFLINE ->
  fold_left worst_step ms acc =
    if has_status CRITICAL ms then CRITICAL
    else if has_status WARNING ms then (if decide (acc = CRITICAL) then CRITICAL else WARNING)
    else acc.
Proof.
  revert acc. induction ms as [|m ms IH]; intros acc Hacc; simpl; [done|].
  unfold worst_step at 2.
  destruct (Metric.status m) eqn:Hs; simpl.
  - rewrite fold_worst_critical. by destruct (has_status _ _).
  - rewrite IH by (destruct acc; done).
    destruct acc; simpl; repeat case_match; done.
  - rewrite IH by done. repeat case_match; done.
  - rewrite IH by done. repeat case_match; done.
Qed.

Lemma has_status_false_In (s : Severity) (ms : list Metric.t) (m : Metric.t) :
  has_status s ms = false -> In m ms -> Metric.status m <> s.
Proof.
  unfold has_status. intros H Hin Heq.
  assert (Hex : existsb (fun m => bool_decide (Metric.status m = s)) ms = true).
  { apply existsb_exists. exists m. split; [done|]. by apply bool_decide_eq_true. }
  congruence.
Qed.

Lemma has_status_true_In (s : Severity) (ms : list Metric.t) :
  has_status s ms = true -> exists m, In m ms /\ Metric.status m = s.
Proof.
  unfold has_status. intros [m [Hin Hb]]%existsb_exists.
  exists m. split; [done|]. by apply bool_decide_eq_true in Hb.
Qed.

Lemma worstStatus_unfold (ms : list Metric.t) :
  worstStatus ms =
    if has_status CRITICAL ms then CRITICAL
    else if has_status WARNING ms then WARNING else NORMAL.
Proof. unfold worstStatus. by rewrite fold_worst_acc. Qed.

(** Two steps of the [reduce] commute. *)
Lemma worst_step_comm (acc : Severity) (x y : Metric.t) :
  worst_step (worst_step acc x) y = worst_step (worst_step acc y) x.
Proof. unfold worst_step. destruct (Metric.status x), (Metric.status y), acc; reflexivity. Qed.

(** The dashboard status does not depend on the order of the metrics. *)
#[export] Instance worstStatus_proper : Proper (@Permutation Metric.t ==> eq) worstStatus.
Proof. intros ms ms' H. apply fold_left_perm; [apply worst_step_comm | done]. Qed.

(** C2: The [reduce] of Dashboard.tsx computes the specification's worst
    status: CRITICAL if some metric is critical, else WARNING if some
    metric is a warning, else NORMAL (also for no metrics at all). *)
Theorem worstStatus_spec (ms : list Metric.t) : worstStatus ms = worstOf ms.
Proof. rewrite worstStatus_unfold. reflexivity. Qed.

(** Reordering the metrics does not change the dashboard status. *)
Theorem worstStatus_order_independent (ms ms' : list Metric.t) :
  Permutation ms ms' -> worstStatus ms = worstStatus ms'.
Proof. intros H. by rewrite H. Qed.

Lemma worstStatus_order_independent_witness :
  Permutation MOCK_METRICS (rev MOCK_METRICS) /\
  worstStatus MOCK_METRICS = worstStatus (rev MOCK_METRICS).
Proof.
  assert (H : Permutation MOCK_METRICS (rev MOCK_METRICS)) by apply Permutation_rev.
  split; [exact H | exact (worstStatus_order_independent _ _ H)].
Defined.

(** The dashboard status is the maximum of the metrics' statuses in
    the order CRITICAL > WARNING > NORMAL: it ranks at least as high as
    every metric, it is never OFFLINE, and unless it is NORMAL some
    metric has it. *)
Theorem worstStatus_is_max (ms : list Metric.t) :
  (forall m, In m ms -> rank (Metric.status m) <= rank (worstStatus ms)) /\
  worstStatus ms <> OFFLINE /\
  (worstStatus ms = NORMAL \/ exists m, In m ms /\ Metric.status m = worstStatus ms).
Proof.
  rewrite worstStatus_unfold.
  destruct (has_status CRITICAL ms) eqn:Hc; [|destruct (has_status WARNING ms) eqn:Hw].
  - split; [intros m _; destruct (Metric.status m); simpl; lia|].
    split; [done|]. right. by apply has_status_true_In.
  - split; [|split; [done|right; by apply has_status_true_In]].
    intros m Hm. pose proof (has_status_false_In _ _ _ Hc Hm).
    destruct (Metric.status m); simpl; done || lia.
  - split; [|split; [done|by left]].
    intros m Hm. pose proof (has_status_false_In _ _ _ Hc Hm).
    pose proof (has_status_false_In _ _ _ Hw Hm).
    destruct (Metric.status m); simpl; done || lia.
Qed.

(** C32: A dashboard whose metrics are all OFFLINE shows "SYSTEM OPTIMAL":
    the fold skips OFFLINE metrics and starts from NORMAL. *)
Theorem all_offline_shows_optimal (ms : list Metric.t) :
  Forall (fun m => Metric.status m = OFFLINE) ms ->
  getStatusText (worstStatus ms) = "SYSTEM OPTIMAL".
Proof.
  intros H. rewrite worstStatus_unfold.
  assert (Hn : forall s, s <> OFFLINE -> has_status s ms = false).
  { intros s Hs. unfold has_status. apply not_true_iff_false. intros [m [Hin Hb]]%existsb_exists.
    apply bool_decide_eq_true in Hb. rewrite List.Forall_forall in H.
    rewrite (H m Hin) in Hb. by subst. }
  by rewrite !Hn.
Qed.

Lemma all_offline_shows_optimal_witness :
  Forall (fun m => Metric.status m = OFFLINE) offline_metrics /\
  getStatusText (worstStatus offline_metrics) = "SYSTEM OPTIMAL".
Proof.
  assert (H : Forall (fun m => Metric.status m = OFFLINE) offline_metrics)
    by (repeat constructor).
  split; [exact H | exact (all_offline_shows_optimal _ H)].
Defined.

(** C29: An OFFLINE metric looks live on the dashboard.  The dashboard
    never passes [isOffline] to its tiles, so a metric whose status is
    OFFLINE is shown with its last value and unit, without the cloud
    icon or the word OFFLINE, and with its stale history drawn in the red
    of a CRITICAL metric. *)
Theorem offline_tile_looks_live (ms : list Metric.t) (m : Metric.t) :
  In m ms -> Metric.status m = OFFLINE ->
  In (MetricTile.tile_view false m) (dashboard_tiles ms) /\
  MetricTile.offlineIcon (MetricTile.tile_view false m) = false /\
  MetricTile.shownValue (MetricTile.tile_view false m) =
    Some (js_num_to_string (Metric.value m), Metric.unit m, "text-gray-900 dark:text-white") /\
  MetricTile.sparkline (MetricTile.tile_view false m) =
    Some (MetricTile.strokeColor CRITICAL, imap (fun i v => (i, v)) (Metric.history m)).
Proof.
  intros Hin Hs. split; [by apply in_map|].
  unfold MetricTile.tile_view. simpl. by rewrite Hs.
Qed.

Lemma offline_tile_looks_live_witness :
  (In (hd (Metric.mk "" "" 0 "" OFFLINE [] None None) offline_metrics) offline_metrics /\
   Metric.status (hd (Metric.mk "" "" 0 "" OFFLINE [] None None) offline_metrics) = OFFLINE) /\
  MetricTile.sparkline (MetricTile.tile_view false (hd (Metric.mk "" "" 0 "" OFFLINE [] None None) offline_metrics)) =
    Some (MetricTile.strokeColor CRITICAL,
          imap (fun i v => (i, v)) (Metric.history (hd (Metric.mk "" "" 0 "" OFFLINE [] None None) offline_metrics))).
Proof.
  assert (H1 : In (hd (Metric.mk "" "" 0 "" OFFLINE [] None None) offline_metrics) offline_metrics) by (left; reflexivity).
  assert (H2 : Metric.status (hd (Metric.mk "" "" 0 "" OFFLINE [] None None) offline_metrics) = OFFLINE) by reflexivity.
  split; [split; [exact H1 | exact H2]|].
  exact (proj2 (proj2 (proj2 (offline_tile_looks_live _ _ H1 H2)))).
Defined.
