(* ===== verification/Lifecycle.v ===== *)
(** * Lifecycle: the cultivation progress cards of [src/screens/Progress.tsx]

    Module [Progress] translates the component: the [Phase] and
    [MushroomLifecycle] interfaces (lines 6-20), the seven tables of
    [MUSHROOM_DATA] (23-110), [getDaysRemaining] (120-122), the loop of
    [getCurrentPhase] (124-133, with its unused [dayCount] kept as loop
    state), the expand toggle (113-118), and the per-card values computed in
    the [MUSHROOM_DATA.map] callback (151-155, 208, 249-250) gathered in
    [card].

    Day counts are JavaScript numbers; the model uses [Z] (so that
    [Math.max(0, total - current)] is written as it is).  The two divisions
    ([currentDay / totalDays] and [duration / totalDays]) are IEEE
    divisions that can give [NaN] or [Infinity]; [JsNum] keeps those
    results, with exact rationals for the finite ones (the model does not
    round to doubles).

    Module [LifecycleSpec] states when a table is well formed (phases
    contiguous from day 1, positive durations, total at least their sum)
    and the reference lookup of the phase containing a day, written with
    the spec's interval [startDay <= day < startDay + duration] rather
    than the code's test [in_phase], so that the equivalence theorem
    checks that test. *)

From stdpp Require Import base list strings.
From Stdlib Require Import String ZArith QArith Qminmax Lia.
From S2P Require Import Prelude Types.

Open Scope string_scope.

(** A JavaScript number produced by a division. *)
Inductive JsNum := Fin (q : Q) | NaN | PosInf | NegInf.

(** [a / b] *)
Definition js_div (a b : Z) : JsNum :=
  if (b =? 0)%Z then
    (if (a =? 0)%Z then NaN else if (0 <? a)%Z then PosInf else NegInf)
  else Fin (inject_Z a / inject_Z b).

(** [x * 100] *)
Definition js_mul100 (x : JsNum) : JsNum :=
  match x with
  | Fin q => Fin (q * 100)
  | v => v
  end.

(** [Math.min(100, x)]: [NaN] if [x] is [NaN]. *)
Definition js_min100 (x : JsNum) : JsNum :=
  match x with
  | Fin q => Fin (Qmin 100 q)
  | NaN => NaN
  | PosInf => Fin 100
  | NegInf => NegInf
  end.

Module Progress.

Record Phase := mkPhase {
  name : string;
  startDay : Z;
  duration : Z;
  color : string
}.

Record MushroomLifecycle := mkLifecycle {
  varietyName : string;
  chamberId : string;
  currentDay : Z;
  totalDays : Z;
  emoji : string;
  phases : list Phase
}.

Definition MUSHROOM_DATA : list MushroomLifecycle := [
  mkLifecycle "Shiitake" "Chamber 1" 45 100 "🍄" [
    mkPhase "Mycelial Run" 1 60 "bg-green-700";
    mkPhase "Pinning Induction" 61 20 "bg-orange-500";
    mkPhase "Fruiting & Harvest" 81 20 "bg-amber-700" ];
  mkLifecycle "Oyster" "Chamber 2" 28 35 "🍄" [
    mkPhase "Mycelial Run" 1 15 "bg-blue-600";
    mkPhase "Pinning Induction" 16 5 "bg-cyan-500";
    mkPhase "Fruiting & Harvest" 21 14 "bg-indigo-600" ];
  mkLifecycle "Button" "Chamber 3" 90 105 "🍄" [
    mkPhase "Phase 1" 1 30 "bg-green-800";
    mkPhase "Phase 2" 31 40 "bg-green-600";
    mkPhase "Pinning & Casing" 71 15 "bg-yellow-500";
    mkPhase "Fruiting & Harvest" 86 19 "bg-amber-900" ];
  mkLifecycle "Milky" "Chamber 4" 30 55 "🍄" [
    mkPhase "Mycelial Run" 1 25 "bg-purple-700";
    mkPhase "Casing & Pinning" 26 10 "bg-pink-500";
    mkPhase "Fruiting & Harvest" 36 19 "bg-gray-400" ];
  mkLifecycle "Lion's Mane" "Chamber 5" 10 45 "🍄" [
    mkPhase "Mycelial Run" 1 20 "bg-teal-600";
    mkPhase "Pinning Induction" 21 5 "bg-yellow-600";
    mkPhase "Fruiting & Harvest" 26 19 "bg-pink-700" ];
  mkLifecycle "Enoki" "Chamber 6" 48 50 "🍄" [
    mkPhase "Mycelial Run" 1 30 "bg-indigo-700";
    mkPhase "Pinning Induction" 31 10 "bg-cyan-500";
    mkPhase "Fruiting" 41 9 "bg-gray-500";
    mkPhase "Harvest Window" 50 1 "bg-red-600" ];
  mkLifecycle "Portobello" "Chamber 7" 5 70 "🍄" [
    mkPhase "Incubation/Run" 1 40 "bg-green-900";
    mkPhase "Casing & Pinning" 41 10 "bg-lime-700";
    mkPhase "Fruiting & Harvest" 51 19 "bg-amber-900" ]
].

(** [toggleExpand]: the id of the expanded card, if any. *)
Definition toggleExpand (expandedId : option string) (chamberId : string) : option string :=
  if decide (expandedId = Some chamberId) then None else Some chamberId.

Definition getDaysRemaining (total current : Z) : Z :=
  Z.max 0 (total - current).

(** The test of the loop body and of the legend (lines 127 and 249). *)
Definition in_phase (day : Z) (p : Phase) : bool :=
  (startDay p <=? day)%Z && (day <? startDay p + duration p)%Z.

(** The [for (const phase of lifecycle.phases)] loop: an early [return]
    of the name, or the end of the loop. *)
Fixpoint getCurrentPhase_loop (day : Z) (ps : list Phase) (dayCount : Z) : option string :=
  match ps with
  | [] => None
  | p :: ps' =>
      if in_phase day p then Some (name p)
      else getCurrentPhase_loop day ps' (dayCount + duration p)
  end.

Definition getCurrentPhase (l : MushroomLifecycle) : string :=
  match getCurrentPhase_loop (currentDay l) (phases l) 0 with
  | Some n => n
  | None => if (totalDays l <=? currentDay l)%Z then "Ready for Harvest" else "Unknown Phase"
  end.

(** [Math.min(100, (currentDay / totalDays) * 100)] *)
Definition progressPercent (l : MushroomLifecycle) : JsNum :=
  js_min100 (js_mul100 (js_div (currentDay l) (totalDays l))).

(** [(phase.duration / totalDays) * 100] *)
Definition widthPercent (l : MushroomLifecycle) (p : Phase) : JsNum :=
  js_mul100 (js_div (duration p) (totalDays l)).

(** [isCurrentPhase] and [isCompleted] of the legend. *)
Definition isCurrentPhase (l : MushroomLifecycle) (p : Phase) : bool :=
  in_phase (currentDay l) p.

Definition isCompleted (l : MushroomLifecycle) (p : Phase) : bool :=
  (startDay p + duration p <=? currentDay l)%Z.

Record Card := mkCard {
  card_daysRemaining : Z;
  card_isCritical : bool;
  card_progressPercent : JsNum;
  card_currentPhaseName : string;
  card_badge : string;
  card_isExpanded : bool;
  card_segments : list JsNum;
  card_legend : list (string * bool * bool)
}.

(** The body of [MUSHROOM_DATA.map((mushroom) => ...)]. *)
Definition card (expandedId : option string) (l : MushroomLifecycle) : Card :=
  let daysRemaining := getDaysRemaining (totalDays l) (currentDay l) in
  {| card_daysRemaining := daysRemaining;
     card_isCritical := (daysRemaining <=? 5)%Z;
     card_progressPercent := progressPercent l;
     card_currentPhaseName := getCurrentPhase l;
     card_badge := if (daysRemaining =? 0)%Z then "HARVEST NOW"
                   else js_num_to_string (10 * daysRemaining) ++ " Days Left";
     card_isExpanded := bool_decide (expandedId = Some (chamberId l));
     card_segments := map (widthPercent l) (phases l);
     card_legend := map (fun p => (name p, isCurrentPhase l p, isCompleted l p)) (phases l) |}.

End Progress.

Module LifecycleSpec.
Import Progress.

(** Phases contiguous from day [s], each of positive duration. *)
Fixpoint tiles (s : Z) (ps : list Phase) : bool :=
  match ps with
  | [] => true
  | p :: ps' => (startDay p =? s)%Z && (0 <? duration p)%Z && tiles (s + duration p) ps'
  end.

Definition span (ps : list Phase) : Z := fold_right (fun p acc => duration p + acc)%Z 0%Z ps.

(** The spec's data-model invariant: contiguous phases from day 1 and
    [sum(phase.duration) <= totalDays]. *)
Definition well_formed (l : MushroomLifecycle) : bool :=
  tiles 1 (phases l) && (span (phases l) <=? totalDays l)%Z.

(** The reference lookup, stated with the spec's interval rather than
    the code's test: the first phase with
    [startDay <= currentDay < startDay + duration]. *)
Fixpoint phase_at (day : Z) (ps : list Phase) : option Phase :=
  match ps with
  | [] => None
  | p :: ps' => if decide (startDay p <= day < startDay p + duration p)%Z then Some p else phase_at day ps'
  end.
End LifecycleSpec.

Import Progress LifecycleSpec.

(** A lifecycle card at another current day. *)
Definition at_day (l : MushroomLifecycle) (d : Z) : MushroomLifecycle :=
  mkLifecycle (varietyName l) (chamberId l) d (totalDays l) (emoji l) (phases l).

(** ** Lemmas *)

Lemma in_phase_iff (day : Z) (p : Phase) :
  in_phase day p = true <-> (startDay p <= day < startDay p + duration p)%Z.
Proof. unfold in_phase. rewrite andb_true_iff, Z.leb_le, Z.ltb_lt. done. Qed.

Lemma in_phase_false (day : Z) (p : Phase) :
  in_phase day p = false <-> (day < startDay p \/ startDay p + duration p <= day)%Z.
Proof. rewrite <- not_true_iff_false, in_phase_iff. lia. Qed.

(** The code's test [in_phase] finds the phase of the reference. *)
Lemma phase_at_find (day : Z) (ps : list Phase) : phase_at day ps = List.find (in_phase day) ps.
Proof.
  induction ps as [|p ps IH]; [done|]. simpl.
  destruct (in_phase day p) eqn:E; case_decide as Hd; try done.
  - exfalso. by apply Hd, in_phase_iff.
  - apply in_phase_iff in Hd. congruence.
Qed.

Lemma tiles_cons (s : Z) (p : Phase) (ps : list Phase) :
  tiles s (p :: ps) = true <->
  startDay p = s /\ (0 < duration p)%Z /\ tiles (s + duration p) ps = true.
Proof. simpl. rewrite !andb_true_iff, Z.eqb_eq, Z.ltb_lt. tauto. Qed.

Lemma span_cons (p : Phase) (ps : list Phase) : span (p :: ps) = (duration p + span ps)%Z.
Proof. reflexivity. Qed.

Lemma tiles_span_nonneg (s : Z) (ps : list Phase) : tiles s ps = true -> (0 <= span ps)%Z.
Proof.
  revert s. induction ps as [|p ps IH]; intros s; [simpl; lia|].
  rewrite tiles_cons, span_cons. intros (_ & Hd & Ht). specialize (IH _ Ht). lia.
Qed.

(** Every phase of a tiling from [s] starts at [s] or later and ends by
    the end of the tiling. *)
Lemma tiles_In_bounds (s : Z) (ps : list Phase) (q : Phase) :
  tiles s ps = true -> In q ps ->
  (s <= startDay q /\ 0 < duration q /\ startDay q + duration q <= s + span ps)%Z.
Proof.
  revert s. induction ps as [|p ps IH]; intros s Ht Hin; [done|].
  apply tiles_cons in Ht as (Hs & Hd & Ht). rewrite span_cons.
  pose proof (tiles_span_nonneg _ _ Ht).
  destruct Hin as [<-|Hin]; [lia|]. specialize (IH _ Ht Hin). lia.
Qed.

Lemma tiles_app (s : Z) (pre ps : list Phase) :
  tiles s (pre ++ ps) = tiles s pre && tiles (s + span pre) ps.
Proof.
  revert s. induction pre as [|p pre IH]; intros s; simpl.
  - by rewrite Z.add_0_r.
  - rewrite IH, Z.add_assoc. by rewrite !andb_assoc.
Qed.

(** The loop computes the reference lookup; its [dayCount] plays no part. *)
Lemma getCurrentPhase_loop_find (day : Z) (ps : list Phase) (dayCount : Z) :
  getCurrentPhase_loop day ps dayCount = name <$> phase_at day ps.
Proof.
  rewrite phase_at_find. revert dayCount.
  induction ps as [|p ps IH]; intros dc; simpl; [done|].
  destruct (in_phase day p); [done | apply IH].
Qed.

(** Inside a tiling the lookup finds the phase that contains the day, and
    it is the only phase that does. *)
Lemma tiles_phase_at_unique (s day : Z) (ps : list Phase) (q : Phase) :
  tiles s ps = true -> In q ps -> in_phase day q = true -> phase_at day ps = Some q.
Proof.
  rewrite phase_at_find. revert s. induction ps as [|p ps IH]; intros s Ht Hin Hq; [done|].
  apply tiles_cons in Ht as (Hs & Hd & Ht). simpl.
  destruct Hin as [<-|Hin]; [by rewrite Hq|].
  pose proof (tiles_In_bounds _ _ _ Ht Hin). pose proof (proj1 (in_phase_iff _ _) Hq).
  assert (in_phase day p = false) as -> by (apply in_phase_false; lia).
  by apply (IH (s + duration p)%Z).
Qed.

Lemma tiles_phase_at_some (s day : Z) (ps : list Phase) :
  tiles s ps = true -> (s <= day < s + span ps)%Z ->
  exists p, In p ps /\ in_phase day p = true /\ phase_at day ps = Some p.
Proof.
  rewrite phase_at_find. revert s. induction ps as [|p ps IH]; intros s Ht Hday; [simpl in Hday; lia|].
  apply tiles_cons in Ht as (Hs & Hd & Ht). rewrite span_cons in Hday. simpl.
  destruct (in_phase day p) eqn:Hp.
  - exists p. by split; [left|].
  - apply in_phase_false in Hp.
    destruct (IH (s + duration p)%Z Ht) as (q & Hin & Hq & Hf); [lia|].
    exists q. by split; [right|].
Qed.

Lemma tiles_phase_at_none (s day : Z) (ps : list Phase) :
  tiles s ps = true -> (day < s \/ s + span ps <= day)%Z -> phase_at day ps = None.
Proof.
  rewrite phase_at_find. revert s. induction ps as [|p ps IH]; intros s Ht Hday; [done|].
  apply tiles_cons in Ht as (Hs & Hd & Ht). rewrite span_cons in Hday. simpl.
  pose proof (tiles_span_nonneg _ _ Ht).
  assert (in_phase day p = false) as -> by (apply in_phase_false; lia).
  apply (IH (s + duration p)%Z Ht). lia.
Qed.

(** ** Theorems *)

(** C3: [getCurrentPhase] returns the name of the first phase whose
    interval [startDay, startDay + duration) contains the current day;
    when there is none, "Ready for Harvest" if the current day has
    reached [totalDays] and "Unknown Phase" otherwise.  The [dayCount] the
    loop accumulates has no effect. *)
Theorem getCurrentPhase_spec (l : MushroomLifecycle) :
  getCurrentPhase l =
    match phase_at (currentDay l) (phases l) with
    | Some p => name p
    | None => if (totalDays l <=? currentDay l)%Z then "Ready for Harvest" else "Unknown Phase"
    end.
Proof. unfold getCurrentPhase. rewrite getCurrentPhase_loop_find. by destruct (phase_at _ _). Qed.

(** C22: For a table of contiguous phases from day 1, every day from 1
    to the end of the last phase lies in exactly one phase, and
    [getCurrentPhase] names the phase containing the current day. *)
Theorem getCurrentPhase_tiled (l : MushroomLifecycle) :
  tiles 1 (phases l) = true ->
  (1 <= currentDay l < 1 + span (phases l))%Z ->
  exists p, In p (phases l) /\ in_phase (currentDay l) p = true /\
    (forall q, In q (phases l) -> in_phase (currentDay l) q = true -> q = p) /\
    getCurrentPhase l = name p.
Proof.
  intros Ht Hday.
  destruct (tiles_phase_at_some _ _ _ Ht Hday) as (p & Hin & Hp & Hf).
  exists p. split; [done|]. split; [done|]. split.
  - intros q Hq Hdq. pose proof (tiles_phase_at_unique _ _ _ _ Ht Hq Hdq). congruence.
  - unfold getCurrentPhase. by rewrite getCurrentPhase_loop_find, Hf.
Qed.

Lemma getCurrentPhase_tiled_witness :
  let l := nth 0 MUSHROOM_DATA (mkLifecycle "" "" 0 0 "" []) in
  (tiles 1 (phases l) = true /\ (1 <= currentDay l < 1 + span (phases l))%Z) /\
  exists p, In p (phases l) /\ in_phase (currentDay l) p = true /\
    (forall q, In q (phases l) -> in_phase (currentDay l) q = true -> q = p) /\
    getCurrentPhase l = name p.
Proof.
  split; [split; [reflexivity | vm_compute; split; congruence]|].
  apply getCurrentPhase_tiled; [reflexivity | vm_compute; split; congruence].
Defined.

(** For a table of contiguous phases from day 1, a current day
    before day 1 or after the last phase gets a sentinel: "Ready for
    Harvest" once the day has reached [totalDays], "Unknown Phase"
    before. *)
Theorem getCurrentPhase_outside (l : MushroomLifecycle) :
  tiles 1 (phases l) = true ->
  (currentDay l < 1 \/ 1 + span (phases l) <= currentDay l)%Z ->
  getCurrentPhase l =
    if (totalDays l <=? currentDay l)%Z then "Ready for Harvest" else "Unknown Phase".
Proof.
  intros Ht Hday. unfold getCurrentPhase.
  by rewrite getCurrentPhase_loop_find, (tiles_phase_at_none _ _ _ Ht Hday).
Qed.

Lemma getCurrentPhase_outside_witness :
  let l := at_day (nth 1 MUSHROOM_DATA (mkLifecycle "" "" 0 0 "" [])) 35 in
  (tiles 1 (phases l) = true /\ (currentDay l < 1 \/ 1 + span (phases l) <= currentDay l)%Z) /\
  getCurrentPhase l = "Ready for Harvest".
Proof.
  split; [split; [reflexivity | right; vm_compute; congruence]|].
  rewrite getCurrentPhase_outside; [reflexivity | reflexivity | right; vm_compute; congruence].
Defined.

(** The shipped tables disagree on the last day.  Shiitake and Enoki
    end their last phase on day [totalDays] + 1 (exclusive), so on day
    [totalDays] the card names the last phase; the other five end one day
    earlier, so on day [totalDays] the card says "Ready for Harvest".
    The spec expects "Ready for Harvest" on day [totalDays] = 100 for
    Shiitake. *)
Example harvest_day_disagreement :
  map (fun l => getCurrentPhase (at_day l (totalDays l))) MUSHROOM_DATA =
    ["Fruiting & Harvest"; "Ready for Harvest"; "Ready for Harvest"; "Ready for Harvest";
     "Ready for Harvest"; "Harvest Window"; "Ready for Harvest"] /\
  map (fun l => (totalDays l - span (phases l))%Z) MUSHROOM_DATA = [0; 1; 1; 1; 1; 0; 1]%Z /\
  forallb well_formed MUSHROOM_DATA = true.
Proof. vm_compute. auto. Qed.

(** The expanded legend agrees with the phase bar: in a table of
    contiguous phases, when the current day lies in phase [p], every
    phase before [p] is marked completed and not current, [p] is current
    and not completed, and no phase after [p] is marked either way. *)
Theorem legend_consistent (l : MushroomLifecycle) (pre post : list Phase) (p : Phase) :
  tiles 1 (phases l) = true ->
  phases l = (pre ++ p :: post)%list ->
  in_phase (currentDay l) p = true ->
  Forall (fun q => isCompleted l q = true /\ isCurrentPhase l q = false) pre /\
  isCurrentPhase l p = true /\ isCompleted l p = false /\
  Forall (fun q => isCompleted l q = false /\ isCurrentPhase l q = false) post.
Proof.
  intros Ht Hps Hp. rewrite Hps, tiles_app in Ht. apply andb_true_iff in Ht as [Hpre Hrest].
  apply tiles_cons in Hrest as (Hs & Hd & Hpost).
  pose proof (proj1 (in_phase_iff _ _) Hp) as Hday.
  unfold isCompleted, isCurrentPhase.
  split; [|split; [done|split]].
  - apply List.Forall_forall. intros q Hq.
    pose proof (tiles_In_bounds _ _ _ Hpre Hq).
    split; [apply Z.leb_le; lia | apply in_phase_false; lia].
  - apply Z.leb_gt. lia.
  - apply List.Forall_forall. intros q Hq.
    pose proof (tiles_In_bounds _ _ _ Hpost Hq).
    split; [apply Z.leb_gt; lia | apply in_phase_false; lia].
Qed.

Lemma legend_consistent_witness :
  let l := nth 2 MUSHROOM_DATA (mkLifecycle "" "" 0 0 "" []) in
  (tiles 1 (phases l) = true /\
   phases l = (take 3 (phases l) ++ mkPhase "Fruiting & Harvest" 86 19 "bg-amber-900" :: [])%list /\
   in_phase (currentDay l) (mkPhase "Fruiting & Harvest" 86 19 "bg-amber-900") = true) /\
  Forall (fun q => isCompleted l q = true /\ isCurrentPhase l q = false) (take 3 (phases l)) /\
  isCurrentPhase l (mkPhase "Fruiting & Harvest" 86 19 "bg-amber-900") = true /\
  isCompleted l (mkPhase "Fruiting & Harvest" 86 19 "bg-amber-900") = false /\
  Forall (fun q => isCompleted l q = false /\ isCurrentPhase l q = false) [].
Proof.
  split; [split; [reflexivity | split; reflexivity]|].
  apply legend_consistent; reflexivity.
Defined.

(** [getDaysRemaining] is never negative: it is [total - current]
    while the current day has not passed the total, and 0 after (the
    spec's examples: 35 and 28 give 7, 35 and 40 give 0). *)
Theorem getDaysRemaining_bounds (total current : Z) :
  (0 <= getDaysRemaining total current)%Z /\
  ((current <= total)%Z -> getDaysRemaining total current = (total - current)%Z) /\
  ((total <= current)%Z -> getDaysRemaining total current = 0%Z).
Proof. unfold getDaysRemaining. lia. Qed.

Lemma Qmin_bounds (q : Q) : 0 <= q -> 0 <= Qmin 100 q <= 100.
Proof.
  intros Hq. split.
  - apply Q.min_glb; [discriminate | done].
  - apply Q.le_min_l.
Qed.

Lemma inject_Z_pos (b : Z) : (0 < b)%Z -> 0 < inject_Z b.
Proof. intros Hb. change 0 with (inject_Z 0). rewrite <- Zlt_Qlt. lia. Qed.

Lemma div_nonneg (a b : Z) : (0 <= a)%Z -> (0 < b)%Z -> 0 <= inject_Z a / inject_Z b.
Proof.
  intros Ha Hb. apply Qle_shift_div_l; [by apply inject_Z_pos|].
  rewrite Qmult_0_l. change 0 with (inject_Z 0). rewrite <- Zle_Qle. lia.
Qed.

Lemma div_le_1 (a b : Z) : (a <= b)%Z -> (0 < b)%Z -> inject_Z a / inject_Z b <= 1.
Proof.
  intros Ha Hb. apply Qle_shift_div_r; [by apply inject_Z_pos|].
  rewrite Qmult_1_l. rewrite <- Zle_Qle. lia.
Qed.

(** C30: With a positive [totalDays] and a non-negative current day the
    progress marker is a finite percentage between 0 and 100; it is
    exactly [currentDay / totalDays * 100] until the total is reached. *)
Theorem progressPercent_bounds (l : MushroomLifecycle) :
  (0 < totalDays l)%Z -> (0 <= currentDay l)%Z ->
  exists q, progressPercent l = Fin q /\ 0 <= q <= 100 /\
    ((currentDay l <= totalDays l)%Z -> q == inject_Z (currentDay l) / inject_Z (totalDays l) * 100).
Proof.
  intros Ht Hc. unfold progressPercent, js_div.
  destruct (Z.eqb_spec (totalDays l) 0) as [|_]; [lia|]. simpl.
  pose proof (div_nonneg _ _ Hc Ht) as Hr.
  exists (Qmin 100 (inject_Z (currentDay l) / inject_Z (totalDays l) * 100)).
  split; [done|]. split.
  - apply Qmin_bounds. apply Qmult_le_0_compat; [done | discriminate].
  - intros Hle. apply Q.min_r.
    rewrite <- (Qmult_1_l 100) at 2. apply Qmult_le_compat_r; [|discriminate].
    by apply div_le_1.
Qed.

Lemma progressPercent_bounds_witness :
  let l := nth 0 MUSHROOM_DATA (mkLifecycle "" "" 0 0 "" []) in
  ((0 < totalDays l)%Z /\ (0 <= currentDay l)%Z) /\
  exists q, progressPercent l = Fin q /\ 0 <= q <= 100 /\
    ((currentDay l <= totalDays l)%Z -> q == inject_Z (currentDay l) / inject_Z (totalDays l) * 100).
Proof.
  split; [split; vm_compute; congruence|].
  apply progressPercent_bounds; vm_compute; congruence.
Defined.

(** C31: With [totalDays] = 0 the code divides by zero: the progress is
    [NaN] on day 0 and 100 on a later day.  The spec requires a defined
    result (for example 0) when [totalDays] is 0. *)
Theorem progressPercent_zero_total (l : MushroomLifecycle) :
  totalDays l = 0%Z ->
  progressPercent l =
    if (currentDay l =? 0)%Z then NaN
    else if (0 <? currentDay l)%Z then Fin 100 else NegInf.
Proof.
  intros H. unfold progressPercent, js_div. rewrite H. simpl.
  by case_ifs.
Qed.

Lemma progressPercent_zero_total_witness :
  totalDays (mkLifecycle "Shiitake" "Chamber 1" 0 0 "" []) = 0%Z /\
  progressPercent (mkLifecycle "Shiitake" "Chamber 1" 0 0 "" []) = NaN.
Proof. split; [reflexivity|]. by rewrite progressPercent_zero_total. Defined.
