(* ===== verification/Trends.v ===== *)
(** * Trends: the trend series of [src/constants.ts] and the charts of
      [src/screens/Trends.tsx]

    [generateTrend] (constants.ts 188-192) builds 24 hourly points whose
    value is [base + Math.random() * variance - variance / 2].  The calls
    of [Math.random()] are one stream, drawn in the order the module
    evaluates [TRENDS_DATA] (constants.ts 194-231): the temperature series
    takes draws 0-23, humidity 24-47, CO2 48-71 and air flow 72-95.  The
    stream is a parameter [rnd] with values in [0, 1).  Values are exact
    rationals ([Q]): the model does not round as the floating-point
    arithmetic of the code does, and its bounds are closed.

    The screen draws each series with its optimal band (Trends.tsx
    77-140): the band label, and the hour axis whose [tickFormatter]
    (line 120) keeps the text before the first [':'] of each label.  The
    period buttons (lines 59-73, [period_buttons]) change the [period]
    state only: the series do not depend on it.  Hovering a point shows
    [CustomTooltip] (lines 22-34) with the value printed by [toFixed1]
    ([toFixed(1)], ties rounded up in magnitude).  Moving the pointer
    over a card tilts it ([tilt], lines 79-92): the offset from the
    card's centre, scaled to [-50, 50] at its edges, mapped by
    framer-motion's [useTransform] ([transform], clamped to its output
    range) to at most 8 degrees about each axis. *)

From stdpp Require Import base list strings.
From Stdlib Require Import String Ascii ZArith QArith Qround Lqa DecimalString.
From S2P Require Import Prelude.

Open Scope string_scope.

Module TrendsData.

Record Point := mkPoint { time : string; value : Q }.

Record Trend := mkTrend {
  id : string;
  title : string;
  unit : string;
  color : string;
  optimalMin : Z;
  optimalMax : Z;
  data : list Point
}.

(** [generateTrend base variance]: [Array.from({ length: 24 }, (_, i) =>
    ...)], the [i]-th point reading the [i]-th draw of [rnd]. *)
Definition generateTrend (rnd : nat -> Q) (base variance : Q) : list Point :=
  map (fun i => mkPoint (nat_to_string i ++ ":00") (base + rnd i * variance - variance / 2))
      (seq 0 24).

(** The simulated drop of the humidity series:
    [.map((d, i) => i > 18 ? { ...d, value: d.value - 15 } : d)]. *)
Definition humidity_drop (ps : list Point) : list Point :=
  imap (fun i d => if (18 <? i)%nat then mkPoint (time d) (value d - 15) else d) ps.

(** The [k]-th series reads the draws from [24 * k] on. *)
Definition draws (rnd : nat -> Q) (k : nat) : nat -> Q := fun i => rnd (24 * k + i)%nat.

Definition TRENDS_DATA (rnd : nat -> Q) : list Trend := [
  mkTrend "temp" "Temperature" "°C" "#10B981" 21 24 (generateTrend (draws rnd 0) (45 # 2) 3);
  mkTrend "humidity" "Humidity" "%" "#1E88E5" 80 90 (humidity_drop (generateTrend (draws rnd 1) 82 10));
  mkTrend "co2" "CO2 Levels" "ppm" "#F59E0B" 600 1000 (generateTrend (draws rnd 2) 850 100);
  mkTrend "airflow" "Air Flow" "ACH" "#8B5CF6" 10 15 (generateTrend (draws rnd 3) 12 1)
].

(** [v.split(':')[0]]: the text before the first [sep], all of it when
    there is none. *)
Fixpoint split_head (sep : ascii) (s : string) : string :=
  match s with
  | EmptyString => ""
  | String c s' => if Ascii.eqb c sep then "" else String c (split_head sep s')
  end.

(** The [tickFormatter] of the hour axis (Trends.tsx 120). *)
Definition tickFormatter (v : string) : string := split_head ":" v ++ "h".

(** The band label of a card: ["Optimal: " + min + "-" + max]
    (Trends.tsx 114), the bounds printed as JavaScript numbers. *)
Definition bandLabel (t : Trend) : string :=
  "Optimal: " ++ js_num_to_string (10 * optimalMin t) ++ "-" ++ js_num_to_string (10 * optimalMax t).

(** What a card shows (Trends.tsx 94-140): title, unit, band label, the
    axis labels, and the plotted values. *)
Record Card := mkCard {
  card_title : string;
  card_unit : string;
  card_band : string;
  card_ticks : list string;
  card_values : list Q
}.

Definition card (t : Trend) : Card :=
  mkCard (title t) (unit t) (bandLabel t) (map (fun p => tickFormatter (time p)) (data t))
    (map value (data t)).

(** A value inside a series' band, bounds included. *)
Definition in_band (t : Trend) (q : Q) : Prop := inject_Z (optimalMin t) <= q <= inject_Z (optimalMax t).

(** ** The screen's controls *)

(** The period: ['24h' | '7d' | '30d'] (line 14). *)
Inductive Period := h24 | d7 | d30.

#[export] Instance Period_eq_dec : EqDecision Period.
Proof. solve_decision. Defined.

Definition period_label (p : Period) : string :=
  match p with h24 => "24h" | d7 => "7d" | d30 => "30d" end.

(** The time selector (lines 59-73): a button per period, the selected
    one highlighted. *)
Definition period_buttons (period : Period) : list (string * bool) :=
  selector period_label [h24; d7; d30] period.

(** [x.toFixed(1)]: the sign, then [n / 10] with one decimal, where [n] is
    the integer nearest to [10 * |x|], the larger one on a tie. *)
Definition toFixed1 (x : Q) : string :=
  let neg := negb (Qle_bool 0 x) in
  let a := if neg then - x else x in
  let n := Z.to_N (Qfloor (a * 10 + (1 # 2))) in
  (if neg then "-" else "") ++ N_to_string (n / 10) ++ "." ++ N_to_string (n mod 10).

(** [CustomTooltip] (lines 22-34): when active with a non-empty payload,
    the label, the colour of the first series and its value to one
    decimal; nothing otherwise. *)
Definition CustomTooltip (active : bool) (label : string) (payload : list (string * Q)) :
    option (string * string * string) :=
  if active then
    match payload with
    | (stroke, v) :: _ => Some (label, stroke, toFixed1 v)
    | [] => None
    end
  else None.

(** Hovering the [i]-th point of a card: Recharts passes the point's time
    as label and the line's stroke and value as payload. *)
Definition tooltip_at (t : Trend) (i : nat) : option (string * string * string) :=
  match data t !! i with
  | Some p => CustomTooltip true (time p) [(color t, value p)]
  | None => None
  end.

(** [useTransform(v, [i0, i1], [o0, o1])] of framer-motion: linear
    interpolation, clamped to the output range. *)
Definition transform (i0 i1 o0 o1 v : Q) : Q :=
  if Qle_bool v i0 then o0
  else if Qle_bool i1 v then o1
  else o0 + (v - i0) / (i1 - i0) * (o1 - o0).

(** [handleMove] (lines 83-89) and the rotations of the card (lines
    81-82): the pointer's offset from the centre of the card, scaled to
    [-50, 50] at its edges, turned into [rotateX] and [rotateY]. *)
Record Rect := mkRect { left : Q; top : Q; width : Q; height : Q }.

Definition tilt (r : Rect) (clientX clientY : Q) : Q * Q :=
  let x := clientX - left r - width r / 2 in
  let y := clientY - top r - height r / 2 in
  let mx := x / (width r / 2) * 50 in
  let my := y / (height r / 2) * 50 in
  (transform (-50) 50 8 (-8) my, transform (-50) 50 (-8) 8 mx).

(** [handleLeave] (lines 90-92) resets both motion values. *)
Definition tilt_rest : Q * Q := (transform (-50) 50 8 (-8) 0, transform (-50) 50 (-8) 8 0).

End TrendsData.

Import TrendsData.

(** ** Lemmas *)

(** A printed number has no [':']: splitting after it at [':'] passes
    over its digits. *)
Lemma split_head_uint (u : Decimal.uint) (rest : string) :
  split_head ":" (NilEmpty.string_of_uint u ++ rest) = NilEmpty.string_of_uint u ++ split_head ":" rest.
Proof. induction u; cbn; rewrite ?append_empty, ?append_cons; cbn; rewrite ?IHu; reflexivity. Qed.

Lemma split_head_label (i : nat) : split_head ":" (nat_to_string i ++ ":00") = nat_to_string i.
Proof. unfold nat_to_string, N_to_string. rewrite split_head_uint. apply append_nil_r. Qed.

(** The [i]-th point of a series: its label and its value. *)
Lemma generateTrend_lookup (rnd : nat -> Q) (base variance : Q) (i : nat) (p : Point) :
  generateTrend rnd base variance !! i = Some p ->
  (i < 24)%nat /\ p = mkPoint (nat_to_string i ++ ":00") (base + rnd i * variance - variance / 2).
Proof.
  unfold generateTrend. rewrite list_lookup_fmap.
  destruct (seq 0 24 !! i) as [j|] eqn:Hj; [|done]. intros [= <-].
  apply lookup_seq in Hj as [-> ?]. done.
Qed.

Lemma humidity_drop_lookup (ps : list Point) (i : nat) (p : Point) :
  humidity_drop ps !! i = Some p ->
  exists q, ps !! i = Some q /\ time p = time q /\
    value p = (if (18 <? i)%nat then value q - 15 else value q).
Proof.
  unfold humidity_drop. rewrite list_lookup_imap.
  destruct (ps !! i) as [q|]; [|done]. intros [= <-]. exists q.
  by destruct (18 <? i)%nat.
Qed.

(** A draw in [0, 1) puts the value within half the variance of the base. *)
Lemma draw_bounds (base variance r : Q) :
  0 <= variance -> 0 <= r < 1 ->
  base - variance * (1 # 2) <= base + r * variance - variance / 2 <= base + variance * (1 # 2).
Proof.
  intros Hv [H0 H1]. change (variance / 2) with (variance * / 2).
  change (/ 2) with (1 # 2).
  assert (0 <= r * variance) by (apply Qmult_le_0_compat; lra).
  assert (0 <= (1 - r) * variance) by (apply Qmult_le_0_compat; lra).
  assert ((1 - r) * variance == variance - r * variance) by ring. lra.
Qed.

Lemma humidity_drop_times (ps : list Point) : map time (humidity_drop ps) = map time ps.
Proof.
  apply list_eq. intros i. rewrite !list_lookup_fmap. unfold humidity_drop.
  rewrite list_lookup_imap. destruct (ps !! i); [|done]. simpl. by case_match.
Qed.

(** Every series is labelled ["0:00"] to ["23:00"]. *)
Lemma trend_times (rnd : nat -> Q) (t : Trend) :
  In t (TRENDS_DATA rnd) -> map time (data t) = map (fun i => nat_to_string i ++ ":00") (seq 0 24).
Proof.
  intros Ht. destruct Ht as [<-|[<-|[<-|[<-|[]]]]]; cbn [data]; rewrite ?humidity_drop_times;
    unfold generateTrend; by rewrite map_map.
Qed.

(** ** Theorems *)

(** C25: The hour labels of every trend series round-trip: the text the
    axis keeps from a label (before its [':']) reads back as the hour it
    was printed from, and the axis of every card shows "0h" to "23h", in
    order, whatever [Math.random()] returned. *)
Theorem trend_labels_roundtrip (rnd : nat -> Q) (t : Trend) :
  In t (TRENDS_DATA rnd) ->
  map (fun p => N_of_string (split_head ":" (time p))) (data t) = map (fun i => Some (N.of_nat i)) (seq 0 24) /\
  card_ticks (card t) = map (fun i => nat_to_string i ++ "h") (seq 0 24).
Proof.
  intros Ht. pose proof (trend_times rnd t Ht) as E. split.
  - rewrite <- (map_map time (fun s => N_of_string (split_head ":" s))), E, map_map.
    apply map_ext. intros i. rewrite split_head_label. unfold nat_to_string. by rewrite N_of_to_string.
  - unfold card. cbn [card_ticks]. rewrite <- (map_map time tickFormatter), E, map_map.
    apply map_ext. intros i. unfold tickFormatter. by rewrite split_head_label.
Qed.

Lemma trend_labels_roundtrip_witness :
  In (nth 0 (TRENDS_DATA (fun _ => 0)) (mkTrend "" "" "" "" 0 0 [])) (TRENDS_DATA (fun _ => 0)) /\
  card_ticks (card (nth 0 (TRENDS_DATA (fun _ => 0)) (mkTrend "" "" "" "" 0 0 []))) =
    map (fun i => nat_to_string i ++ "h") (seq 0 24).
Proof.
  assert (H : In (nth 0 (TRENDS_DATA (fun _ => 0)) (mkTrend "" "" "" "" 0 0 [])) (TRENDS_DATA (fun _ => 0)))
    by (left; reflexivity).
  split; [exact H | exact (proj2 (trend_labels_roundtrip _ _ H))].
Defined.

(** A series whose base is within half its variance of two bounds stays
    between them. *)
Lemma generateTrend_band (rr : nat -> Q) (base v lo hi : Q) :
  0 <= v -> (forall n, 0 <= rr n < 1) -> lo <= base - v * (1 # 2) -> base + v * (1 # 2) <= hi ->
  Forall (fun p => lo <= value p <= hi) (generateTrend rr base v).
Proof.
  intros Hv Hrr Hlo Hhi. apply Forall_lookup_2. intros i p Hp.
  apply generateTrend_lookup in Hp as [_ ->].
  pose proof (draw_bounds base v (rr i) Hv (Hrr i)). simpl. lra.
Qed.

(** C26: For every stream of [Math.random()] values in [0, 1), the
    temperature, CO2 and air-flow series stay within their optimal bands
    (bounds included), while the humidity series lies within 3 below and
    7 above the lower edge of its band up to 18:00 and at least 8 below
    it from 19:00 on: the simulated drop always takes humidity out of the
    band, as the card "Critical Action Required" of the screen says. *)
Theorem trends_against_bands (rnd : nat -> Q) :
  (forall n, 0 <= rnd n < 1) ->
  Forall (fun t => id t <> "humidity" -> Forall (fun p => in_band t (value p)) (data t)) (TRENDS_DATA rnd) /\
  Forall (fun t => id t = "humidity" -> forall i p, data t !! i = Some p ->
      ((18 < i)%nat -> value p + 8 <= inject_Z (optimalMin t)) /\
      ((i <= 18)%nat -> inject_Z (optimalMin t) - 3 <= value p <= inject_Z (optimalMin t) + 7))
    (TRENDS_DATA rnd).
Proof.
  intros Hr. assert (Hd : forall k, forall n, 0 <= draws rnd k n < 1) by (intros; apply Hr).
  split.
  - unfold in_band, TRENDS_DATA. cbn [id optimalMin optimalMax data].
    rewrite !Forall_cons. split_and!; try done; intros Hid; try (exfalso; by apply Hid);
      apply generateTrend_band; try apply Hd; unfold inject_Z; cbn [optimalMin optimalMax]; lra.
  - unfold TRENDS_DATA. rewrite !Forall_cons. split_and!; try done; intros Hid; try discriminate.
    intros i p Hp. apply humidity_drop_lookup in Hp as (q & Hq & _ & ->).
    apply generateTrend_lookup in Hq as [_ ->].
    pose proof (draw_bounds 82 10 (draws rnd 1 i) ltac:(lra) (Hr _)). simpl.
    destruct (18 <? i)%nat eqn:Hi; [apply Nat.ltb_lt in Hi | apply Nat.ltb_ge in Hi];
      split; intros; try lia; unfold inject_Z; simpl in *; lra.
Qed.

Lemma trends_against_bands_witness :
  (forall n : nat, 0 <= (fun _ : nat => 1 # 2) n < 1) /\
  Forall (fun t => id t <> "humidity" -> Forall (fun p => in_band t (value p)) (data t))
    (TRENDS_DATA (fun _ => 1 # 2)).
Proof.
  assert (H : forall n : nat, 0 <= (fun _ : nat => 1 # 2) n < 1)
    by (intros _; split; unfold Qle, Qlt; simpl; lia).
  split; [exact H | exact (proj1 (trends_against_bands _ H))].
Defined.

(** ** The card tilt *)

(** [transform] on the input range [-50, 50], its division worked out. *)
Lemma transform_50 (o0 o1 v : Q) :
  transform (-50) 50 o0 o1 v ==
    if Qle_bool v (-50) then o0 else if Qle_bool 50 v then o1 else o0 + (v + 50) * (1 # 100) * (o1 - o0).
Proof. unfold transform. destruct (Qle_bool v (-50)); [reflexivity|]. destruct (Qle_bool 50 v); [reflexivity|]. field. Qed.

Lemma Qle_bool_false (a b : Q) : Qle_bool a b = false -> b < a.
Proof. intros H. apply Qnot_le_lt. intros ?%Qle_bool_iff. congruence. Qed.

Ltac qle_cases :=
  repeat match goal with
  | |- context [Qle_bool ?a ?b] =>
      let E := fresh "E" in
      destruct (Qle_bool a b) eqn:E; [apply Qle_bool_iff in E | apply Qle_bool_false in E]
  end.

Lemma transform_50_bounds (o v : Q) : 0 <= o ->
  - o <= transform (-50) 50 (- o) o v <= o /\ - o <= transform (-50) 50 o (- o) v <= o.
Proof.
  intros Ho. rewrite !transform_50. qle_cases; try (split; lra).
  assert (0 <= (v + 50) * (1 # 100) * o) by (apply Qmult_le_0_compat; [apply Qmult_le_0_compat|]; lra).
  assert ((v + 50) * (1 # 100) * o <= 1 * o) by (apply Qmult_le_compat_r; lra).
  assert ((v + 50) * (1 # 100) * (o - - o) == 2 * ((v + 50) * (1 # 100) * o)) by ring.
  assert ((v + 50) * (1 # 100) * (- o - o) == - (2 * ((v + 50) * (1 # 100) * o))) by ring.
  split; lra.
Qed.

Lemma transform_50_mono (v v' : Q) : v <= v' ->
  transform (-50) 50 (-8) 8 v <= transform (-50) 50 (-8) 8 v'.
Proof. intros Hv. rewrite !transform_50. qle_cases; lra. Qed.

Lemma scale_mono (w a a' : Q) : 0 < w -> a <= a' -> a / (w / 2) * 50 <= a' / (w / 2) * 50.
Proof.
  intros Hw Hc. apply Qmult_le_compat_r; [|lra]. unfold Qdiv. apply Qmult_le_compat_r; [lra|].
  apply Qinv_le_0_compat, Qmult_le_0_compat; [lra | easy].
Qed.

Lemma transform_50_zero (o0 o1 v : Q) : v == 0 -> transform (-50) 50 o0 o1 v == (o0 + o1) * (1 # 2).
Proof. intros Hv. rewrite transform_50. qle_cases; try lra. rewrite Hv. ring. Qed.

(** ** Theorems of the card tilt *)

(** C27: The 3D tilt of a trend card never exceeds 8 degrees about either
    axis, wherever the pointer is; the card is flat with the pointer at
    its centre and after the pointer leaves; and it turns about the
    vertical axis monotonically with the pointer's horizontal position. *)
Theorem card_tilt_bounded (r : Rect) : 0 < width r -> 0 < height r ->
  (forall cx cy, -8 <= (tilt r cx cy).1 <= 8 /\ -8 <= (tilt r cx cy).2 <= 8) /\
  (tilt r (left r + width r / 2) (top r + height r / 2)).1 == 0 /\
  (tilt r (left r + width r / 2) (top r + height r / 2)).2 == 0 /\
  tilt_rest.1 == 0 /\ tilt_rest.2 == 0 /\
  (forall cx cx' cy, cx <= cx' -> (tilt r cx cy).2 <= (tilt r cx' cy).2).
Proof.
  intros Hw Hh. unfold tilt, tilt_rest. simpl. split_and!.
  - intros cx cy. pose proof (transform_50_bounds 8) as B.
    split; [apply (B _ ltac:(lra)) | apply (B _ ltac:(lra))].
  - rewrite transform_50_zero; [ring|]. field. lra.
  - rewrite transform_50_zero; [ring|]. field. lra.
  - rewrite transform_50_zero; [ring|reflexivity].
  - rewrite transform_50_zero; [ring|reflexivity].
  - intros cx cx' cy Hc. apply transform_50_mono.
    apply scale_mono; [done|]. lra.
Qed.

Lemma card_tilt_bounded_witness :
  0 < width (mkRect 0 0 300 200) /\ 0 < height (mkRect 0 0 300 200) /\
  (tilt (mkRect 0 0 300 200) 150 100).1 == 0.
Proof.
  assert (H1 : 0 < width (mkRect 0 0 300 200)) by reflexivity.
  assert (H2 : 0 < height (mkRect 0 0 300 200)) by reflexivity.
  split_and!; [exact H1 | exact H2 |].
  pose proof (proj1 (proj2 (card_tilt_bounded _ H1 H2))) as H. simpl in H.
  exact H.
Defined.
