(* ===== verification/Scene.v ===== *)
(** * Scene: the animated 3D scene of [src/components/three/TrendsScene.tsx]

    The scene spins a fan, lifts 60 CO2 bubbles and 9 droplets, each frame
    moving them by the frame's [delta] seconds ([useFrame], lines 8-12,
    37-42, 58-63) and sending a particle that rises past its top back
    down.  The starting positions and speeds come from [Math.random()]
    ([useMemo], lines 33-36, 54-57), a stream [rnd] of draws in [0, 1)
    consumed in mounting order: the bubbles' positions (three draws
    each), their speeds, then three draws per droplet.  Coordinates are
    exact rationals.  No module of src/ imports this component.

    [frame] is one animation frame; the theorem shows that whatever the
    draws and the frame durations, every bubble stays between -1.6 and
    1.6 and every droplet between its start and 1.4. *)

From stdpp Require Import base list.
From Stdlib Require Import ZArith QArith Lqa.

Module Scene.

Record Bubble := mkBubble { bx : Q; py : Q; bz : Q; bspeed : Q }.

Record Droplet := mkDroplet { speed : Q; dx : Q; dz : Q; startY : Q; dy : Q; rotY : Q }.

Record Scene := mkScene { fanRot : Q; bubbles : list Bubble; droplets : list Droplet }.

(** [new THREE.Vector3((r - 0.5) * 3.2, (r - 0.5) * 2, (r - 0.5) * 1.6)]
    and [0.15 + Math.random() * 0.25] (lines 54-57). *)
Definition bubble_init (rnd : nat -> Q) (i : nat) : Bubble :=
  mkBubble ((rnd (3 * i)%nat - (1 # 2)) * (16 # 5)) ((rnd (3 * i + 1)%nat - (1 # 2)) * 2)
    ((rnd (3 * i + 2)%nat - (1 # 2)) * (8 # 5)) ((3 # 20) + rnd (180 + i)%nat * (1 # 4)).

(** [Droplet({ seed })] (lines 31-36): speed [0.3 + (seed % 100) / 200],
    start [-1.2 - Math.random()], drawn after [x] and [z]. *)
Definition droplet_init (rnd : nat -> Q) (seed : nat) : Droplet :=
  let b := (240 + 3 * seed)%nat in
  mkDroplet ((3 # 10) + inject_Z (Z.of_nat (seed mod 100)) * (1 # 200))
    ((rnd b - (1 # 2)) * 3) ((rnd (b + 1)%nat - (1 # 2)) * 2)
    (- (6 # 5) - rnd (b + 2)%nat) (- (6 # 5) - rnd (b + 2)%nat) 0.

Definition scene_init (rnd : nat -> Q) : Scene :=
  mkScene 0 (map (bubble_init rnd) (seq 0 60)) (map (droplet_init rnd) (seq 0 9)).

(** [child.position.y += delta * speeds[i]; if (y > 1.6) y = -1.6]. *)
Definition bubble_frame (delta : Q) (b : Bubble) : Bubble :=
  let y := py b + delta * bspeed b in
  mkBubble (bx b) (if Qle_bool y (8 # 5) then y else - (8 # 5)) (bz b) (bspeed b).

(** [position.y += delta * speed; if (y > 1.4) y = startY;
    rotation.y += delta * 0.6]. *)
Definition droplet_frame (delta : Q) (d : Droplet) : Droplet :=
  let y := dy d + delta * speed d in
  mkDroplet (speed d) (dx d) (dz d) (startY d)
    (if Qle_bool y (7 # 5) then y else startY d) (rotY d + delta * (3 # 5)).

(** One frame: the fan turns by [delta * 3.2], then every particle moves. *)
Definition frame (delta : Q) (sc : Scene) : Scene :=
  mkScene (fanRot sc + delta * (16 # 5)) (map (bubble_frame delta) (bubbles sc))
    (map (droplet_frame delta) (droplets sc)).

Definition frames (ds : list Q) (sc : Scene) : Scene := fold_left (fun s d => frame d s) ds sc.

Definition bubble_ok (b : Bubble) : Prop := - (8 # 5) <= py b <= 8 # 5 /\ 0 < bspeed b.

Definition droplet_ok (d : Droplet) : Prop :=
  startY d <= dy d <= 7 # 5 /\ 0 < speed d /\ startY d <= - (6 # 5).

Definition scene_inv (sc : Scene) : Prop :=
  Forall bubble_ok (bubbles sc) /\ Forall droplet_ok (droplets sc) /\
  length (bubbles sc) = 60%nat /\ length (droplets sc) = 9%nat.

End Scene.

Import Scene.

(** ** Lemmas *)

Lemma Qle_bool_false' (a b : Q) : Qle_bool a b = false -> b < a.
Proof. intros H. apply Qnot_le_lt. intros ?%Qle_bool_iff. congruence. Qed.

Lemma bubble_frame_ok (delta : Q) (b : Bubble) : 0 <= delta -> bubble_ok b -> bubble_ok (bubble_frame delta b).
Proof.
  intros Hd [[H1 H2] Hs]. unfold bubble_ok, bubble_frame. simpl.
  assert (0 <= delta * bspeed b) by (apply Qmult_le_0_compat; lra).
  destruct (Qle_bool _ _) eqn:E; [apply Qle_bool_iff in E|]; split_and!; lra.
Qed.

Lemma droplet_frame_ok (delta : Q) (d : Droplet) : 0 <= delta -> droplet_ok d -> droplet_ok (droplet_frame delta d).
Proof.
  intros Hd [[H1 H2] [Hs H3]]. unfold droplet_ok, droplet_frame. simpl.
  assert (0 <= delta * speed d) by (apply Qmult_le_0_compat; lra).
  destruct (Qle_bool _ _) eqn:E; [apply Qle_bool_iff in E|]; split_and!; lra.
Qed.

Lemma frame_inv (delta : Q) (sc : Scene) : 0 <= delta -> scene_inv sc -> scene_inv (frame delta sc).
Proof.
  intros Hd (Hb & Hdr & Hlb & Hld). unfold scene_inv, frame. simpl. rewrite !length_map.
  split_and!; try done; apply Forall_fmap; eapply Forall_impl; eauto.
  - intros b. by apply bubble_frame_ok.
  - intros d. by apply droplet_frame_ok.
Qed.

Lemma scene_init_inv (rnd : nat -> Q) : (forall n, 0 <= rnd n < 1) -> scene_inv (scene_init rnd).
Proof.
  intros Hr. unfold scene_inv, scene_init. cbn [bubbles droplets]. rewrite !length_map, !length_seq. split_and!; try done.
  - apply Forall_fmap, Forall_forall. intros i _. unfold bubble_ok, bubble_init.
    pose proof (Hr (3 * i + 1)%nat). pose proof (Hr (180 + i)%nat). simpl in *. split_and!; lra.
  - apply Forall_fmap, Forall_forall. intros i _. unfold droplet_ok, droplet_init.
    assert (0 <= inject_Z (Z.of_nat (i mod 100))) by (unfold Qle; simpl; lia).
    pose proof (Hr (240 + 3 * i + 2)%nat). simpl in *. split_and!; lra.
Qed.

(** ** Theorems *)

(** C28: The animation stays in its box: from the starting positions drawn
    by [Math.random()], after any sequence of frames of non-negative
    duration, every CO2 bubble is between -1.6 and 1.6 and every droplet
    between its starting height and 1.4, all 60 bubbles and 9 droplets
    still there. *)
Theorem scene_bounded (rnd : nat -> Q) (ds : list Q) :
  (forall n, 0 <= rnd n < 1) -> Forall (fun d => 0 <= d) ds ->
  scene_inv (frames ds (scene_init rnd)).
Proof.
  intros Hr Hds. unfold frames. generalize (scene_init_inv rnd Hr).
  generalize (scene_init rnd). induction Hds as [|d ds Hd _ IH]; intros sc Hsc; [done|].
  simpl. apply IH. by apply frame_inv.
Qed.

Lemma scene_bounded_witness :
  (forall n : nat, 0 <= (fun _ : nat => 1 # 2) n < 1) /\ Forall (fun d => 0 <= d) [1 # 60; 1 # 60; 5] /\
  scene_inv (frames [1 # 60; 1 # 60; 5] (scene_init (fun _ => 1 # 2))).
Proof.
  assert (H1 : forall n : nat, 0 <= (fun _ : nat => 1 # 2) n < 1) by (intros _; split; unfold Qle, Qlt; simpl; lia).
  assert (H2 : Forall (fun d => 0 <= d) [1 # 60; 1 # 60; 5]) by (repeat constructor; unfold Qle; simpl; lia).
  split_and!; [exact H1 | exact H2 | exact (scene_bounded _ _ H1 H2)].
Defined.
