(* ===== verification/Stats.v ===== *)
(** * Stats: the production statistics of [src/screens/Stats.tsx]

    The screen has one hook, the chart period ([useState<'day' | 'month'
    | 'year'>('month')], line 8), changed by [handlePeriodChange]
    (lines 10-13).  It plots [TOTAL_STATS_HISTORY[chartPeriod]] and the
    two series of [MUSHROOM_VARIETIES] (constants.ts 156-185), and lists
    the varieties in a table whose numbers are printed by
    [Number.prototype.toLocaleString()].

    [toLocaleString] is modelled for the en-US locale on the non-negative
    integers of the tables: the decimal digits with a comma before each
    group of three counted from the right ([group_from]).  Its theorems:
    it prints the digits in groups of one to three then of three, and
    reading the text back without its commas gives the number. *)

From stdpp Require Import base list strings.
From Stdlib Require Import String Ascii NArith Lia DecimalString.
From S2P Require Import Prelude.

Open Scope string_scope.

(** The chart period: ['day' | 'month' | 'year'], the keys of
    [TOTAL_STATS_HISTORY]. *)
Inductive ChartPeriod := day | month | year.

#[export] Instance ChartPeriod_eq_dec : EqDecision ChartPeriod.
Proof. solve_decision. Defined.

Module Stats.

(** A row of the tables: [{ name, production, inventory }]. *)
Record Row := mkRow { name : string; production : N; inventory : N }.

Definition MUSHROOM_VARIETIES : list Row := [
  mkRow "Oyster" 1200 300;
  mkRow "Button" 2400 800;
  mkRow "Shiitake" 1500 450;
  mkRow "Milky" 800 150;
  mkRow "Lion's Mane" 600 100;
  mkRow "Enoki" 900 200;
  mkRow "Portobello" 1100 350
].

(** [TOTAL_STATS_HISTORY], an object read at the key [chartPeriod]. *)
Definition TOTAL_STATS_HISTORY (p : ChartPeriod) : list Row :=
  match p with
  | day => [mkRow "06:00" 40 240; mkRow "10:00" 85 220; mkRow "14:00" 120 180; mkRow "18:00" 90 260]
  | month => [mkRow "Wk 1" 2000 5000; mkRow "Wk 2" 2400 4800; mkRow "Wk 3" 2100 5200; mkRow "Wk 4" 2800 4500]
  | year => [mkRow "Q1" 12000 8000; mkRow "Q2" 15000 7500; mkRow "Q3" 18000 9000; mkRow "Q4" 22000 8500]
  end.

Definition period_label (p : ChartPeriod) : string :=
  match p with day => "day" | month => "month" | year => "year" end.

(** A comma after each digit that has a positive multiple of three digits
    after it. *)
Fixpoint group_from (s : string) : string :=
  match s with
  | EmptyString => EmptyString
  | String c s' =>
      String c (if (0 <? String.length s')%nat && (String.length s' mod 3 =? 0)%nat
                then String "," (group_from s') else group_from s')
  end.

(** [n.toLocaleString()] in the en-US locale. *)
Definition toLocaleString (n : N) : string := group_from (N_to_string n).

(** Reading a printed number back: the commas dropped, then the digits. *)
Fixpoint strip_commas (s : string) : string :=
  match s with
  | EmptyString => EmptyString
  | String c s' => if Ascii.eqb c "," then strip_commas s' else String c (strip_commas s')
  end.

Definition parse_locale (s : string) : option N := N_of_string (strip_commas s).

(** The text of the groups: the first one, then each one after a comma. *)
Fixpoint comma_join (gs : list string) : string :=
  match gs with [] => "" | g :: gs' => "," ++ g ++ comma_join gs' end.

Fixpoint cat (gs : list string) : string :=
  match gs with [] => "" | g :: gs' => g ++ cat gs' end.

(** What the screen shows (lines 15-188): the period buttons with the
    selected one highlighted, the area chart's rows, the two bar charts
    and the table, its numbers printed by [toLocaleString]. *)
Record View := mkView {
  buttons : list (string * bool);
  area : list Row;
  productionBars : list (string * N);
  inventoryBars : list (string * N);
  table : list (string * string * string)
}.

Definition view (chartPeriod : ChartPeriod) : View :=
  mkView (selector period_label [day; month; year] chartPeriod)
    (TOTAL_STATS_HISTORY chartPeriod)
    (map (fun m => (name m, production m)) MUSHROOM_VARIETIES)
    (map (fun m => (name m, inventory m)) MUSHROOM_VARIETIES)
    (map (fun m => (name m, toLocaleString (production m), toLocaleString (inventory m))) MUSHROOM_VARIETIES).

End Stats.

Import Stats.

(** ** Lemmas *)

(** Printed digits hold no comma. *)
Lemma strip_commas_uint (u : Decimal.uint) (rest : string) :
  strip_commas (NilEmpty.string_of_uint u ++ rest) = NilEmpty.string_of_uint u ++ strip_commas rest.
Proof. induction u; cbn; rewrite ?append_empty, ?append_cons; cbn; rewrite ?IHu; reflexivity. Qed.

Lemma strip_commas_N (n : N) : strip_commas (N_to_string n) = N_to_string n.
Proof.
  unfold N_to_string. rewrite <- (append_nil_r (NilEmpty.string_of_uint _)).
  by rewrite strip_commas_uint.
Qed.

(** Grouping only inserts commas. *)
Lemma strip_commas_group (s : string) : strip_commas (group_from s) = strip_commas s.
Proof. induction s as [|c s IH]; [done|]. simpl. by repeat case_match; simpl; rewrite ?IH. Qed.

Lemma N_to_string_nonempty (n : N) : N_to_string n <> "".
Proof.
  intros H. pose proof (N_of_to_string n) as E. rewrite H in E.
  vm_compute in E. injection E as <-. discriminate H.
Qed.

Lemma cat_length (gs : list string) :
  Forall (fun g => String.length g = 3%nat) gs -> String.length (cat gs) = (3 * List.length gs)%nat.
Proof. induction 1; simpl; rewrite ?string_length_app; lia. Qed.

Lemma group_mod3 (a k : nat) : (1 <= a <= 3)%nat -> ((a + 3 * k) mod 3 = 0 <-> a = 3)%nat.
Proof.
  intros Ha. rewrite (Nat.mul_comm 3 k), Nat.Div0.mod_add.
  destruct a as [|[|[|[|]]]]; simpl; split; lia.
Qed.

(** The groups of a non-empty string: one to three characters, then
    groups of three, each after a comma. *)
Lemma group_from_shape (s : string) : s <> "" ->
  exists g gs, group_from s = g ++ comma_join gs /\ (1 <= String.length g <= 3)%nat /\
    Forall (fun g => String.length g = 3%nat) gs /\ g ++ cat gs = s.
Proof.
  induction s as [|c s IH]; [done|]. intros _.
  destruct (decide (s = "")) as [->|Hne]; [exists (String c ""), []; simpl; split_and!; done || lia|].
  destruct (IH Hne) as (g & gs & Hg & Hlen & Hall & Hcat).
  assert (Hs : String.length s = (String.length g + 3 * List.length gs)%nat)
    by (rewrite <- Hcat, string_length_app, cat_length; auto).
  cbn [group_from]. rewrite Hg.
  destruct ((0 <? String.length s)%nat && (String.length s mod 3 =? 0)%nat) eqn:Hb;
    [apply andb_true_iff in Hb as [H0%Nat.ltb_lt H3%Nat.eqb_eq]|].
  - exists (String c ""), (g :: gs). simpl. rewrite Hcat.
    rewrite Hs, group_mod3 in H3 by done.
    split_and!; try done; try lia. by constructor.
  - assert (String.length g <> 3%nat).
    { intros Hg3. apply andb_false_iff in Hb as [Hb|Hb];
        [apply Nat.ltb_ge in Hb; lia | apply Nat.eqb_neq in Hb].
      rewrite Hs, group_mod3 in Hb by done. done. }
    exists (String c g), gs. simpl. rewrite <- Hcat. split_and!; done || lia.
Qed.

Lemma parse_toLocaleString (n : N) : parse_locale (toLocaleString n) = Some n.
Proof. unfold parse_locale, toLocaleString. by rewrite strip_commas_group, strip_commas_N, N_of_to_string. Qed.


(** ** Theorems *)



(** [toLocaleString] prints a number in groups of digits: one to
    three, then groups of three each after a comma, the digits being
    those of [toString]; reading the text back without its commas gives
    the number. *)
Theorem toLocaleString_spec (n : N) :
  parse_locale (toLocaleString n) = Some n /\
  exists g gs, toLocaleString n = g ++ comma_join gs /\ (1 <= String.length g <= 3)%nat /\
    Forall (fun g => String.length g = 3%nat) gs /\ g ++ cat gs = N_to_string n.
Proof.
  split; [apply parse_toLocaleString | apply group_from_shape, N_to_string_nonempty].
Qed.

Example toLocaleString_examples :
  toLocaleString 22000 = "22,000" /\ toLocaleString 800 = "800" /\
  toLocaleString 1234567 = "1,234,567" /\ toLocaleString 0 = "0".
Proof. vm_compute. auto. Qed.
