(* ===== verification/Settings.v ===== *)
(** * Settings: the settings screen of [src/screens/Settings.tsx]

    The screen shows the dark-mode switch, the employee card, the company
    details, the sign-out button and, while its one hook [showProfile]
    (line 13) is set, the employee's detail sheet with the career
    timeline.  Its data are [COMPANY_INFO] and [EMPLOYEE_PROFILE]
    (constants.ts 122-143).  The handlers [handleDarkModeToggle],
    [toggleProfile] and [handleLogout] (lines 15-28) are [toggleDarkMode],
    [toggleProfile] and [handleLogout] of [App]; this file holds what the
    screen renders for the two booleans it depends on. *)

From stdpp Require Import base list strings.
From Stdlib Require Import String NArith.
From S2P Require Import Prelude.

Open Scope string_scope.

Module Settings.

Record TimelineEvent := mkEvent { date : string; title : string; description : string }.

Record Profile := mkProfile {
  name : string; id : string; gender : string; role : string;
  avatar : string; joinDate : string; timeline : list TimelineEvent
}.

Record Company := mkCompany { address : string; gst : string; size : string; employees : N }.

Definition COMPANY_INFO : Company :=
  mkCompany "123 Mycelium Drive, Fungi Valley, CA 94043" "22AAAAA0000A1Z5" "Large" 42.

Definition EMPLOYEE_PROFILE : Profile :=
  mkProfile "Sarah Chen" "EMP-2024-089" "Female" "Senior Mycologist"
    "https://api.dicebear.com/7.x/avataaars/svg?seed=Sarah" "March 12, 2021" [
    mkEvent "Mar 2021" "Joined Sporacle" "Started as Junior Mycologist in Chamber 1.";
    mkEvent "Nov 2021" "Certification" "Completed Advanced Spore Analysis certification.";
    mkEvent "Aug 2022" "Promoted" "Promoted to Team Lead for Oyster cultivation.";
    mkEvent "Jan 2024" "Senior Role" "Promoted to Senior Mycologist overseeing all chambers.";
    mkEvent "Present" "Current" "Leading research on yield optimization."
  ].

(** The detail sheet (lines 132-190): the header, the two detail boxes
    and the timeline, one entry per event in order. *)
Record Sheet := mkSheet {
  sheetHeader : string * string * string * string;
  details : list (string * string);
  events : list (string * string * string)
}.

(** What the screen shows (lines 30-191), styles left out but for the
    switch's icon, which tells the mode. *)
Record View := mkView {
  darkIcon : string;
  card : string * string * string * string * string;
  company : list (string * string);
  signOut : string;
  sheet : option Sheet
}.

Definition sheet_of (p : Profile) : Sheet :=
  mkSheet (avatar p, name p, role p, "Joined " ++ joinDate p)
    [("Employee ID", id p); ("Gender", gender p)]
    (map (fun e => (date e, title e, description e)) (timeline p)).

Definition view (darkMode showProfile : bool) : View :=
  mkView (if darkMode then "Sun" else "Moon")
    (avatar EMPLOYEE_PROFILE, name EMPLOYEE_PROFILE, role EMPLOYEE_PROFILE,
     id EMPLOYEE_PROFILE, gender EMPLOYEE_PROFILE)
    [("Factory Size", size COMPANY_INFO);
     ("Employees", N_to_string (employees COMPANY_INFO) ++ " Active Staff");
     ("GST Number", gst COMPANY_INFO);
     ("", address COMPANY_INFO)]
    "Sign Out"
    (if showProfile then Some (sheet_of EMPLOYEE_PROFILE) else None).

End Settings.
