(* ===== verification/TasksScreen.v ===== *)
(** * TasksScreen: the alert and task workflow of [src/screens/Tasks.tsx]

    Module [Tasks] holds the component's [useState] hooks as one record
    ([State], lines 11-20, initialised from [MOCK_ALERTS] and
    [MOCK_TASKS]) and one function per handler (lines 22-96).  Two
    handlers read and clear the [returnTab] entry of [sessionStorage] and
    call [onNavigate]; they take the entry as an argument and return the
    new entry and the requested navigation ([Outcome]).  [Date.now()]
    (the id of a new task) is an argument too.

    [Event] lists what the user can do on the screen, with the [disabled]
    guards of the buttons (lines 297, 339), and [step] dispatches it:
    the clicks of the Save-note button run [handleSaveNote] and then
    [setActiveTab('tasks')] (line 339).  [view] collects the decisions the
    render makes (badges, empty-list messages, button states). *)

From stdpp Require Import base list strings gmap.
From Stdlib Require Import String ZArith.
From S2P Require Import Prelude Types.

Open Scope string_scope.

(** [MOCK_ALERTS] (constants.ts 77-94). *)
Definition MOCK_ALERTS : list Alert.t := [
  Alert.mk "a1" "Chamber 1 - Shiitake" "10:42 AM" "Humidity dropped below 80%"
    "Run misting system for 12 mins" WARNING;
  Alert.mk "a2" "Chamber 3 - Button" "09:15 AM" "CO2 Levels Critical (>1200ppm)"
    "Check ventilation intake fans" CRITICAL
].

(** [MOCK_TASKS] (constants.ts 96-113). *)
Definition MOCK_TASKS : list Task.t := [
  Task.mk "t1" "Fix Fan" "Chamber 2" None PENDING "2h ago"
    "Main intake fan making noise. Check bearings.";
  Task.mk "t2" "Misting Cycle" "Chamber 3" None IN_PROGRESS "15m ago"
    "Manual misting required due to sensor calibration."
].

(** [WORKERS] (constants.ts 115-119). *)
Definition WORKERS : list WorkerProfile.t := [
  WorkerProfile.mk "w1" "John Doe" AVAILABLE "https://api.dicebear.com/7.x/avataaars/svg?seed=John";
  WorkerProfile.mk "w2" "Maria S." BUSY "https://api.dicebear.com/7.x/avataaars/svg?seed=Maria";
  WorkerProfile.mk "w3" "Alex T." AVAILABLE "https://api.dicebear.com/7.x/avataaars/svg?seed=Alex"
].

Module Tasks.

(** [activeTab: 'alerts' | 'tasks'] *)
Inductive ListTab := alerts_tab | tasks_tab.

Record State := mkState {
  activeTab : ListTab;
  showAssignModal : option Alert.t;
  noteTask : option Task.t;
  noteText : string;
  taskNotes : gmap string (list string);
  alerts : list Alert.t;
  tasks : list Task.t;
  selectedWorkerId : string
}.

Definition init : State :=
  mkState alerts_tab None None "" ∅ MOCK_ALERTS MOCK_TASKS "".

(** What a handler leaves in [sessionStorage.returnTab] and the tab it
    asks [onNavigate] to show. *)
Record Outcome := mkOutcome {
  out_state : State;
  out_returnTab : option Tab;
  out_navigate : option Tab
}.

(** The [try { ... } catch {}] block of lines 56-62 and 89-95: read the
    entry, and if there is one, remove it and navigate to it. *)
Definition navigate_back (s : State) (returnTab : option Tab) : Outcome :=
  match returnTab with
  | Some t => mkOutcome s None (Some t)
  | None => mkOutcome s None None
  end.

Definition handleTabChange (tab : ListTab) (s : State) : State :=
  mkState tab (showAssignModal s) (noteTask s) (noteText s) (taskNotes s)
    (alerts s) (tasks s) (selectedWorkerId s).

Definition handleOpenAssign (a : Alert.t) (s : State) : State :=
  mkState (activeTab s) (Some a) (noteTask s) (noteText s) (taskNotes s)
    (alerts s) (tasks s) "".

(** The radio buttons' [onChange] (line 287). *)
Definition selectWorker (workerId : string) (s : State) : State :=
  mkState (activeTab s) (showAssignModal s) (noteTask s) (noteText s) (taskNotes s)
    (alerts s) (tasks s) workerId.

(** The close button of the assignment modal (line 249). *)
Definition closeAssignModal (s : State) : State :=
  mkState (activeTab s) None (noteTask s) (noteText s) (taskNotes s)
    (alerts s) (tasks s) (selectedWorkerId s).

(** The task built from an alert (lines 36-45). *)
Definition newTaskOf (now : N) (a : Alert.t) (workerId : string) : Task.t :=
  Task.mk ("t-" ++ N_to_string now) "Corrective Action" (Alert.chamber a)
    (WorkerProfile.name <$> List.find (fun w => bool_decide (WorkerProfile.id w = workerId)) WORKERS)
    PENDING "Just now" (Alert.message a ++ ". Suggested: " ++ Alert.action a).

Definition handleConfirmAssignment (now : N) (returnTab : option Tab) (s : State) : Outcome :=
  match showAssignModal s with
  | None => mkOutcome s returnTab None
  | Some a =>
      let s' := mkState tasks_tab None (noteTask s) (noteText s) (taskNotes s)
                  (filter (fun x => Alert.id x <> Alert.id a) (alerts s))
                  (newTaskOf now a (selectedWorkerId s) :: tasks s)
                  (selectedWorkerId s) in
      navigate_back s' returnTab
  end.

Definition complete (taskId : string) (t : Task.t) : Task.t :=
  if decide (Task.id t = taskId)
  then Task.mk (Task.id t) (Task.title t) (Task.location t) (Task.assignedTo t)
         COMPLETED (Task.timestamp t) (Task.description t)
  else t.

Definition handleCompleteTask (taskId : string) (s : State) : State :=
  mkState (activeTab s) (showAssignModal s) (noteTask s) (noteText s) (taskNotes s)
    (alerts s) (map (complete taskId) (tasks s)) (selectedWorkerId s).

Definition handleOpenNote (t : Task.t) (s : State) : State :=
  mkState (activeTab s) (showAssignModal s) (Some t) "" (taskNotes s)
    (alerts s) (tasks s) (selectedWorkerId s).

(** The textarea's [onChange] (line 331). *)
Definition setNoteText (text : string) (s : State) : State :=
  mkState (activeTab s) (showAssignModal s) (noteTask s) text (taskNotes s)
    (alerts s) (tasks s) (selectedWorkerId s).

(** The close and Cancel buttons of the note modal (lines 313, 338). *)
Definition closeNote (s : State) : State :=
  mkState (activeTab s) (showAssignModal s) None (noteText s) (taskNotes s)
    (alerts s) (tasks s) (selectedWorkerId s).

(** [prev[id] || []] followed by the new note. *)
Definition add_note (id text : string) (notes : gmap string (list string)) : gmap string (list string) :=
  <[id := (default [] (notes !! id) ++ [text])%list]> notes.

Definition handleSaveNote (returnTab : option Tab) (s : State) : Outcome :=
  match noteTask s with
  | None => mkOutcome s returnTab None
  | Some t =>
      let text := trim (noteText s) in
      if decide (text = "") then mkOutcome s returnTab None
      else navigate_back
             (mkState (activeTab s) (showAssignModal s) None ""
                (add_note (Task.id t) text (taskNotes s))
                (alerts s) (tasks s) (selectedWorkerId s))
             returnTab
  end.

(** What the user does on the screen. *)
Inductive Event :=
| ClickTab (tab : ListTab)
| ClickAssign (a : Alert.t)
| ChooseWorker (workerId : string)
| CloseAssign
| ClickConfirm (now : N)
| ClickComplete (taskId : string)
| ClickAddNote (t : Task.t)
| TypeNote (text : string)
| CancelNote
| ClickSaveNote.

(** One event, with the disabled buttons ignoring their clicks. *)
Definition step (e : Event) (returnTab : option Tab) (s : State) : Outcome :=
  match e with
  | ClickTab tab => mkOutcome (handleTabChange tab s) returnTab None
  | ClickAssign a => mkOutcome (handleOpenAssign a s) returnTab None
  | ChooseWorker w => mkOutcome (selectWorker w s) returnTab None
  | CloseAssign => mkOutcome (closeAssignModal s) returnTab None
  | ClickConfirm now =>
      if decide (selectedWorkerId s = "") then mkOutcome s returnTab None
      else handleConfirmAssignment now returnTab s
  | ClickComplete id => mkOutcome (handleCompleteTask id s) returnTab None
  | ClickAddNote t => mkOutcome (handleOpenNote t s) returnTab None
  | TypeNote text => mkOutcome (setNoteText text s) returnTab None
  | CancelNote => mkOutcome (closeNote s) returnTab None
  | ClickSaveNote =>
      if decide (trim (noteText s) = "") then mkOutcome s returnTab None
      else let o := handleSaveNote returnTab s in
           mkOutcome (handleTabChange tasks_tab (out_state o)) (out_returnTab o) (out_navigate o)
  end.

(** The decisions of the render (lines 101, 144, 176, 189, 223, 233,
    297, 339). *)
Record View := mkView {
  alertsBadge : nat;
  pendingBadge : nat;
  showAllClear : bool;
  showNoTasks : bool;
  confirmDisabled : bool;
  saveDisabled : bool
}.

Definition pending (ts : list Task.t) : list Task.t :=
  filter (fun t => Task.status t <> COMPLETED) ts.

Definition view (s : State) : View :=
  mkView (List.length (alerts s)) (List.length (pending (tasks s)))
    (bool_decide (alerts s = [])) (bool_decide (tasks s = []))
    (bool_decide (selectedWorkerId s = "")) (bool_decide (trim (noteText s) = "")).

(** ** Runs of the screen *)

(** [ClickConfirm now] reads the clock: [Date.now()] is later than at the
    previous confirmation.  Other events leave the clock reading alone. *)
Definition clock_after (e : Event) (c c' : N) : Prop :=
  match e with
  | ClickConfirm now => (c < now)%N /\ c' = now
  | _ => c' = c
  end.

(** An Assign button exists only for an alert of the list (line 107). *)
Definition enabled (e : Event) (s : State) : Prop :=
  match e with
  | ClickAssign a => In a (alerts s)
  | _ => True
  end.

(** The states reachable from mounting the screen, with the clock reading
    of the last confirmation. *)
Inductive reachable : N -> State -> Prop :=
| reach_init : reachable 0 init
| reach_step (c c' : N) (s : State) (e : Event) (ret : option Tab) :
    reachable c s -> enabled e s -> clock_after e c c' ->
    reachable c' (out_state (step e ret s)).

(** A task created from an alert. *)
Definition created (t : Task.t) : bool := startsWith (Task.id t) "t-".

(** The screen's invariant: task ids are distinct and are the mock ids or
    ["t-"] followed by a clock reading; the alerts are mock alerts with
    distinct ids; the modal shows an alert of the list; and every mock
    alert is either still listed or has become exactly one task. *)
Definition tasks_inv (c : N) (s : State) : Prop :=
  NoDup (map Task.id (tasks s)) /\
  Forall (fun t => Task.id t = "t1" \/ Task.id t = "t2" \/
                   exists n, (n <= c)%N /\ Task.id t = "t-" ++ N_to_string n) (tasks s) /\
  Forall (fun a => In a MOCK_ALERTS) (alerts s) /\ NoDup (map Alert.id (alerts s)) /\
  (forall a, showAssignModal s = Some a -> In a (alerts s)) /\
  (List.length (alerts s) + List.length (filter (fun t => created t = true) (tasks s)) = 2)%nat.

End Tasks.

Import Tasks.

Definition id_ok (c : N) (t : Task.t) : Prop :=
  Task.id t = "t1" \/ Task.id t = "t2" \/ exists n, (n <= c)%N /\ Task.id t = "t-" ++ N_to_string n.

(** ** Lemmas *)

Lemma filter_all_true {A} (P : A -> Prop) `{!forall x, Decision (P x)} (l : list A) :
  Forall P l -> filter P l = l.
Proof. induction 1; [done|]. rewrite filter_cons_True by done. congruence. Qed.

(** Removing by key an element whose key is unique removes one element. *)
Lemma length_filter_remove_one {A} (key : A -> string) (l : list A) (a : A) :
  NoDup (map key l) -> In a l ->
  List.length (filter (fun x => key x <> key a) l) = (List.length l - 1)%nat.
Proof.
  induction l as [|x l IH]; intros Hnd Hin; [done|].
  simpl in Hnd. apply NoDup_cons in Hnd as [Hx Hnd].
  destruct Hin as [->|Hin].
  - rewrite filter_cons_False by tauto. simpl. rewrite Nat.sub_0_r.
    rewrite filter_all_true; [done|].
    apply List.Forall_forall. intros y Hy Heq. apply Hx.
    rewrite <- Heq. apply list_elem_of_In, in_map, Hy.
  - rewrite filter_cons_True.
    + simpl. rewrite IH by done. destruct l; [done | simpl; lia].
    + intros Heq. apply Hx. rewrite Heq. apply list_elem_of_In, in_map, Hin.
Qed.

Lemma NoDup_map_filter {A} (key : A -> string) (P : A -> Prop) `{!forall x, Decision (P x)}
    (l : list A) :
  NoDup (map key l) -> NoDup (map key (filter P l)).
Proof.
  induction l as [|x l IH]; intros Hnd; [constructor|].
  simpl in Hnd. apply NoDup_cons in Hnd as [Hx Hnd]. rewrite filter_cons.
  case_decide; simpl; [|by apply IH].
  apply NoDup_cons. split; [|by apply IH].
  intros Hin. apply Hx. apply list_elem_of_In in Hin. apply list_elem_of_In.
  apply in_map_iff in Hin as (y & <- & Hy). apply in_map.
  apply list_elem_of_In in Hy. apply list_elem_of_filter in Hy as [_ Hy]. by apply list_elem_of_In.
Qed.

Lemma complete_id (taskId : string) (t : Task.t) : Task.id (complete taskId t) = Task.id t.
Proof. unfold complete. repeat case_decide; reflexivity. Qed.

Lemma map_id_complete (taskId : string) (ts : list Task.t) :
  map Task.id (map (complete taskId) ts) = map Task.id ts.
Proof. rewrite map_map. apply map_ext, complete_id. Qed.

(** Completing a task removes from the pending list exactly the tasks
    with that id. *)
Lemma pending_complete (taskId : string) (ts : list Task.t) :
  pending (map (complete taskId) ts) = filter (fun t => Task.id t <> taskId) (pending ts).
Proof.
  unfold pending. induction ts as [|t ts IH]; [done|]. simpl.
  unfold complete at 1. rewrite !filter_cons.
  destruct (decide (Task.id t = taskId)) as [Heq|Hne].
  - rewrite decide_False by (simpl; congruence).
    case_decide; [rewrite filter_cons_False by tauto|]; exact IH.
  - case_decide; [rewrite filter_cons_True by done; simpl; congruence | exact IH].
Qed.

Lemma complete_idem (taskId : string) (t : Task.t) :
  complete taskId (complete taskId t) = complete taskId t.
Proof. unfold complete. repeat case_decide; simpl in *; done. Qed.

Lemma find_worker (w : WorkerProfile.t) :
  In w WORKERS ->
  List.find (fun w' => bool_decide (WorkerProfile.id w' = WorkerProfile.id w)) WORKERS = Some w.
Proof. intros [<-|[<-|[<-|[]]]]; reflexivity. Qed.

(** ** Theorems *)

(** C7: Confirming an assignment (with a worker chosen, for an alert of
    the list whose ids are distinct) removes the alert, puts one new
    PENDING task at the head of the list for the alert's chamber,
    assigned to the chosen worker by name, switches to the task tab and
    hands a pending [returnTab] to [onNavigate]: the alert badge drops by
    one and the pending badge grows by one. *)
Theorem confirm_assignment (now : N) (ret : option Tab) (s : State) (a : Alert.t)
    (w : WorkerProfile.t) :
  showAssignModal s = Some a -> In a (alerts s) -> NoDup (map Alert.id (alerts s)) ->
  In w WORKERS -> selectedWorkerId s = WorkerProfile.id w ->
  let o := step (ClickConfirm now) ret s in
  alertsBadge (view (out_state o)) = (alertsBadge (view s) - 1)%nat /\
  pendingBadge (view (out_state o)) = S (pendingBadge (view s)) /\
  Forall (fun x => Alert.id x <> Alert.id a) (alerts (out_state o)) /\
  head (tasks (out_state o)) =
    Some (Task.mk ("t-" ++ N_to_string now) "Corrective Action" (Alert.chamber a)
            (Some (WorkerProfile.name w)) PENDING "Just now"
            (Alert.message a ++ ". Suggested: " ++ Alert.action a)) /\
  activeTab (out_state o) = tasks_tab /\ out_navigate o = ret /\ out_returnTab o = None.
Proof.
  intros Hm Hin Hnd Hw Hsel o. unfold o, step.
  rewrite Hsel. rewrite decide_False.
  2:{ destruct Hw as [<-|[<-|[<-|[]]]]; discriminate. }
  unfold handleConfirmAssignment. rewrite Hm.
  unfold newTaskOf. rewrite Hsel, find_worker by done.
  destruct ret; simpl; (split; [by rewrite length_filter_remove_one|]);
    (split; [done|]);
    (split; [apply List.Forall_forall; intros x Hx%list_elem_of_In%list_elem_of_filter; tauto|]);
    done.
Qed.

Lemma confirm_assignment_witness :
  let s := selectWorker "w1" (handleOpenAssign (nth 0 MOCK_ALERTS (Alert.mk "" "" "" "" "" NORMAL)) init) in
  (showAssignModal s = Some (nth 0 MOCK_ALERTS (Alert.mk "" "" "" "" "" NORMAL)) /\
   In (nth 0 MOCK_ALERTS (Alert.mk "" "" "" "" "" NORMAL)) (alerts s) /\
   NoDup (map Alert.id (alerts s)) /\ In (nth 0 WORKERS (WorkerProfile.mk "" "" AVAILABLE "")) WORKERS /\
   selectedWorkerId s = WorkerProfile.id (nth 0 WORKERS (WorkerProfile.mk "" "" AVAILABLE ""))) /\
  let o := step (ClickConfirm 1700000000000) (Some TRENDS) s in
  alertsBadge (view (out_state o)) = (alertsBadge (view s) - 1)%nat /\
  pendingBadge (view (out_state o)) = S (pendingBadge (view s)) /\
  Forall (fun x => Alert.id x <> Alert.id (nth 0 MOCK_ALERTS (Alert.mk "" "" "" "" "" NORMAL))) (alerts (out_state o)) /\
  head (tasks (out_state o)) =
    Some (Task.mk ("t-" ++ N_to_string 1700000000000) "Corrective Action"
            (Alert.chamber (nth 0 MOCK_ALERTS (Alert.mk "" "" "" "" "" NORMAL)))
            (Some (WorkerProfile.name (nth 0 WORKERS (WorkerProfile.mk "" "" AVAILABLE "")))) PENDING "Just now"
            (Alert.message (nth 0 MOCK_ALERTS (Alert.mk "" "" "" "" "" NORMAL)) ++ ". Suggested: "
             ++ Alert.action (nth 0 MOCK_ALERTS (Alert.mk "" "" "" "" "" NORMAL)))) /\
  activeTab (out_state o) = tasks_tab /\ out_navigate o = Some TRENDS /\ out_returnTab o = None.
Proof.
  split.
  - split; [reflexivity|]. split; [left; reflexivity|]. split; [vm_compute; repeat constructor; set_solver|].
    split; [left; reflexivity | reflexivity].
  - apply confirm_assignment; [reflexivity | left; reflexivity | vm_compute; repeat constructor; set_solver
      | left; reflexivity | reflexivity].
Defined.

(** C8: Marking a task complete removes from the pending list exactly
    the tasks with that id, keeps the list of ids, and is idempotent:
    clicking again changes nothing. *)
Theorem complete_task (taskId : string) (ret : option Tab) (s : State) :
  let s' := out_state (step (ClickComplete taskId) ret s) in
  pending (tasks s') = filter (fun t => Task.id t <> taskId) (pending (tasks s)) /\
  map Task.id (tasks s') = map Task.id (tasks s) /\
  step (ClickComplete taskId) ret s' = mkOutcome s' ret None.
Proof.
  simpl. split; [apply pending_complete|]. split; [apply map_id_complete|].
  unfold handleCompleteTask. simpl. rewrite map_map.
  by rewrite (map_ext _ _ (complete_idem taskId)).
Qed.

(** C23: Saving a note for task [t] (the note text not blank) appends the
    trimmed text to [t]'s notes, leaves the notes of every other task as
    they were, closes the note modal and shows the task tab. *)
Theorem save_note (ret : option Tab) (s : State) (t : Task.t) :
  noteTask s = Some t -> trim (noteText s) <> "" ->
  let s' := out_state (step ClickSaveNote ret s) in
  taskNotes s' !! Task.id t = Some (default [] (taskNotes s !! Task.id t) ++ [trim (noteText s)])%list /\
  (forall id, id <> Task.id t -> taskNotes s' !! id = taskNotes s !! id) /\
  noteTask s' = None /\ activeTab s' = tasks_tab.
Proof.
  intros Ht Hne s'. unfold s', step. rewrite decide_False by done.
  unfold handleSaveNote. rewrite Ht. rewrite decide_False by done.
  unfold add_note. destruct ret; simpl;
    (split; [by rewrite lookup_insert_eq|]); (split; [|done]);
    intros id Hid; by rewrite lookup_insert_ne.
Qed.

Lemma save_note_witness :
  let s := setNoteText "  fan bearing replaced " (handleOpenNote (nth 0 MOCK_TASKS (Task.mk "" "" "" None PENDING "" "")) init) in
  (noteTask s = Some (nth 0 MOCK_TASKS (Task.mk "" "" "" None PENDING "" "")) /\ trim (noteText s) <> "") /\
  let s' := out_state (step ClickSaveNote None s) in
  taskNotes s' !! Task.id (nth 0 MOCK_TASKS (Task.mk "" "" "" None PENDING "" "")) =
    Some (default [] (taskNotes s !! Task.id (nth 0 MOCK_TASKS (Task.mk "" "" "" None PENDING "" ""))) ++ [trim (noteText s)])%list /\
  (forall id, id <> Task.id (nth 0 MOCK_TASKS (Task.mk "" "" "" None PENDING "" "")) -> taskNotes s' !! id = taskNotes s !! id) /\
  noteTask s' = None /\ activeTab s' = tasks_tab.
Proof.
  split; [split; [reflexivity | vm_compute; discriminate]|].
  apply save_note; [reflexivity | vm_compute; discriminate].
Defined.

(** ** The screen invariant *)

(** Every event either leaves tasks and alerts alone (the modal keeping
    its alert, closing, or opening on the clicked alert), completes a
    task, or confirms the assignment of the modal's alert. *)
Lemma step_shape (e : Event) (ret : option Tab) (s : State) :
  let s' := out_state (step e ret s) in
  (tasks s' = tasks s /\ alerts s' = alerts s /\
     (showAssignModal s' = showAssignModal s \/ showAssignModal s' = None \/
      exists a, e = ClickAssign a /\ showAssignModal s' = Some a)) \/
  (exists id, e = ClickComplete id /\ tasks s' = map (complete id) (tasks s) /\
     alerts s' = alerts s /\ showAssignModal s' = showAssignModal s) \/
  (exists now a, e = ClickConfirm now /\ showAssignModal s = Some a /\
     alerts s' = filter (fun x => Alert.id x <> Alert.id a) (alerts s) /\
     tasks s' = newTaskOf now a (selectedWorkerId s) :: tasks s /\ showAssignModal s' = None).
Proof.
  destruct e as [tab|a|w| |now|id|t|text| |]; simpl; try naive_solver.
  - case_decide; [naive_solver|]. unfold handleConfirmAssignment.
    destruct (showAssignModal s) as [a|] eqn:Hm; [|naive_solver].
    right; right. exists now, a. destruct ret; simpl; naive_solver.
  - case_decide; [naive_solver|]. unfold handleSaveNote.
    destruct (noteTask s); [case_decide|]; destruct ret; simpl; naive_solver.
Qed.

Lemma clock_after_le (e : Event) (c c' : N) : clock_after e c c' -> (c <= c')%N.
Proof. destruct e; simpl; intros; lia. Qed.

Lemma t_prefix_inj (x y : string) : "t-" ++ x = "t-" ++ y -> x = y.
Proof. intros H. simpl_app. congruence. Qed.

Lemma created_id (x : string) : startsWith ("t-" ++ x) "t-" = true.
Proof. reflexivity. Qed.

Lemma id_ok_mono (c c' : N) (t : Task.t) : (c <= c')%N -> id_ok c t -> id_ok c' t.
Proof. intros Hle [H|[H|(n & Hn & H)]]; unfold id_ok; [auto | auto | right; right; exists n; split; [lia|done]]. Qed.

(** The new task's id is not taken when the clock has advanced. *)
Lemma fresh_task_id (c now : N) (ts : list Task.t) :
  (c < now)%N -> Forall (id_ok c) ts -> ("t-" ++ N_to_string now) ∉ map Task.id ts.
Proof.
  intros Hlt Hok Hin. apply list_elem_of_In, in_map_iff in Hin as (t & Hid & Ht).
  rewrite List.Forall_forall in Hok. destruct (Hok t Ht) as [H|[H|(n & Hn & H)]];
    rewrite H in Hid; try discriminate.
  apply t_prefix_inj, N_to_string_inj in Hid. lia.
Qed.

Lemma created_map_complete (taskId : string) (ts : list Task.t) :
  List.length (filter (fun t => created t = true) (map (complete taskId) ts)) =
  List.length (filter (fun t => created t = true) ts).
Proof.
  induction ts as [|t ts IH]; [done|]. cbn [map]. rewrite !filter_cons.
  unfold created in *. rewrite complete_id. case_decide; cbn [Datatypes.length]; congruence.
Qed.

Lemma Forall_id_ok_complete (c : N) (taskId : string) (ts : list Task.t) :
  Forall (id_ok c) (map (complete taskId) ts) <-> Forall (id_ok c) ts.
Proof. rewrite Forall_map. apply Forall_iff. intros t. unfold id_ok. by rewrite complete_id. Qed.

Lemma inv_init : tasks_inv 0 init.
Proof.
  unfold tasks_inv. simpl. split; [vm_compute; repeat constructor; set_solver|].
  split; [apply List.Forall_forall; intros t [<-|[<-|[]]]; simpl; auto|].
  split; [apply List.Forall_forall; intros a Ha; exact Ha|].
  split; [vm_compute; repeat constructor; set_solver|]. split; [discriminate | reflexivity].
Qed.

Lemma inv_unchanged (c c' : N) (s s' : State) :
  tasks_inv c s -> (c <= c')%N -> tasks s' = tasks s -> alerts s' = alerts s ->
  (showAssignModal s' = showAssignModal s \/ showAssignModal s' = None \/
   exists a, showAssignModal s' = Some a /\ In a (alerts s)) ->
  tasks_inv c' s'.
Proof.
  intros (Hnd & Hids & Hal & Hand & Hm & Hcnt) Hle Ht Ha Hm'.
  unfold tasks_inv. rewrite Ht, Ha. split; [done|].
  split; [eapply Forall_impl; [exact Hids|]; intros t; apply (id_ok_mono c c' t Hle)|].
  do 2 (split; [done|]). split; [|done].
  intros a Hs'. destruct Hm' as [Heq|[Hnone|(b & Hb & Hin)]]; [rewrite Heq in Hs'; auto|congruence|].
  rewrite Hs' in Hb. by injection Hb as ->.
Qed.

Lemma inv_complete (c : N) (taskId : string) (s s' : State) :
  tasks_inv c s -> tasks s' = map (complete taskId) (tasks s) -> alerts s' = alerts s ->
  showAssignModal s' = showAssignModal s -> tasks_inv c s'.
Proof.
  intros (Hnd & Hids & Hal & Hand & Hm & Hcnt) Ht Ha Hm'.
  unfold tasks_inv. rewrite Ht, Ha, Hm', map_id_complete, created_map_complete.
  split; [done|]. split; [by apply Forall_id_ok_complete|]. done.
Qed.

Lemma inv_confirm (c now : N) (a : Alert.t) (w : string) (s s' : State) :
  tasks_inv c s -> (c < now)%N -> showAssignModal s = Some a ->
  alerts s' = filter (fun x => Alert.id x <> Alert.id a) (alerts s) ->
  tasks s' = newTaskOf now a w :: tasks s -> showAssignModal s' = None ->
  tasks_inv now s'.
Proof.
  intros (Hnd & Hids & Hal & Hand & Hm & Hcnt) Hlt Hs Ha Ht Hm'.
  pose proof (Hm a Hs) as Hin.
  unfold tasks_inv. rewrite Ht, Ha, Hm'. cbn [map].
  split; [apply NoDup_cons; split; [by apply (fresh_task_id c)|done]|].
  split.
  { constructor; [right; right; exists now; split; [lia|done]|].
    eapply Forall_impl; [exact Hids|]. intros t. apply id_ok_mono. lia. }
  split; [apply List.Forall_forall; intros x Hx%list_elem_of_In%list_elem_of_filter;
          rewrite List.Forall_forall in Hal; apply Hal, list_elem_of_In; tauto|].
  split; [by apply NoDup_map_filter|]. split; [done|].
  rewrite filter_cons_True by (unfold created; apply created_id).
  cbn [Datatypes.length]. rewrite length_filter_remove_one by done.
  destruct (alerts s) as [|x l]; [done|]. simpl in *. lia.
Qed.

(** The invariant survives the clock moving forward. *)
Lemma tasks_inv_mono (c c' : N) (s : State) : tasks_inv c s -> (c <= c')%N -> tasks_inv c' s.
Proof. intros H Hle. eapply inv_unchanged; [exact H | exact Hle | done | done | by left]. Qed.

(** A screen mounted at any clock reading satisfies the invariant. *)
Lemma tasks_inv_mount (c : N) : tasks_inv c init.
Proof. apply (tasks_inv_mono 0); [exact inv_init | lia]. Qed.

(** One event keeps the invariant, when a confirmation reads a later
    clock and any other event happens no earlier. *)
Lemma tasks_inv_step (c c' : N) (e : Event) (ret : option Tab) (s : State) :
  tasks_inv c s -> enabled e s ->
  match e with ClickConfirm now => (c < now)%N /\ c' = now | _ => (c <= c')%N end ->
  tasks_inv c' (out_state (step e ret s)).
Proof.
  intros IH Hen Hclk.
  destruct (step_shape e ret s)
    as [(Ht & Ha & Hm)|[(id & -> & Ht & Ha & Hm)|(now & a & -> & Hs & Ha & Ht & Hm)]].
  - assert (Hle : (c <= c')%N) by (destruct e; try lia; tauto).
    eapply inv_unchanged; [exact IH | exact Hle | exact Ht | exact Ha |].
    destruct Hm as [Hm|[Hm|(a & -> & Hm)]]; [by left | by right; left |].
    right; right. exists a. by split.
  - eapply inv_unchanged; [by eapply inv_complete | exact Hclk | done | done | by left].
  - destruct Hclk as [Hlt ->]. by eapply inv_confirm.
Qed.

(** C4: In every run of the screen in which each confirmation reads a
    later clock value than the one before, the task ids stay distinct
    (the mock ids or "t-" and a clock reading), the listed alerts are
    distinct mock alerts, the assignment modal shows a listed alert, and
    each of the two mock alerts is either still listed or has become
    exactly one task. *)
Theorem tasks_invariant (c : N) (s : State) : reachable c s -> tasks_inv c s.
Proof.
  induction 1 as [|c c' s e ret Hr IH Hen Hclk]; [exact inv_init|].
  apply (tasks_inv_step c); [exact IH | exact Hen |].
  destruct e; simpl in Hclk; try lia; tauto.
Qed.

Lemma tasks_invariant_witness :
  let s1 := out_state (step (ClickAssign (nth 1 MOCK_ALERTS (Alert.mk "" "" "" "" "" NORMAL))) None init) in
  let s2 := out_state (step (ChooseWorker "w2") None s1) in
  let s3 := out_state (step (ClickConfirm 5) None s2) in
  reachable 5 s3 /\ tasks_inv 5 s3.
Proof.
  assert (H : reachable 5 (out_state (step (ClickConfirm 5) None
                (out_state (step (ChooseWorker "w2") None
                   (out_state (step (ClickAssign (nth 1 MOCK_ALERTS (Alert.mk "" "" "" "" "" NORMAL))) None init))))))).
  { eapply (reach_step 0 5); [| exact I | simpl; split; [lia | reflexivity]].
    eapply (reach_step 0 0); [| exact I | reflexivity].
    eapply (reach_step 0 0); [exact reach_init | simpl; right; left; reflexivity | reflexivity]. }
  split; [exact H | exact (tasks_invariant _ _ H)].
Defined.
