(* ===== verification/Chat.v ===== *)
(** * Chat: the chat window of [src/components/Sporcbot.tsx]

    Module [Sporcbot] holds the component's four [useState] hooks
    (lines 9-12) in [State], with the reply timers that [handleSend]
    schedules ([setTimeout], line 65) as a list of pending [Timer]s.
    Each handler is a function on [State]:
    - [toggleOpen] (37-45) followed by the greeting effect (24-35), which
      React runs after the render in which [isOpen] changed;
    - [handleSend] (47-77) as the closure of a render: it reads the
      [input] of that render ([input0]) and applies its updates to the
      state current when they run.  The Send form calls it on the current
      render; an FAQ button (182, 197) first queues [setInput(item.q)] and
      then calls the same closure, which still sees the old [input];
    - [fire] (66-75): the timer callback, which appends the reply of
      [generateSporcbotResponse] and clears [isTyping].
    [showFaq] is the render condition of the FAQ buttons (177, 192).

    Time: [step] relates a clock reading and a state to the next ones.  A
    user event happens at a time not before the clock and before every
    pending timer is due; [handleSend] picks a delay in [1200, 2000)
    (line 76); the timer with the earliest due time fires first (ties in
    scheduling order), at its due time.  [Date.now()] gives message ids
    and timestamps. *)

From stdpp Require Import base list strings.
From Stdlib Require Import String ZArith Lia Wellfounded.
From S2P Require Import Prelude Types Assistant.

Open Scope string_scope.

Module Sporcbot.

Import Assistant.

(** The greeting of the effect (lines 26-31). *)
Definition greeting_text : string :=
  "Hello. I am Sporcbot, monitoring Chamber " ++ chamberId SPORCBOT_CONTEXT ++ ". " ++ nl ++ nl
  ++ "I've detected critical deviations in CO2 and Humidity for the current "
  ++ variety SPORCBOT_CONTEXT ++ " pinning phase. " ++ nl ++ nl
  ++ "How can I help you resolve this?".

Definition greeting (now : N) : ChatMessage.t := ChatMessage.mk "init-1" greeting_text bot now.

(** A scheduled [setTimeout]: the user text it answers and when it is due. *)
Record Timer := mkTimer { reply_to : string; due : N }.

Record State := mkState {
  isOpen : bool;
  input : string;
  messages : list ChatMessage.t;
  isTyping : bool;
  timers : list Timer
}.

Definition init : State := mkState false "" [] false [].

(** [useEffect(..., [isOpen])]: greet when opened with no messages. *)
Definition greeting_effect (now : N) (s : State) : State :=
  if isOpen s && bool_decide (messages s = []) then
    mkState (isOpen s) (input s) [greeting now] (isTyping s) (timers s)
  else s.

Definition toggleOpen (now : N) (s : State) : State :=
  let s1 := if isOpen s then mkState (isOpen s) (input s) [] false (timers s) else s in
  greeting_effect now (mkState (negb (isOpen s)) (input s1) (messages s1) (isTyping s1) (timers s1)).

(** The input's [onChange] (line 213). *)
Definition setInput (text : string) (s : State) : State :=
  mkState (isOpen s) text (messages s) (isTyping s) (timers s).

Definition userMsg (now : N) (text : string) : ChatMessage.t :=
  ChatMessage.mk (N_to_string now) text user now.

Definition handleSend (input0 : string) (now delay : N) (s : State) : State :=
  if decide (trim input0 = "") then s
  else mkState (isOpen s) "" (messages s ++ [userMsg now input0])%list true
         (timers s ++ [mkTimer input0 (now + delay)])%list.

(** The timer callback, run at the timer's due time. *)
Definition botMsg (now : N) (text : string) : ChatMessage.t :=
  ChatMessage.mk (N_to_string (now + 1)) (generateSporcbotResponse text) bot now.

Definition fire (pre post : list Timer) (t : Timer) (s : State) : State :=
  mkState (isOpen s) (input s) (messages s ++ [botMsg (due t) (reply_to t)])%list false (pre ++ post)%list.

(** The FAQ buttons are shown after the greeting and, by the comment of
    line 191, after each bot response. *)
Definition showFaq (s : State) : bool :=
  isOpen s && negb (isTyping s) &&
  (bool_decide (List.length (messages s) = 1) ||
   (bool_decide (1 < List.length (messages s)) && Nat.even (List.length (messages s)))).

(** The questions of the six buttons ([SPORCBOT_FAQ.slice(0, 6)]). *)
Definition faq_buttons : list string := map fst (take 6 SPORCBOT_FAQ).

Definition faqClick (q : string) (now delay : N) (s : State) : State :=
  handleSend (input s) now delay (setInput q s).

(** No timer is overdue at time [t]: a due timer fires before the next
    user event. *)
Definition none_due (t : N) (s : State) : Prop := Forall (fun tm => (t < due tm)%N) (timers s).

Definition valid_delay (delay : N) : Prop := (1200 <= delay < 2000)%N.

(** The timer [t] is the first to fire among [pre ++ t :: post]. *)
Definition first_due (pre post : list Timer) (t : Timer) : Prop :=
  Forall (fun u => (due t < due u)%N) pre /\ Forall (fun u => (due t <= due u)%N) post.

Inductive step : N -> State -> N -> State -> Prop :=
| step_toggle (c t : N) (s : State) :
    (c <= t)%N -> none_due t s -> step c s t (toggleOpen t s)
| step_type (c t : N) (text : string) (s : State) :
    (c <= t)%N -> none_due t s -> isOpen s = true -> step c s t (setInput text s)
| step_send (c t delay : N) (s : State) :
    (c <= t)%N -> none_due t s -> isOpen s = true -> valid_delay delay ->
    step c s t (handleSend (input s) t delay s)
| step_faq (c t delay : N) (q : string) (s : State) :
    (c <= t)%N -> none_due t s -> isOpen s = true -> showFaq s = true ->
    q ∈ faq_buttons -> valid_delay delay ->
    step c s t (faqClick q t delay s)
| step_fire (c : N) (pre post : list Timer) (tm : Timer) (s : State) :
    timers s = (pre ++ tm :: post)%list -> first_due pre post tm -> (c <= due tm)%N ->
    step c s (due tm) (fire pre post tm s).

(** Runs from mounting the component, with the clock reading. *)
Inductive reachable : N -> State -> Prop :=
| reach_init : reachable 0 init
| reach_step (c c' : N) (s s' : State) : reachable c s -> step c s c' s' -> reachable c' s'.

(** Finite sequences of steps. *)
Inductive star : N -> State -> N -> State -> Prop :=
| star_refl (c : N) (s : State) : star c s c s
| star_cons (c c' c'' : N) (s s' s'' : State) :
    step c s c' s' -> star c' s' c'' s'' -> star c s c'' s''.

(** The chat invariant: the typing indicator shows only while a reply is
    pending, a closed chat shows no typing indicator, and every pending
    reply is due within 2 seconds of the clock, not before it. *)
Definition chat_inv (c : N) (s : State) : Prop :=
  (isTyping s = true -> timers s <> []) /\
  (isOpen s = false -> isTyping s = false) /\
  Forall (fun tm => (c <= due tm < c + 2000)%N) (timers s).

(** A normal conversation: [k] rounds of typing a question, sending it
    with the shortest delay and receiving the reply, from clock [c]. *)
Fixpoint rounds (k : nat) (q : string) (c : N) (s : State) : N * State :=
  match k with
  | O => (c, s)
  | S k' =>
      let s1 := setInput q s in
      let s2 := handleSend (input s1) c 1200 s1 in
      rounds k' q (c + 1200)%N (fire [] [] (mkTimer q (c + 1200)) s2)
  end.

(** The event loop left to itself: the next reply timer fires. *)
Definition fire_step (s s' : State) : Prop :=
  exists pre post tm, timers s = (pre ++ tm :: post)%list /\ first_due pre post tm /\
    s' = fire pre post tm s.

End Sporcbot.

Import Sporcbot.

(** ** Lemmas *)

Lemma toggleOpen_fields (t : N) (s : State) :
  isOpen (toggleOpen t s) = negb (isOpen s) /\ timers (toggleOpen t s) = timers s /\
  isTyping (toggleOpen t s) = (if isOpen s then false else isTyping s).
Proof. unfold toggleOpen, greeting_effect. destruct (isOpen s); simpl; case_ifs; done. Qed.

Lemma handleSend_fields (input0 : string) (t delay : N) (s : State) :
  (trim input0 = "" /\ handleSend input0 t delay s = s) \/
  (trim input0 <> "" /\ isOpen (handleSend input0 t delay s) = isOpen s /\
   isTyping (handleSend input0 t delay s) = true /\
   timers (handleSend input0 t delay s) = (timers s ++ [mkTimer input0 (t + delay)])%list /\
   messages (handleSend input0 t delay s) = (messages s ++ [userMsg t input0])%list).
Proof. unfold handleSend. case_decide; [by left | by right]. Qed.

Lemma inv_step_user (c t : N) (s s' : State) :
  chat_inv c s -> (c <= t)%N -> none_due t s ->
  timers s' = timers s -> isOpen s' = isOpen s -> isTyping s' = isTyping s -> chat_inv t s'.
Proof.
  intros (Hty & Hcl & Hdue) Hct Hnd Ht Ho Hy. unfold chat_inv. rewrite Ht, Ho, Hy.
  split; [done|]. split; [done|].
  apply List.Forall_forall. intros tm Hin.
  unfold none_due in Hnd. rewrite List.Forall_forall in Hdue, Hnd. specialize (Hdue tm Hin). specialize (Hnd tm Hin). lia.
Qed.

Lemma inv_send (c t delay : N) (input0 : string) (s : State) :
  chat_inv c s -> (c <= t)%N -> none_due t s -> isOpen s = true -> valid_delay delay ->
  chat_inv t (handleSend input0 t delay s).
Proof.
  intros Hinv Hct Hnd Hop Hd.
  destruct (handleSend_fields input0 t delay s) as [(_ & ->)|(_ & Ho & Hy & Ht & _)];
    [by eapply inv_step_user|].
  destruct Hinv as (Hty & Hcl & Hdue). unfold chat_inv. rewrite Ho, Hy, Ht.
  split; [intros _; by destruct (timers s)|]. split; [congruence|].
  apply Forall_app. split; [|constructor; [unfold valid_delay in Hd; simpl; lia | constructor]].
  apply List.Forall_forall. intros tm Hin.
  unfold none_due in Hnd. rewrite List.Forall_forall in Hdue, Hnd. specialize (Hdue tm Hin). specialize (Hnd tm Hin). lia.
Qed.

Lemma inv_fire (c : N) (pre post : list Timer) (tm : Timer) (s : State) :
  chat_inv c s -> timers s = (pre ++ tm :: post)%list -> first_due pre post tm ->
  chat_inv (due tm) (fire pre post tm s).
Proof.
  intros (_ & _ & Hdue) Ht [Hpre Hpost]. unfold chat_inv, fire; simpl.
  split; [done|]. split; [done|].
  rewrite Ht in Hdue. apply Forall_app in Hdue as [Hdpre Hdrest]. inversion Hdrest as [|? ? Hdtm Hdpost]; subst.
  apply Forall_app. split.
  - apply List.Forall_forall. intros u Hu. rewrite List.Forall_forall in Hdpre, Hpre.
    specialize (Hdpre u Hu). specialize (Hpre u Hu). lia.
  - apply List.Forall_forall. intros u Hu. rewrite List.Forall_forall in Hdpost, Hpost.
    specialize (Hdpost u Hu). specialize (Hpost u Hu). lia.
Qed.

(** A window mounted at any clock reading satisfies the invariant. *)
Lemma chat_inv_mount (c : N) : chat_inv c init.
Proof. unfold chat_inv. simpl. split; [done|]. split; [done|]. constructor. Qed.

(** Time passing with no reply falling due keeps the invariant. *)
Lemma chat_inv_advance (c t : N) (s : State) : chat_inv c s -> (c <= t)%N -> none_due t s -> chat_inv t s.
Proof. intros H Hle Hnd. by eapply inv_step_user. Qed.

(** Every step keeps the invariant. *)
Lemma chat_inv_step (c c' : N) (s s' : State) : chat_inv c s -> step c s c' s' -> chat_inv c' s'.
Proof.
  intros Hinv Hst. destruct Hst as [c t s Hct Hnd|c t text s Hct Hnd Ho|c t delay s Hct Hnd Ho Hd
    |c t delay q s Hct Hnd Ho Hf Hq Hd|c pre post tm s Ht Hfd Hc].
  - destruct (toggleOpen_fields t s) as (Ho & Ht & Hy).
    destruct Hinv as (Hty & Hcl & Hdue). split; [|split].
    + rewrite Hy, Ht. destruct (isOpen s); [done|]. exact Hty.
    + rewrite Hy, Ho. destruct (isOpen s); [done|]. intros _. by apply Hcl.
    + rewrite Ht. apply List.Forall_forall. intros tm Hin.
      unfold none_due in Hnd. rewrite List.Forall_forall in Hdue, Hnd. specialize (Hdue tm Hin). specialize (Hnd tm Hin). lia.
  - by eapply inv_step_user.
  - by eapply inv_send.
  - unfold faqClick. eapply inv_send; [|exact Hct|exact Hnd|exact Ho|exact Hd].
    destruct Hinv as (? & ? & ?). by split; [|split].
  - by eapply inv_fire.
Qed.

(** The clock never goes back. *)
Lemma step_clock_le (c c' : N) (s s' : State) : step c s c' s' -> (c <= c')%N.
Proof. by destruct 1. Qed.

(** The invariant holds in every reachable state (rule induction). *)
Lemma chat_inv_reachable (c : N) (s : State) : reachable c s -> chat_inv c s.
Proof. induction 1; [exact (chat_inv_mount 0) | by eapply chat_inv_step]. Qed.

(** A non-empty list of timers has a first one to fire. *)
Lemma first_due_exists (ts : list Timer) :
  ts <> [] -> exists pre tm post, ts = (pre ++ tm :: post)%list /\ first_due pre post tm.
Proof.
  induction ts as [|x ts IH]; intros Hne; [done|].
  destruct ts as [|y ts']. { exists [], x, []. split; [done | split; constructor]. }
  destruct IH as (pre & tm & post & Heq & Hpre & Hpost); [done|].
  destruct (N.le_gt_cases (due x) (due tm)) as [Hle|Hgt].
  - exists [], x, (y :: ts'). split; [done|]. split; [constructor|].
    rewrite Heq. apply Forall_app. split; [|constructor; [lia|]].
    + eapply Forall_impl; [exact Hpre|]. intros u Hu. simpl in Hu. lia.
    + eapply Forall_impl; [exact Hpost|]. intros u Hu. simpl in Hu. lia.
  - exists (x :: pre), tm, post. rewrite Heq. split; [done|]. split; [|done].
    constructor; [lia | done].
Qed.

Lemma star_trans (c1 c2 c3 : N) (s1 s2 s3 : State) :
  star c1 s1 c2 s2 -> star c2 s2 c3 s3 -> star c1 s1 c3 s3.
Proof. induction 1 as [|? ? ? ? ? ? Hs _ IH]; intros Hn; [done|]. econstructor; [exact Hs | by apply IH]. Qed.

Lemma star_reachable (c c' : N) (s s' : State) : reachable c s -> star c s c' s' -> reachable c' s'.
Proof. intros Hr Hst. induction Hst as [|? ? ? ? ? ? Hs _ IH]; [done|]. apply IH. by econstructor. Qed.

(** Firing the pending timers one by one, earliest first. *)
Lemma drain (n : nat) (c : N) (s : State) :
  chat_inv c s -> List.length (timers s) = n ->
  exists c' s', star c s c' s' /\ timers s' = [] /\ isTyping s' = false /\
    List.length (messages s') = (List.length (messages s) + n)%nat /\
    (c' = c \/ exists tm, In tm (timers s) /\ c' = due tm).
Proof.
  revert c s. induction n as [|n IH]; intros c s Hinv Hlen.
  - destruct (timers s) eqn:Ht; [|done]. exists c, s.
    split; [constructor|]. split; [done|]. split.
    + destruct (isTyping s) eqn:Hy; [|done]. by destruct Hinv as (Hty & _); apply Hty in Hy.
    + split; [lia | by left].
  - destruct (first_due_exists (timers s)) as (pre & tm & post & Ht & Hfd); [by destruct (timers s)|].
    pose proof Hinv as (_ & _ & Hdue). rewrite Ht in Hdue.
    apply Forall_app in Hdue as [_ Hdtm]. inversion Hdtm as [|? ? Hctm _]; subst.
    assert (Hst : step c s (due tm) (fire pre post tm s)) by (constructor; [done|done|lia]).
    destruct (IH (due tm) (fire pre post tm s)) as (c' & s' & Hstar & Ht' & Hy' & Hm' & Hc');
      [by eapply inv_fire | simpl; rewrite Ht, length_app in Hlen; simpl in Hlen; rewrite length_app; lia|].
    exists c', s'. split; [econstructor; eauto|]. split; [done|]. split; [done|].
    split; [rewrite Hm'; simpl; rewrite length_app; simpl; lia|].
    right. rewrite Ht. destruct Hc' as [->|(u & Hu & ->)]; [exists tm; split; [apply in_or_app; right; left|]; done|].
    exists u. split; [|done]. simpl in Hu. apply in_app_or in Hu as [Hu|Hu]; apply in_or_app; [by left | by right; right].
Qed.

(** ** Theorems *)

(** C5: In every run of the chat window, the typing indicator shows only
    while a reply is pending, a closed window shows no typing indicator,
    and every pending reply is due within 2 seconds of the current time. *)
Theorem chat_invariant (c : N) (s : State) : reachable c s -> chat_inv c s.
Proof. induction 1; [exact (chat_inv_mount 0) | by eapply chat_inv_step]. Qed.

(** C6: Every pending reply arrives: from any state of a run, firing the
    timers leads, within 2 seconds, to a state with no pending reply and
    no typing indicator, with one more message per reply that was
    pending. *)
Theorem replies_arrive (c : N) (s : State) :
  reachable c s ->
  exists c' s', star c s c' s' /\ timers s' = [] /\ isTyping s' = false /\
    List.length (messages s') = (List.length (messages s) + List.length (timers s))%nat /\
    (c <= c' < c + 2000)%N.
Proof.
  intros Hr. pose proof (chat_inv_reachable _ _ Hr) as Hinv.
  destruct (drain (List.length (timers s)) c s Hinv eq_refl) as (c' & s' & Hstar & Ht & Hy & Hm & Hc).
  exists c', s'. do 4 (split; [done|]).
  destruct Hc as [->|(tm & Hin & ->)]; [lia|].
  destruct Hinv as (_ & _ & Hdue). rewrite List.Forall_forall in Hdue. by apply Hdue.
Qed.

Lemma toggleOpen_close (t : N) (s : State) :
  isOpen s = true -> toggleOpen t s = mkState false (input s) [] false (timers s).
Proof. intros H. unfold toggleOpen, greeting_effect. by rewrite H. Qed.

Lemma toggleOpen_reopen (t : N) (s : State) :
  isOpen s = false -> messages s <> [] ->
  toggleOpen t s = mkState true (input s) (messages s) (isTyping s) (timers s).
Proof.
  intros H Hm. unfold toggleOpen, greeting_effect. rewrite H. simpl.
  by rewrite bool_decide_eq_false_2.
Qed.

Lemma toggleOpen_greet (t : N) (s : State) :
  isOpen s = false -> messages s = [] ->
  toggleOpen t s = mkState true (input s) [greeting t] (isTyping s) (timers s).
Proof.
  intros H Hm. unfold toggleOpen, greeting_effect. rewrite H. simpl.
  by rewrite bool_decide_eq_true_2.
Qed.

Lemma none_due_nil (t : N) (s : State) : timers s = [] -> none_due t s.
Proof. intros H. unfold none_due. rewrite H. constructor. Qed.

(** C19: A reply that arrives while the window is closed is shown alone
    when the window is reopened: closing empties the transcript but does
    not cancel the pending timer, and the greeting effect only greets an
    empty transcript.  The reopened window shows the stale reply without
    the greeting and without the question it answers. *)
Theorem reopen_shows_stale_reply (c t1 t2 : N) (s : State) (tm : Timer) :
  reachable c s -> isOpen s = true -> timers s = [tm] ->
  (c <= t1 < due tm)%N -> (due tm <= t2)%N ->
  let s3 := toggleOpen t2 (fire [] [] tm (toggleOpen t1 s)) in
  reachable t2 s3 /\ isOpen s3 = true /\ messages s3 = [botMsg (due tm) (reply_to tm)].
Proof.
  intros Hr Ho Ht Ht1 Ht2 s3.
  assert (Hr1 : reachable t1 (toggleOpen t1 s)).
  { econstructor; [exact Hr|]. constructor; [lia|]. unfold none_due. rewrite Ht. constructor; [lia | constructor]. }
  rewrite toggleOpen_close in Hr1 by done.
  assert (Hr2 : reachable (due tm) (fire [] [] tm (mkState false (input s) [] false (timers s)))).
  { econstructor; [exact Hr1|]. apply step_fire; [exact Ht | split; constructor | lia]. }
  unfold s3. rewrite (toggleOpen_close t1 s) by done. rewrite toggleOpen_reopen by (simpl; congruence).
  split; [|done].
  rewrite <- (toggleOpen_reopen t2) by (simpl; congruence).
  econstructor; [exact Hr2|]. apply step_toggle; [lia|]. by apply none_due_nil.
Qed.

Lemma reopen_shows_stale_reply_witness :
  let s := handleSend "status" 2 1500 (setInput "status" (toggleOpen 0 init)) in
  (reachable 2 s /\ isOpen s = true /\ timers s = [mkTimer "status" 1502] /\
   (2 <= 3 < due (mkTimer "status" 1502))%N /\ (due (mkTimer "status" 1502) <= 2000)%N) /\
  let s3 := toggleOpen 2000 (fire [] [] (mkTimer "status" 1502) (toggleOpen 3 s)) in
  reachable 2000 s3 /\ isOpen s3 = true /\
  messages s3 = [botMsg (due (mkTimer "status" 1502)) (reply_to (mkTimer "status" 1502))].
Proof.
  assert (Hr : reachable 2 (handleSend "status" 2 1500 (setInput "status" (toggleOpen 0 init)))).
  { eapply (reach_step 1); [eapply (reach_step 0); [eapply (reach_step 0); [exact reach_init|]|]|].
    - constructor; [lia | constructor].
    - apply step_type; [lia | constructor | reflexivity].
    - apply (step_send 1 2 1500 (setInput "status" (toggleOpen 0 init)));
        [lia | constructor | reflexivity | unfold valid_delay; lia]. }
  split; [split; [exact Hr | split; [reflexivity | split; [reflexivity | simpl; lia]]]|].
  apply (reopen_shows_stale_reply 2); [exact Hr | reflexivity | reflexivity | simpl; lia | simpl; lia].
Defined.

(** One round of a normal conversation keeps the window open and idle
    and adds the question and its reply. *)
Lemma rounds_spec (k : nat) (q : string) (c : N) (s : State) :
  trim q <> "" -> reachable c s -> isOpen s = true -> timers s = [] -> isTyping s = false ->
  reachable (rounds k q c s).1 (rounds k q c s).2 /\ isOpen (rounds k q c s).2 = true /\
  timers (rounds k q c s).2 = [] /\ isTyping (rounds k q c s).2 = false /\
  List.length (messages (rounds k q c s).2) = (List.length (messages s) + 2 * k)%nat.
Proof.
  intros Hq. revert c s. induction k as [|k IH]; intros c s Hr Ho Ht Hy.
  - simpl. repeat split; auto; lia.
  - simpl. set (s1 := setInput q s).
    assert (Hs2 : handleSend q c 1200 s1 =
                  mkState true "" (messages s ++ [userMsg c q])%list true [mkTimer q (c + 1200)]).
    { unfold handleSend, s1. simpl. rewrite decide_False by done. by rewrite Ho, Ht. }
    assert (Hr2 : reachable c (handleSend q c 1200 s1)).
    { eapply (reach_step c); [eapply (reach_step c); [exact Hr|]|].
      - apply step_type; [lia | by apply none_due_nil | exact Ho].
      - apply (step_send c c 1200 s1); [lia | by apply none_due_nil | exact Ho | unfold valid_delay; lia]. }
    rewrite Hs2 in Hr2 |- *.
    destruct (IH (c + 1200)%N (fire [] [] (mkTimer q (c + 1200)) (mkState true "" (messages s ++ [userMsg c q])%list true [mkTimer q (c + 1200)])))
      as (Hr' & Ho' & Ht' & Hy' & Hm');
      [eapply reach_step; [exact Hr2|]; apply (step_fire c [] [] (mkTimer q (c + 1200))); [done | split; constructor | simpl; lia]
      | done | done | done |].
    repeat split; auto. rewrite Hm'. simpl. rewrite !length_app. simpl. lia.
Qed.

(** C18: The FAQ buttons, meant to follow each bot response (comment of
    line 191), never follow one in a normal conversation: after the
    greeting and [k] question/reply rounds the transcript has 1 + 2k
    messages, an odd number, so the buttons show only before the first
    question. *)
Theorem faq_hidden_after_replies (k : nat) :
  let r := rounds k "status" 0 (toggleOpen 0 init) in
  reachable r.1 r.2 /\ List.length (messages r.2) = (1 + 2 * k)%nat /\
  showFaq r.2 = bool_decide (k = 0%nat).
Proof.
  assert (H0 : reachable 0 (toggleOpen 0 init)) by (econstructor; [exact reach_init | apply step_toggle; [lia | constructor]]).
  destruct (rounds_spec k "status" 0 (toggleOpen 0 init)) as (Hr & Ho & _ & Hy & Hm);
    [vm_compute; discriminate | exact H0 | reflexivity | reflexivity | reflexivity |].
  cbv zeta. split; [exact Hr|].
  assert (Hlen : List.length (messages (rounds k "status" 0 (toggleOpen 0 init)).2) = (1 + 2 * k)%nat)
    by (rewrite Hm; reflexivity).
  split; [exact Hlen|].
  unfold showFaq. rewrite Ho, Hy, Hlen. cbn [andb negb].
  destruct k as [|k]; [reflexivity|].
  rewrite Nat.even_add_mul_2.
  rewrite (bool_decide_eq_false_2 (1 + 2 * S k = 1)%nat) by lia.
  rewrite (bool_decide_eq_false_2 (S k = 0)%nat) by lia.
  by rewrite andb_false_r.
Qed.

(** C20: An FAQ button does not send its question.  Its click queues
    [setInput(item.q)] and calls the [handleSend] of the current render,
    which reads the old input: with an empty input nothing is sent and
    the question only fills the input box; otherwise the text already
    typed is sent and the question is discarded. *)
Theorem faq_click_sends_typed_text (q : string) (now delay : N) (s : State) :
  messages (faqClick q now delay s) =
    (messages s ++ (if decide (trim (input s) = "") then [] else [userMsg now (input s)]))%list /\
  input (faqClick q now delay s) = (if decide (trim (input s) = "") then q else "") /\
  timers (faqClick q now delay s) =
    (timers s ++ (if decide (trim (input s) = "") then [] else [mkTimer (input s) (now + delay)]))%list.
Proof.
  unfold faqClick, handleSend, setInput. case_decide; simpl; [|done].
  by rewrite !app_nil_r.
Qed.

(** C21: The typing indicator turns off while a reply is still pending:
    when two questions wait for replies, the first reply clears
    [isTyping] although the second reply has not arrived. *)
Theorem typing_cleared_while_pending (c : N) (s : State) (tm1 tm2 : Timer) (rest : list Timer) :
  reachable c s -> timers s = tm1 :: tm2 :: rest -> first_due [] (tm2 :: rest) tm1 ->
  let s' := fire [] (tm2 :: rest) tm1 s in
  reachable (due tm1) s' /\ isTyping s' = false /\ timers s' = tm2 :: rest.
Proof.
  intros Hr Ht Hfd s'. split; [|done].
  pose proof (chat_inv_reachable _ _ Hr) as (_ & _ & Hdue). rewrite Ht in Hdue.
  inversion Hdue as [|? ? Hd1 _]; subst.
  econstructor; [exact Hr|]. apply step_fire; [exact Ht | exact Hfd | lia].
Qed.

(** A run: open the window, send "co2" at 1 ms (reply due at 1501 ms)
    and "rh" at 2 ms (reply due at 2001 ms). *)
Lemma two_questions_reachable :
  reachable 2 (handleSend "rh" 2 1999 (setInput "rh"
    (handleSend "co2" 1 1500 (setInput "co2" (toggleOpen 0 init))))).
Proof.
  assert (H1 : reachable 0 (toggleOpen 0 init))
    by (eapply reach_step; [exact reach_init | apply step_toggle; [lia | constructor]]).
  assert (H2 : reachable 1 (setInput "co2" (toggleOpen 0 init)))
    by (eapply reach_step; [exact H1 | apply step_type; [lia | constructor | reflexivity]]).
  assert (H3 : reachable 1 (handleSend "co2" 1 1500 (setInput "co2" (toggleOpen 0 init))))
    by (eapply reach_step; [exact H2 | apply (step_send 1 1 1500 (setInput "co2" (toggleOpen 0 init)));
          [lia | constructor | reflexivity | unfold valid_delay; lia]]).
  assert (H4 : reachable 2 (setInput "rh" (handleSend "co2" 1 1500 (setInput "co2" (toggleOpen 0 init)))))
    by (eapply reach_step; [exact H3 | apply step_type; [lia | repeat constructor; simpl; lia | reflexivity]]).
  eapply reach_step; [exact H4|].
  apply (step_send 2 2 1999 (setInput "rh" (handleSend "co2" 1 1500 (setInput "co2" (toggleOpen 0 init)))));
    [lia | repeat constructor; simpl; lia | reflexivity | unfold valid_delay; lia].
Qed.

Lemma chat_invariant_witness :
  reachable 2 (handleSend "rh" 2 1999 (setInput "rh"
    (handleSend "co2" 1 1500 (setInput "co2" (toggleOpen 0 init))))) /\
  chat_inv 2 (handleSend "rh" 2 1999 (setInput "rh"
    (handleSend "co2" 1 1500 (setInput "co2" (toggleOpen 0 init))))).
Proof. split; [exact two_questions_reachable | exact (chat_invariant _ _ two_questions_reachable)]. Defined.

Lemma replies_arrive_witness :
  let s := handleSend "rh" 2 1999 (setInput "rh"
             (handleSend "co2" 1 1500 (setInput "co2" (toggleOpen 0 init)))) in
  reachable 2 s /\
  exists c' s', star 2 s c' s' /\ timers s' = [] /\ isTyping s' = false /\
    List.length (messages s') = (List.length (messages s) + List.length (timers s))%nat /\
    (2 <= c' < 2 + 2000)%N.
Proof. split; [exact two_questions_reachable | exact (replies_arrive _ _ two_questions_reachable)]. Defined.

Lemma typing_cleared_while_pending_witness :
  let s := handleSend "rh" 2 1999 (setInput "rh"
             (handleSend "co2" 1 1500 (setInput "co2" (toggleOpen 0 init)))) in
  (reachable 2 s /\ timers s = [mkTimer "co2" 1501; mkTimer "rh" 2001] /\
   first_due [] [mkTimer "rh" 2001] (mkTimer "co2" 1501)) /\
  let s' := fire [] [mkTimer "rh" 2001] (mkTimer "co2" 1501) s in
  reachable (due (mkTimer "co2" 1501)) s' /\ isTyping s' = false /\ timers s' = [mkTimer "rh" 2001].
Proof.
  assert (Hfd : first_due [] [mkTimer "rh" 2001] (mkTimer "co2" 1501))
    by (split; [constructor | repeat constructor; simpl; lia]).
  split; [split; [exact two_questions_reachable | split; [reflexivity | exact Hfd]]|].
  exact (typing_cleared_while_pending 2 _ _ _ [] two_questions_reachable eq_refl Hfd).
Defined.

(** Firing a timer removes it. *)
Lemma fire_step_length (s s' : State) :
  fire_step s s' -> List.length (timers s') < List.length (timers s).
Proof.
  intros (pre & post & tm & Ht & _ & ->). simpl. rewrite Ht, !length_app. simpl. lia.
Qed.

(** The event loop terminates without user input: there is no
    infinite sequence of reply firings (each removes its timer), and the
    firings stop exactly when no reply is pending. *)
Theorem replies_terminate :
  well_founded (fun s' s => fire_step s s') /\
  (forall s, (~ exists s', fire_step s s') <-> timers s = []).
Proof.
  split.
  - apply (wf_incl _ _ (ltof _ (fun s => List.length (timers s)))); [|apply well_founded_ltof].
    intros s' s H. exact (fire_step_length s s' H).
  - intros s. split.
    + intros Hn. destruct (timers s) as [|t ts] eqn:Ht; [done|]. exfalso. apply Hn.
      destruct (first_due_exists (timers s)) as (pre & tm & post & Heq & Hfd); [by rewrite Ht|].
      by exists (fire pre post tm s), pre, post, tm.
    + intros Ht (s' & pre & post & tm & Heq & _). rewrite Ht in Heq. by destruct pre.
Qed.
