(* ===== verification/App.v ===== *)
(** * App: the application shell of [src/App.tsx]

    [App] keeps four [useState] hooks (lines 16-19): whether the user is
    logged in, which of Login and Register is shown, the active [Tab] and
    the dark mode.  When logged in it renders [Layout]
    (src/components/Layout.tsx), which holds the bottom navigation and the
    chat window ([Sporcbot]), around the screen of the active tab
    ([renderScreen], lines 66-103).

    Each screen keeps its own [useState] hooks, and React keeps them only
    while the screen stays mounted: [Screen] holds the state of the
    mounted screen, [mount] the state a screen starts with (Dashboard.tsx
    13-14, Stats.tsx 8, Trends.tsx 14, Tasks.tsx 11-20, Progress.tsx 113,
    Settings.tsx 13), and [setActiveTab] replaces it whenever the tab
    changes ([AnimatePresence] keyed by [activeTab], Layout.tsx 34-44).
    The chat window lives in [Layout]: it survives tab changes and is
    dropped at logout.  [sessionStorage] is a map from strings to strings
    ([setItem], [removeItem]), the only state the screens share:
    Trends.tsx (line 159) sets [returnTab] and Tasks.tsx (lines 56-62,
    89-95) reads it back with the unchecked cast [as Tab] ([session]) and
    removes it.

    [dispatch] runs one user action on the rendered screen, with the
    handlers of the screens; [step] adds the clock: an action happens at a
    time [t] before which every pending chat reply has arrived, a task
    confirmation reads a later clock than before, and the chat window
    moves by the steps of [Chat].

    The class [Component] states what the shell relies on from the
    components it mounts (an initial state satisfying the component's
    invariant at any clock, an invariant that survives quiet time); the
    Tasks screen and the chat window are its instances, and the
    invariant of the whole application ([app_invariant]) is proved from
    the class and the two components' step lemmas. *)

From stdpp Require Import base list strings gmap.
From Stdlib Require Import String ZArith.
From S2P Require Import Prelude Types Lifecycle Trends Stats TasksScreen Chat.

Open Scope string_scope.

(** [CHAMBER_LIST] (constants.ts 145-153). *)
Definition CHAMBER_LIST : list string := [
  "Chamber 1 - Shiitake"; "Chamber 2 - Oyster"; "Chamber 3 - Button";
  "Chamber 4 - Milky"; "Chamber 5 - Lion's Mane"; "Chamber 6 - Enoki";
  "Chamber 7 - Portobello"
].

(** The tabs of the bottom navigation, in order ([navItems],
    Layout.tsx 16-23).  CAMERA has no button. *)
Definition navItems : list Tab := [HOME; STATS; PROGRESS; TRENDS; TASKS; SETTINGS].

(** ** What the shell relies on from a component it mounts

    The shell mounts a component with its initial state at some clock
    reading and lets time pass between the user's actions.  It relies on
    two promises: the initial state satisfies the component's invariant
    at any clock reading, and the invariant survives time passing while
    nothing of the component falls due ([quiet]).  [Tasks] and [Sporcbot]
    discharge them with their own lemmas; the shell's lemmas below use
    only the class. *)
Class Component (S : Type) := {
  init_state : S;
  invariant : N -> S -> Prop;
  quiet : N -> S -> Prop;
  invariant_init (c : N) : invariant c init_state;
  invariant_advance (c t : N) (s : S) : invariant c s -> (c <= t)%N -> quiet t s -> invariant t s
}.

(** The Tasks screen has no timers: it is always quiet. *)
#[export] Instance tasks_component : Component Tasks.State := {
  init_state := Tasks.init;
  invariant := Tasks.tasks_inv;
  quiet _ _ := True;
  invariant_init := tasks_inv_mount;
  invariant_advance c t s H Hle _ := tasks_inv_mono c t s H Hle
}.

(** The chat window is quiet while no reply is due. *)
#[export] Instance chat_component : Component Sporcbot.State := {
  init_state := Sporcbot.init;
  invariant := Sporcbot.chat_inv;
  quiet := Sporcbot.none_due;
  invariant_init := chat_inv_mount;
  invariant_advance := chat_inv_advance
}.

Module App.

(** [authView: 'login' | 'register'] *)
Inductive AuthView := login | register.

(** The periods of Trends and Stats are [TrendsData.Period] and
    [ChartPeriod] of [Stats]. *)

(** The local state of the mounted screen, one constructor per case of
    [renderScreen]. *)
Inductive Screen :=
| DashboardScreen (selectedChamber : string) (isChamberOpen : bool)
| StatsScreen (chartPeriod : ChartPeriod)
| TrendsScreen (period : TrendsData.Period)
| TasksScreen (ts : Tasks.State)
| ProgressScreen (expandedId : option string)
| CameraScreen
| SettingsScreen (showProfile : bool).

(** The state a screen has when it is mounted. *)
Definition mount (tab : Tab) : Screen :=
  match tab with
  | HOME => DashboardScreen (hd "" CHAMBER_LIST) false
  | STATS => StatsScreen month
  | TRENDS => TrendsScreen TrendsData.h24
  | TASKS => TasksScreen init_state
  | PROGRESS => ProgressScreen None
  | CAMERA => CameraScreen
  | SETTINGS => SettingsScreen false
  end.

(** The tab whose case of [renderScreen] renders a screen. *)
Definition screen_tab (sc : Screen) : Tab :=
  match sc with
  | DashboardScreen _ _ => HOME
  | StatsScreen _ => STATS
  | TrendsScreen _ => TRENDS
  | TasksScreen _ => TASKS
  | ProgressScreen _ => PROGRESS
  | CameraScreen => CAMERA
  | SettingsScreen _ => SETTINGS
  end.

Record State := mkState {
  isLoggedIn : bool;
  authView : AuthView;
  activeTab : Tab;
  darkMode : bool;
  sessionStorage : gmap string string;
  screen : option Screen;
  chat : option Sporcbot.State
}.

(** The app as it starts in a fresh browser tab: [sessionStorage] is
    empty (it survives a reload of the page, which keeps [returnTab]). *)
Definition init : State := mkState false login HOME false ∅ None None.

Definition with_screen (sc : Screen) (s : State) : State :=
  mkState (isLoggedIn s) (authView s) (activeTab s) (darkMode s) (sessionStorage s) (Some sc) (chat s).

(** [sessionStorage.getItem('returnTab') as Tab | null]: the entry read
    as a tab.  A string that names no tab would reach [onNavigate]
    unchecked; the theorems below show that the app stores none. *)
Definition session (s : State) : option Tab :=
  sessionStorage s !! "returnTab" ≫= tab_of_string.

(** [sessionStorage.setItem] and [sessionStorage.removeItem]. *)
Definition setItem (k v : string) (s : State) : State :=
  mkState (isLoggedIn s) (authView s) (activeTab s) (darkMode s) (<[k := v]> (sessionStorage s))
    (screen s) (chat s).

Definition removeItem (k : string) (s : State) : State :=
  mkState (isLoggedIn s) (authView s) (activeTab s) (darkMode s) (delete k (sessionStorage s))
    (screen s) (chat s).

Definition with_chat (cs : Sporcbot.State) (s : State) : State :=
  mkState (isLoggedIn s) (authView s) (activeTab s) (darkMode s) (sessionStorage s) (screen s) (Some cs).

(** [setActiveTab]: the same tab renders nothing new; another tab
    replaces the mounted screen by a fresh one. *)
Definition setActiveTab (tab : Tab) (s : State) : State :=
  if decide (tab = activeTab s) then s
  else mkState (isLoggedIn s) (authView s) tab (darkMode s) (sessionStorage s)
         (Some (mount tab)) (chat s).

(** [handleLogin] (lines 30-33): [Layout] mounts, with a fresh chat window
    and the screen of the active tab. *)
Definition handleLogin (s : State) : State :=
  mkState true (authView s) (activeTab s) (darkMode s) (sessionStorage s)
    (Some (mount (activeTab s))) (Some init_state).

(** [handleLogout] (lines 35-39): [Layout] and the screen unmount. *)
Definition handleLogout (s : State) : State :=
  mkState false login HOME (darkMode s) (sessionStorage s) None None.

Definition setAuthView (v : AuthView) (s : State) : State :=
  mkState (isLoggedIn s) v (activeTab s) (darkMode s) (sessionStorage s) (screen s) (chat s).

(** [toggleDarkMode] (lines 45-47). *)
Definition toggleDarkMode (s : State) : State :=
  mkState (isLoggedIn s) (authView s) (activeTab s) (negb (darkMode s)) (sessionStorage s) (screen s) (chat s).

(** The Dashboard's chamber menu (Dashboard.tsx 48-57, 100): the header
    toggles it, a chamber of the list is selected and closes it, and the
    overlay behind the open menu closes it. *)
Definition toggleChamberMenu (selectedChamber : string) (isChamberOpen : bool) : Screen :=
  DashboardScreen selectedChamber (negb isChamberOpen).

Definition selectChamber (chamber : string) : Screen := DashboardScreen chamber false.

Definition closeChamberMenu (selectedChamber : string) : Screen := DashboardScreen selectedChamber false.

(** The profile card of Settings ([toggleProfile], Settings.tsx 20-23). *)
Definition toggleProfile (showProfile : bool) : Screen := SettingsScreen (negb showProfile).

(** The Assign button of the Trends action card (Trends.tsx 157-161):
    store TRENDS as the [returnTab] entry and open Tasks. *)
Definition assignFromTrends (s : State) : State :=
  setActiveTab TASKS (setItem "returnTab" (tab_to_string TRENDS) s).

(** What the user does: the login and register forms (a submission the
    browser's [required] checks let through) and their links, the
    navigation bar, and the buttons of each screen. *)
Inductive Event :=
| SubmitLogin | SubmitRegister | GoRegister | GoLogin
| NavClick (tab : Tab)
| DashTile | DashTasks | DashToggleChamber | DashSelectChamber (chamber : string) | DashCloseChamber
| StatsPeriod (p : ChartPeriod)
| TrendsPeriod (p : TrendsData.Period) | TrendsAssign
| TasksEvent (e : Tasks.Event)
| ProgressToggle (chamberId : string)
| SettingsDark | SettingsProfile | SettingsLogout.

(** A [Tasks] handler, given the [returnTab] entry read as a tab: the
    screen's new state, then, when the handler navigates back
    ([if (ret) { sessionStorage.removeItem('returnTab'); onNavigate(ret) }],
    Tasks.tsx 57-61 and 90-94), the removal of the entry and the
    navigation. *)
Definition tasks_dispatch (te : Tasks.Event) (ts : Tasks.State) (s : State) : State :=
  let o := Tasks.step te (session s) ts in
  let s1 := with_screen (TasksScreen (Tasks.out_state o)) s in
  match Tasks.out_navigate o with
  | Some tab => setActiveTab tab (removeItem "returnTab" s1)
  | None => s1
  end.

(** One action on what is rendered; an action on something not rendered
    changes nothing. *)
Definition dispatch (e : Event) (s : State) : State :=
  if isLoggedIn s then
    match e, screen s with
    | NavClick tab, _ => if decide (tab ∈ navItems) then setActiveTab tab s else s
    | DashTile, Some (DashboardScreen _ _) => setActiveTab TRENDS s
    | DashTasks, Some (DashboardScreen _ _) => setActiveTab TASKS s
    | DashToggleChamber, Some (DashboardScreen c o) => with_screen (toggleChamberMenu c o) s
    | DashSelectChamber c', Some (DashboardScreen _ _) =>
        if decide (c' ∈ CHAMBER_LIST) then with_screen (selectChamber c') s else s
    | DashCloseChamber, Some (DashboardScreen c true) => with_screen (closeChamberMenu c) s
    | StatsPeriod p, Some (StatsScreen _) => with_screen (StatsScreen p) s
    | TrendsPeriod p, Some (TrendsScreen _) => with_screen (TrendsScreen p) s
    | TrendsAssign, Some (TrendsScreen _) => assignFromTrends s
    | TasksEvent te, Some (TasksScreen ts) => tasks_dispatch te ts s
    | ProgressToggle id, Some (ProgressScreen x) =>
        with_screen (ProgressScreen (Progress.toggleExpand x id)) s
    | SettingsDark, Some (SettingsScreen _) => toggleDarkMode s
    | SettingsProfile, Some (SettingsScreen p) => with_screen (toggleProfile p) s
    | SettingsLogout, Some (SettingsScreen _) => handleLogout s
    | _, _ => s
    end
  else
    match e, authView s with
    | SubmitLogin, login => handleLogin s
    | GoRegister, login => setAuthView register s
    | SubmitRegister, register => handleLogin s
    | GoLogin, register => setAuthView login s
    | _, _ => s
    end.

(** The clock an action reads: a task confirmation reads [Date.now()],
    later than the previous reading; any other action happens at a time
    not before the previous one. *)
Definition time_ok (e : Event) (c t : N) : Prop :=
  match e with
  | TasksEvent (Tasks.ClickConfirm now) => (c < now)%N /\ t = now
  | _ => (c <= t)%N
  end.

(** The Assign buttons exist only for listed alerts, and the Progress
    cards only for the chambers of [MUSHROOM_DATA]. *)
Definition enabled (e : Event) (s : State) : Prop :=
  match e, screen s with
  | TasksEvent te, Some (TasksScreen ts) => Tasks.enabled te ts
  | ProgressToggle id, Some (ProgressScreen _) => In id (map Progress.chamberId Progress.MUSHROOM_DATA)
  | _, _ => True
  end.

(** Every chat reply due before [t] has arrived. *)
Definition chat_quiet (t : N) (s : State) : Prop :=
  match chat s with
  | Some cs => quiet t cs
  | None => True
  end.

Inductive step : N -> State -> N -> State -> Prop :=
| step_ui (c t : N) (e : Event) (s : State) :
    time_ok e c t -> chat_quiet t s -> enabled e s -> step c s t (dispatch e s)
| step_chat (c c' : N) (s : State) (cs cs' : Sporcbot.State) :
    isLoggedIn s = true -> chat s = Some cs -> Sporcbot.step c cs c' cs' ->
    step c s c' (with_chat cs' s).

Inductive reachable : N -> State -> Prop :=
| reach_init : reachable 0 init
| reach_step (c c' : N) (s s' : State) : reachable c s -> step c s c' s' -> reachable c' s'.

(** Actions run one after the other, with no chat reply in between. *)
Definition run (es : list Event) (s : State) : State := fold_left (fun s e => dispatch e s) es s.

(** The invariant of the shell: the logged-out app mounts nothing; the
    logged-in app mounts the screen of the active tab and a chat window
    satisfying the invariant of [Chat]; a mounted Tasks screen satisfies
    the invariant of [TasksScreen]; CAMERA is never active; and the
    [returnTab] entry is empty or TRENDS. *)
Definition app_inv (c : N) (s : State) : Prop :=
  (isLoggedIn s = false -> screen s = None /\ chat s = None) /\
  (isLoggedIn s = true ->
     (exists sc, screen s = Some sc /\ screen_tab sc = activeTab s) /\
     (exists cs, chat s = Some cs /\ invariant c cs)) /\
  (forall ts, screen s = Some (TasksScreen ts) -> invariant c ts) /\
  activeTab s <> CAMERA /\
  (forall k v, sessionStorage s !! k = Some v -> k = "returnTab" /\ v = tab_to_string TRENDS).

(** The first mock alert, and the state of a mounted Tasks screen. *)
Definition alert0 : Alert.t := nth 0 MOCK_ALERTS (Alert.mk "" "" "" "" "" NORMAL).

Definition tasks_of (s : State) : Tasks.State :=
  match screen s with Some (TasksScreen ts) => ts | _ => Tasks.init end.

(** Log in, open Trends, press its Assign button, and on the Tasks screen
    open the assignment of the first alert and choose a worker. *)
Definition assign_from_trends : list Event :=
  [SubmitLogin; NavClick TRENDS; TrendsAssign; TasksEvent (Tasks.ClickAssign alert0);
   TasksEvent (Tasks.ChooseWorker "w1")].

(** A [Tasks] action that does not read the [returnTab] entry. *)
Definition keeps_session (e : Event) : Prop :=
  match e with
  | TasksEvent (Tasks.ClickConfirm _) | TasksEvent Tasks.ClickSaveNote => False
  | _ => True
  end.

(** Leave Tasks without confirming, log out, log in again, open Tasks
    from the navigation bar, open an assignment and choose a worker. *)
Definition leave_and_return : list Event :=
  [NavClick HOME; NavClick SETTINGS; SettingsLogout; SubmitLogin; NavClick TASKS;
   TasksEvent (Tasks.ClickAssign alert0); TasksEvent (Tasks.ChooseWorker "w1")].

End App.

Import App.

(** ** Lemmas *)

Lemma screen_tab_mount (tab : Tab) : screen_tab (mount tab) = tab.
Proof. by destruct tab. Qed.

(** The screen a tab mounts satisfies the screen part of the invariant. *)
Lemma mount_tasks_inv (c : N) (tab : Tab) (ts : Tasks.State) :
  mount tab = TasksScreen ts -> invariant c ts.
Proof. destruct tab; intros Hm; try discriminate. injection Hm as <-. exact (invariant_init c). Qed.

(** Time passes without a chat reply falling due. *)
Lemma app_inv_advance (c t : N) (s : State) :
  app_inv c s -> (c <= t)%N -> chat_quiet t s -> app_inv t s.
Proof.
  intros (Hout & Hin & Hts & Hcam & Hses) Hle Hq. split; [done|].
  split; [|split; [intros ts Hs; eapply invariant_advance; [by apply Hts | done | done]|done]].
  intros Hl. destruct (Hin Hl) as [Hsc (cs & Hcs & Hinv)]. split; [done|].
  exists cs. split; [done|]. unfold chat_quiet in Hq. rewrite Hcs in Hq.
  by eapply invariant_advance.
Qed.

Lemma app_inv_setActiveTab (c : N) (tab : Tab) (s : State) :
  app_inv c s -> isLoggedIn s = true -> tab <> CAMERA -> app_inv c (setActiveTab tab s).
Proof.
  intros Hinv Hl Htab. unfold setActiveTab. case_decide; [done|].
  destruct Hinv as (Hout & Hin & Hts & Hcam & Hses).
  split; [simpl; congruence|]. split; [|split; [|done]].
  - intros _. split; [exists (mount tab); split; [done | apply screen_tab_mount]|]. by apply Hin.
  - intros ts [= Hm]. by eapply mount_tasks_inv.
Qed.

Lemma app_inv_with_screen (c : N) (sc sc0 : Screen) (s : State) :
  app_inv c s -> screen s = Some sc0 -> screen_tab sc = screen_tab sc0 ->
  (forall ts, sc = TasksScreen ts -> Tasks.tasks_inv c ts) -> app_inv c (with_screen sc s).
Proof.
  intros (Hout & Hin & Hts & Hcam & Hses) Hs Htab Hsc.
  destruct (isLoggedIn s) eqn:Hl; [|by destruct (Hout eq_refl) as [Hn _]; congruence].
  destruct (Hin eq_refl) as [(sc1 & Hs1 & Htab1) Hch].
  split; [simpl; congruence|]. split; [|split; [|done]].
  - intros _. split; [|done]. exists sc. split; [done|]. simpl. congruence.
  - intros ts [= Heq]. by apply Hsc.
Qed.

Lemma app_inv_setItem (c : N) (s : State) :
  app_inv c s -> app_inv c (setItem "returnTab" (tab_to_string TRENDS) s).
Proof.
  intros (Hout & Hin & Hts & Hcam & Hst). unfold app_inv. simpl. split_and!; try done.
  intros k v. rewrite lookup_insert_Some. intros [[<- <-]|[_ H]]; [done | by apply Hst].
Qed.

Lemma app_inv_removeItem (c : N) (k : string) (s : State) : app_inv c s -> app_inv c (removeItem k s).
Proof.
  intros (Hout & Hin & Hts & Hcam & Hst). unfold app_inv. simpl. split_and!; try done.
  intros k' v. rewrite lookup_delete_Some. intros [_ H]. by apply Hst.
Qed.

(** What the Tasks screen reads back is nothing or TRENDS. *)
Lemma session_cases (c : N) (s : State) : app_inv c s -> session s = None \/ session s = Some TRENDS.
Proof.
  intros (_ & _ & _ & _ & Hst). unfold session.
  destruct (sessionStorage s !! "returnTab") as [v|] eqn:Hv; [right | by left].
  destruct (Hst _ _ Hv) as [_ ->]. exact (tab_of_to_string TRENDS).
Qed.

(** A handler of the Tasks screen either keeps the [returnTab] entry and
    stays, or clears it and navigates to the tab it held. *)
Lemma tasks_outcome_shape (e : Tasks.Event) (ret : option Tab) (ts : Tasks.State) :
  let o := Tasks.step e ret ts in
  (Tasks.out_returnTab o = ret /\ Tasks.out_navigate o = None) \/
  (Tasks.out_returnTab o = None /\ Tasks.out_navigate o = ret).
Proof.
  assert (Hnb : forall s r, let o := Tasks.navigate_back s r in
            (Tasks.out_returnTab o = r /\ Tasks.out_navigate o = None) \/
            (Tasks.out_returnTab o = None /\ Tasks.out_navigate o = r))
    by (intros ? []; simpl; auto).
  destruct e; simpl; auto; case_decide; simpl; auto.
  - unfold Tasks.handleConfirmAssignment. destruct (Tasks.showAssignModal ts); simpl; auto.
  - unfold Tasks.handleSaveNote. destruct (Tasks.noteTask ts); simpl; auto. case_decide; simpl; auto.
Qed.

Lemma app_inv_setAuthView (c : N) (v : AuthView) (s : State) : app_inv c s -> app_inv c (setAuthView v s).
Proof. intros (Hout & Hin & Hts & Hcam & Hses). unfold app_inv. simpl. tauto. Qed.

Lemma app_inv_logout (c : N) (s : State) : app_inv c s -> app_inv c (handleLogout s).
Proof.
  intros (Hout & Hin & Hts & Hcam & Hses). unfold app_inv. simpl.
  split; [auto|]. split; [discriminate|]. split; [discriminate|]. split; [discriminate | exact Hses].
Qed.

Lemma app_inv_login (c : N) (s : State) : app_inv c s -> app_inv c (handleLogin s).
Proof.
  intros (Hout & Hin & Hts & Hcam & Hses). unfold app_inv, handleLogin. simpl.
  split; [done|]. split; [|split; [|done]].
  - intros _. split; [exists (mount (activeTab s)); split; [done | apply screen_tab_mount]|].
    exists init_state. split; [done | exact (invariant_init c)].
  - intros ts [= Hm]. by eapply mount_tasks_inv.
Qed.

Lemma navItems_not_camera (tab : Tab) : tab ∈ navItems -> tab <> CAMERA.
Proof. intros Hin ->. apply list_elem_of_In in Hin. simpl in Hin. intuition discriminate. Qed.

Lemma time_ok_le (e : Event) (c t : N) : time_ok e c t -> (c <= t)%N.
Proof. destruct e; simpl; try lia. destruct e; simpl; lia. Qed.

Lemma logged_in_of_screen (c : N) (s : State) (sc : Screen) :
  app_inv c s -> screen s = Some sc -> isLoggedIn s = true.
Proof.
  intros (Hout & _) Hs. destruct (isLoggedIn s); [done|].
  destruct (Hout eq_refl) as [Hn _]. congruence.
Qed.

(** A Tasks handler keeps the invariant: its own invariant by
    [tasks_inv_step], and it navigates only to the TRENDS entry. *)
Lemma app_inv_tasks (c t : N) (te : Tasks.Event) (ts : Tasks.State) (s : State) :
  app_inv c s -> app_inv t s -> screen s = Some (TasksScreen ts) -> Tasks.enabled te ts ->
  time_ok (TasksEvent te) c t -> app_inv t (tasks_dispatch te ts s).
Proof.
  intros Hinv Hinv' Hs Hen Htime.
  assert (Hts : Tasks.tasks_inv t (Tasks.out_state (Tasks.step te (session s) ts))).
  { apply (tasks_inv_step c); [by apply Hinv | done | destruct te; simpl in *; tauto]. }
  assert (Hs1 : app_inv t (with_screen (TasksScreen (Tasks.out_state (Tasks.step te (session s) ts))) s))
    by (eapply app_inv_with_screen; [exact Hinv' | exact Hs | done | by intros ? [= <-]]).
  unfold tasks_dispatch.
  destruct (tasks_outcome_shape te (session s) ts) as [[_ Hn]|[_ Hn]]; rewrite Hn; [exact Hs1|].
  destruct (session_cases t s Hinv') as [H0|H0]; rewrite H0 in Hs1 |- *; [exact Hs1|].
  apply app_inv_setActiveTab; [by apply app_inv_removeItem | simpl; by eapply logged_in_of_screen | done].
Qed.

(** Every user action keeps the invariant. *)
Lemma app_inv_dispatch (c t : N) (e : Event) (s : State) :
  app_inv c s -> time_ok e c t -> chat_quiet t s -> enabled e s -> app_inv t (dispatch e s).
Proof.
  intros Hinv Htime Hq Hen.
  pose proof (app_inv_advance c t s Hinv (time_ok_le e c t Htime) Hq) as Hinv'.
  unfold dispatch. destruct (isLoggedIn s) eqn:Hl.
  - destruct (screen s) as [sc|] eqn:Hs.
    2:{ destruct Hinv' as (_ & Hin & _). destruct (Hin Hl) as [(? & ? & _) _]; congruence. }
    assert (Hws : forall sc', screen_tab sc' = screen_tab sc ->
              (forall ts, sc' = TasksScreen ts -> Tasks.tasks_inv t ts) -> app_inv t (with_screen sc' s))
      by (intros; by eapply app_inv_with_screen).
    destruct e; try exact Hinv'.
    + case_decide; [|exact Hinv']. apply app_inv_setActiveTab; [done | done | by apply navItems_not_camera].
    + destruct sc; try exact Hinv'. by apply app_inv_setActiveTab.
    + destruct sc; try exact Hinv'. by apply app_inv_setActiveTab.
    + destruct sc; try exact Hinv'. apply Hws; [done | by intros ? [=]].
    + destruct sc; try exact Hinv'. case_decide; [|exact Hinv']. apply Hws; [done | by intros ? [=]].
    + destruct sc as [? []| | | | | |]; try exact Hinv'. apply Hws; [done | by intros ? [=]].
    + destruct sc; try exact Hinv'. apply Hws; [done | by intros ? [=]].
    + destruct sc; try exact Hinv'. apply Hws; [done | by intros ? [=]].
    + destruct sc; try exact Hinv'.
      apply app_inv_setActiveTab; [by apply app_inv_setItem | done | done].
    + destruct sc; try exact Hinv'. eapply app_inv_tasks; [exact Hinv | exact Hinv' | exact Hs | | exact Htime].
      unfold enabled in Hen. by rewrite Hs in Hen.
    + destruct sc; try exact Hinv'. apply Hws; [done | by intros ? [=]].
    + destruct sc; exact Hinv'.
    + destruct sc; try exact Hinv'. apply Hws; [done | by intros ? [=]].
    + destruct sc; try exact Hinv'. by apply app_inv_logout.
  - destruct e, (authView s); try exact Hinv';
      first [by apply app_inv_login | by apply app_inv_setAuthView].
Qed.

Lemma app_inv_chat (c c' : N) (s : State) (cs cs' : Sporcbot.State) :
  app_inv c s -> isLoggedIn s = true -> chat s = Some cs -> Sporcbot.step c cs c' cs' ->
  app_inv c' (with_chat cs' s).
Proof.
  intros (Hout & Hin & Hts & Hcam & Hses) Hl Hcs Hst.
  pose proof (step_clock_le _ _ _ _ Hst) as Hle.
  destruct (Hin Hl) as [Hsc (cs0 & Hcs0 & Hinv)]. rewrite Hcs in Hcs0. injection Hcs0 as <-.
  unfold app_inv. simpl. split; [congruence|]. split; [|split; [|done]].
  - intros _. split; [done|]. exists cs'. split; [done|]. by eapply chat_inv_step.
  - intros ts Hs. exact (invariant_advance c c' ts (Hts ts Hs) Hle I).
Qed.

Lemma app_inv_init : app_inv 0 init.
Proof. unfold app_inv. simpl. split; [auto|]. split; [discriminate|]. split; [discriminate|]. split; [discriminate|].
  intros k v. by rewrite lookup_empty.
Qed.

Lemma tasks_step_keeps_session (te : Tasks.Event) (ret : option Tab) (ts : Tasks.State) :
  keeps_session (TasksEvent te) ->
  Tasks.out_navigate (Tasks.step te ret ts) = None.
Proof. by destruct te. Qed.

(** An action other than a confirmation or a note save keeps a TRENDS
    entry: only [TrendsAssign] writes the entry, and it writes TRENDS. *)
Lemma dispatch_keeps_trends (e : Event) (s : State) :
  session s = Some TRENDS -> keeps_session e -> session (dispatch e s) = Some TRENDS.
Proof.
  intros Hs Hk. unfold dispatch.
  assert (Hset : forall tab s', session s' = Some TRENDS -> session (setActiveTab tab s') = Some TRENDS)
    by (intros tab s' H; unfold setActiveTab; case_decide; done).
  destruct (isLoggedIn s); [|destruct e, (authView s); done].
  destruct e, (screen s) as [[]|]; try done; repeat case_match; try done; try (by apply Hset).
  - apply Hset. unfold session. simpl. by rewrite lookup_insert_eq.
  - unfold tasks_dispatch. by rewrite (tasks_step_keeps_session e (session s) ts Hk).
Qed.

(** A confirmation on the Tasks screen (worker chosen, modal open) clears
    the [returnTab] entry and goes to the tab it held. *)
Lemma dispatch_confirm (now : N) (s : State) (ts : Tasks.State) (a : Alert.t) :
  isLoggedIn s = true -> screen s = Some (TasksScreen ts) ->
  Tasks.showAssignModal ts = Some a -> Tasks.selectedWorkerId ts <> "" ->
  dispatch (TasksEvent (Tasks.ClickConfirm now)) s =
    let s1 := with_screen (TasksScreen (Tasks.out_state (Tasks.handleConfirmAssignment now (session s) ts))) s in
    match session s with Some tab => setActiveTab tab (removeItem "returnTab" s1) | None => s1 end.
Proof.
  intros Hl Hs Hm Hw. unfold dispatch, tasks_dispatch. rewrite Hl, Hs. simpl.
  rewrite decide_False by done. unfold Tasks.handleConfirmAssignment. rewrite Hm.
  by destruct (session s).
Qed.

Lemma setActiveTab_ne (tab : Tab) (s : State) :
  tab <> activeTab s ->
  setActiveTab tab s = mkState (isLoggedIn s) (authView s) tab (darkMode s) (sessionStorage s) (Some (mount tab)) (chat s).
Proof. intros H. unfold setActiveTab. by rewrite decide_False. Qed.

Lemma chat_setActiveTab (tab : Tab) (s : State) : chat (setActiveTab tab s) = chat s.
Proof. unfold setActiveTab. by case_decide. Qed.

Lemma chat_tasks_dispatch (te : Tasks.Event) (ts : Tasks.State) (s : State) :
  chat (tasks_dispatch te ts s) = chat s.
Proof. unfold tasks_dispatch. case_match; [by rewrite chat_setActiveTab | done]. Qed.


Lemma storage_setActiveTab (tab : Tab) (s : State) : sessionStorage (setActiveTab tab s) = sessionStorage s.
Proof. unfold setActiveTab. by case_decide. Qed.

(** ** Theorems *)

(** C9: In every run of the application, the logged-out app mounts no
    screen and no chat window; the logged-in app mounts the screen of the
    active tab and a chat window that satisfies the chat invariant; a
    mounted Tasks screen satisfies the task invariant; the CAMERA screen is
    never shown (no navigation leads to it); and the [returnTab] entry of
    [sessionStorage] is empty or TRENDS. *)
Theorem app_invariant (c : N) (s : State) : reachable c s -> app_inv c s.
Proof.
  induction 1 as [|c c' s s' Hr IH Hst]; [exact app_inv_init|].
  destruct Hst as [c t e s Ht Hq Hen|c c' s cs cs' Hl Hcs Hst];
    [by eapply app_inv_dispatch | by eapply app_inv_chat].
Qed.

Lemma app_invariant_witness :
  reachable 0 (dispatch SubmitLogin init) /\ app_inv 0 (dispatch SubmitLogin init).
Proof.
  assert (H : reachable 0 (dispatch SubmitLogin init)).
  { eapply reach_step; [apply reach_init|]. apply step_ui; simpl; [lia | done | done]. }
  split; [exact H | exact (app_invariant _ _ H)].
Defined.

(** C10: An assignment made from the Trends screen is lost.  The Trends
    button stores TRENDS in [returnTab] and opens Tasks; confirming there
    navigates back to Trends, which unmounts the Tasks screen with the new
    task and the removed alert: opening Tasks again shows the mock alerts
    and tasks as at the start. *)
Theorem assignment_lost_on_return (now : N) (s : State) (ts : Tasks.State) (a : Alert.t) :
  isLoggedIn s = true -> activeTab s = TASKS -> screen s = Some (TasksScreen ts) ->
  session s = Some TRENDS -> Tasks.showAssignModal ts = Some a -> Tasks.selectedWorkerId ts <> "" ->
  let s1 := dispatch (TasksEvent (Tasks.ClickConfirm now)) s in
  activeTab s1 = TRENDS /\ session s1 = None /\ screen s1 = Some (TrendsScreen TrendsData.h24) /\
  screen (dispatch (NavClick TASKS) s1) = Some (TasksScreen Tasks.init).
Proof.
  intros Hl Ht Hs Hses Hm Hw s1. unfold s1. rewrite (dispatch_confirm now s ts a Hl Hs Hm Hw), Hses.
  rewrite setActiveTab_ne by (simpl; rewrite Ht; discriminate). simpl.
  split; [done|]. split; [unfold session; simpl; by rewrite lookup_delete_eq|]. split; [done|].
  unfold dispatch. simpl. rewrite Hl. by rewrite setActiveTab_ne.
Qed.

Lemma assignment_lost_on_return_witness :
  let s := run assign_from_trends init in
  (isLoggedIn s = true /\ activeTab s = TASKS /\ screen s = Some (TasksScreen (tasks_of s)) /\
   session s = Some TRENDS /\ Tasks.showAssignModal (tasks_of s) = Some alert0 /\
   Tasks.selectedWorkerId (tasks_of s) <> "") /\
  let s1 := dispatch (TasksEvent (Tasks.ClickConfirm 1700000000000)) s in
  activeTab s1 = TRENDS /\ session s1 = None /\ screen s1 = Some (TrendsScreen TrendsData.h24) /\
  screen (dispatch (NavClick TASKS) s1) = Some (TasksScreen Tasks.init).
Proof.
  split; [vm_compute; repeat split; done|].
  apply (assignment_lost_on_return _ _ (tasks_of (run assign_from_trends init)) alert0);
    vm_compute; done.
Defined.

(** C11: The [returnTab] entry outlives the visit it was made for.  Once
    the Trends button has stored it, no action other than a confirmation
    or a note save removes it (not leaving the screen, not logging out);
    a confirmation made later on a Tasks screen opened from the
    navigation bar then jumps to Trends. *)
Theorem return_tab_persists (es : list Event) (s : State) (now : N) :
  session s = Some TRENDS -> Forall keeps_session es ->
  let s' := run es s in
  session s' = Some TRENDS /\
  (forall ts a, isLoggedIn s' = true -> activeTab s' = TASKS -> screen s' = Some (TasksScreen ts) ->
     Tasks.showAssignModal ts = Some a -> Tasks.selectedWorkerId ts <> "" ->
     activeTab (dispatch (TasksEvent (Tasks.ClickConfirm now)) s') = TRENDS).
Proof.
  intros Hs Hk s'.
  assert (Hses : session s' = Some TRENDS).
  { unfold s'. clear s'. revert s Hs. induction Hk as [|e es He _ IH]; intros s Hs; [done|].
    change (run (e :: es) s) with (run es (dispatch e s)). apply IH. by apply dispatch_keeps_trends. }
  split; [done|]. intros ts a Hl Ht Hsc Hm Hw.
  rewrite (dispatch_confirm now s' ts a Hl Hsc Hm Hw), Hses.
  by rewrite setActiveTab_ne by (simpl; rewrite Ht; discriminate).
Qed.

Lemma return_tab_persists_witness :
  let s := run [SubmitLogin; NavClick TRENDS; TrendsAssign] init in
  let s' := run leave_and_return s in
  (session s = Some TRENDS /\ Forall keeps_session leave_and_return) /\
  session s' = Some TRENDS /\ activeTab s' = TASKS /\
  activeTab (dispatch (TasksEvent (Tasks.ClickConfirm 1700000000000)) s') = TRENDS.
Proof.
  assert (H1 : session (run [SubmitLogin; NavClick TRENDS; TrendsAssign] init) = Some TRENDS)
    by (vm_compute; reflexivity).
  assert (H2 : Forall keeps_session leave_and_return) by (repeat constructor).
  split; [split; [exact H1 | exact H2]|].
  destruct (return_tab_persists leave_and_return _ 1700000000000 H1 H2) as [H3 H4].
  split; [exact H3|]. split; [vm_compute; reflexivity|].
  apply (H4 (tasks_of (run leave_and_return (run [SubmitLogin; NavClick TRENDS; TrendsAssign] init))) alert0);
    vm_compute; done.
Defined.

(** C24: Logging out (Settings) unmounts the screen and the chat window,
    whose conversation is lost, and returns to the login form on the HOME
    tab; the dark mode and the [returnTab] entry are kept.  Logging in
    again shows a fresh Dashboard and a fresh chat window. *)
Theorem logout_resets (s : State) (p : bool) :
  isLoggedIn s = true -> screen s = Some (SettingsScreen p) ->
  let s1 := dispatch SettingsLogout s in
  isLoggedIn s1 = false /\ authView s1 = login /\ activeTab s1 = HOME /\
  screen s1 = None /\ chat s1 = None /\ darkMode s1 = darkMode s /\ session s1 = session s /\
  let s2 := dispatch SubmitLogin s1 in
  isLoggedIn s2 = true /\ screen s2 = Some (mount HOME) /\ chat s2 = Some Sporcbot.init.
Proof. intros Hl Hs. unfold dispatch. rewrite Hl, Hs. simpl. by repeat split. Qed.

Lemma logout_resets_witness :
  let s := run [SubmitLogin; NavClick SETTINGS] init in
  (isLoggedIn s = true /\ screen s = Some (SettingsScreen false)) /\
  let s1 := dispatch SettingsLogout s in
  isLoggedIn s1 = false /\ authView s1 = login /\ activeTab s1 = HOME /\
  screen s1 = None /\ chat s1 = None /\ darkMode s1 = darkMode s /\ session s1 = session s /\
  let s2 := dispatch SubmitLogin s1 in
  isLoggedIn s2 = true /\ screen s2 = Some (mount HOME) /\ chat s2 = Some Sporcbot.init.
Proof.
  split; [vm_compute; split; reflexivity|].
  apply (logout_resets _ false); vm_compute; reflexivity.
Defined.

(** The chat window survives navigation: every action that leaves
    the user logged in leaves the conversation, the input and the pending
    replies as they were. *)
Theorem chat_survives_navigation (e : Event) (s : State) :
  isLoggedIn s = true -> isLoggedIn (dispatch e s) = true -> chat (dispatch e s) = chat s.
Proof.
  intros Hl. unfold dispatch. rewrite Hl.
  destruct e, (screen s) as [[]|]; repeat case_match; simpl; unfold assignFromTrends;
    rewrite ?chat_setActiveTab, ?chat_tasks_dispatch; done.
Qed.

Lemma chat_survives_navigation_witness :
  let s := run [SubmitLogin] init in
  (isLoggedIn s = true /\ isLoggedIn (dispatch (NavClick TRENDS) s) = true) /\
  chat (dispatch (NavClick TRENDS) s) = chat s.
Proof.
  split; [vm_compute; split; reflexivity|].
  apply chat_survives_navigation; vm_compute; reflexivity.
Defined.

(** A navigation button shows its tab; another tab than the active
    one mounts a fresh screen, dropping the local state of the screen
    left (the chamber chosen on the Dashboard, the period of Trends or
    Stats, the expanded card of Progress, the alerts and tasks of Tasks),
    while the active tab's own button changes nothing. *)
Theorem nav_remounts (tab : Tab) (s : State) :
  isLoggedIn s = true -> tab ∈ navItems ->
  let s' := dispatch (NavClick tab) s in
  activeTab s' = tab /\
  screen s' = if decide (tab = activeTab s) then screen s else Some (mount tab).
Proof.
  intros Hl Hin. unfold dispatch. rewrite Hl, decide_True by done.
  unfold setActiveTab. case_decide; [subst|]; done.
Qed.

Lemma nav_remounts_witness :
  let s := run [SubmitLogin; NavClick TRENDS; TrendsPeriod TrendsData.d7] init in
  (isLoggedIn s = true /\ HOME ∈ navItems) /\
  let s' := dispatch (NavClick HOME) s in
  activeTab s' = HOME /\
  screen s' = if decide (HOME = activeTab s) then screen s else Some (mount HOME).
Proof.
  split; [split; [vm_compute; reflexivity | unfold navItems; set_solver]|].
  apply nav_remounts; [vm_compute; reflexivity | unfold navItems; set_solver].
Defined.

(** The cast [sessionStorage.getItem('returnTab') as Tab] of
    Tasks.tsx is sound.  Every action either leaves an entry of
    [sessionStorage] as it was, removes it, or writes the string of the
    tab TRENDS under [returnTab]; and the string of a tab reads back as
    that tab. *)
Theorem storage_writes_tabs :
  (forall t, tab_of_string (tab_to_string t) = Some t) /\
  (forall e s k v, sessionStorage (dispatch e s) !! k = Some v ->
     sessionStorage s !! k = Some v \/ (k = "returnTab" /\ v = tab_to_string TRENDS)).
Proof.
  split; [exact tab_of_to_string|]. intros e s k v. unfold dispatch.
  destruct (isLoggedIn s); [|destruct e, (authView s); simpl; auto].
  destruct e, (screen s) as [[]|]; repeat case_match; simpl; rewrite ?storage_setActiveTab; auto.
  - unfold assignFromTrends. rewrite storage_setActiveTab. simpl.
    rewrite lookup_insert_Some. intros [[<- <-]|[_ Hk]]; auto.
  - unfold tasks_dispatch. case_match; [|simpl; auto].
    rewrite storage_setActiveTab. simpl. rewrite lookup_delete_Some. intros [_ Hk]; auto.
Qed.
