(* ===== verification/Auth.v ===== *)
(** * Auth: the Login and Register screens ([src/screens/Login.tsx],
      [src/screens/Register.tsx]) and the browser's form validation

    Both forms are uncontrolled: their inputs keep their values in the
    page, not in React state, and the forms read none of them.  A form is
    submitted only after the browser's constraint validation accepts every
    input (HTML's [required], [type="email"] and [minLength] attributes);
    its [onSubmit] handler then calls [onLogin] / [onRegister], both
    [handleLogin] of App.tsx.  App.tsx (lines 49-63) mounts Register when
    [authView] is ['register'] and Login otherwise, so switching view or
    logging out mounts a fresh form.

    [Input] is an input's value and dirty flag (set by a user edit);
    [Constraints] its attributes; [check] the validity states the
    browser computes (valueMissing, typeMismatch, tooShort), with the
    value sanitisation of the input's type; [valid_email] is the grammar
    of a valid e-mail address of the HTML standard.  [UI] pairs the
    application state of [App] with the mounted form, and [step] is the
    page's reaction to a user action. *)

From stdpp Require Import base list strings gmap.
From Stdlib Require Import String Ascii NArith Lia.
From S2P Require Import Prelude Types App.

Open Scope string_scope.

Module Auth.

(** ** Inputs and their constraints *)

Record Input := mkInput { value : string; dirty : bool }.

Inductive InputType := text | email | password.

#[export] Instance InputType_eq_dec : EqDecision InputType.
Proof. solve_decision. Defined.

Record Constraints := mkConstraints {
  itype : InputType;
  required : bool;
  minLength : option nat
}.

(** ASCII white space of the HTML standard: TAB, LF, FF, CR, SPACE. *)
Definition html_ws (c : ascii) : bool :=
  let n := N_of_ascii c in (n =? 9)%N || (n =? 10)%N || (n =? 12)%N || (n =? 13)%N || (n =? 32)%N.

Definition is_newline (c : ascii) : bool :=
  let n := N_of_ascii c in (n =? 10)%N || (n =? 13)%N.

Fixpoint strip_newlines (s : string) : string :=
  match s with
  | EmptyString => EmptyString
  | String c s' => if is_newline c then strip_newlines s' else String c (strip_newlines s')
  end.

Fixpoint strip_ws_start (s : string) : string :=
  match s with
  | EmptyString => EmptyString
  | String c s' => if html_ws c then strip_ws_start s' else s
  end.

(** Leading and trailing ASCII white space removed. *)
Definition strip_ws (s : string) : string :=
  string_rev (strip_ws_start (string_rev (strip_ws_start s))).

(** The value sanitisation algorithm of each input type. *)
Definition sanitize (t : InputType) (v : string) : string :=
  match t with
  | email => strip_ws (strip_newlines v)
  | text | password => strip_newlines v
  end.

(** ** Valid e-mail addresses *)

Definition is_alnum (c : ascii) : bool :=
  let n := N_of_ascii c in
  ((48 <=? n)%N && (n <=? 57)%N) || ((65 <=? n)%N && (n <=? 90)%N) || ((97 <=? n)%N && (n <=? 122)%N).

Definition is_local_char (c : ascii) : bool :=
  is_alnum c || includes ".!#$%&'*+/=?^_`{|}~-" (String c EmptyString).

Fixpoint all_chars (p : ascii -> bool) (s : string) : bool :=
  match s with
  | EmptyString => true
  | String c s' => p c && all_chars p s'
  end.

(** [s.split(sep)]. *)
Fixpoint split_on (sep : ascii) (s : string) : list string :=
  match s with
  | EmptyString => [EmptyString]
  | String c s' =>
      if Ascii.eqb c sep then EmptyString :: split_on sep s'
      else match split_on sep s' with
           | [] => [String c EmptyString]
           | x :: r => String c x :: r
           end
  end.

Definition last_char (s : string) : option ascii := String.get (String.length s - 1) s.

(** [[a-zA-Z0-9]([a-zA-Z0-9-]{0,61}[a-zA-Z0-9])?] *)
Definition valid_label (l : string) : bool :=
  (1 <=? String.length l)%nat && (String.length l <=? 63)%nat &&
  all_chars (fun c => is_alnum c || Ascii.eqb c "-") l &&
  match String.get 0 l, last_char l with
  | Some a, Some b => is_alnum a && is_alnum b
  | _, _ => false
  end.

(** [^[a-zA-Z0-9.!#$%&'*+/=?^_`{|}~-]+@label(\.label)*$]: the text up to
    the first ['@'] is a non-empty local part, the rest is a domain of
    dot-separated labels. *)
Definition valid_email (s : string) : bool :=
  match split_on "@" s with
  | local :: domain :: [] =>
      negb (String.eqb local "") && all_chars is_local_char local &&
      forallb valid_label (split_on "." domain)
  | _ => false
  end.

(** ** Constraint validation *)

Inductive Invalid := valueMissing | typeMismatch | tooShort.

#[export] Instance Invalid_eq_dec : EqDecision Invalid.
Proof. solve_decision. Defined.

(** The first failed validity state of an input, if any. *)
Definition check (c : Constraints) (i : Input) : option Invalid :=
  if required c && String.eqb (value i) "" then Some valueMissing
  else if bool_decide (itype c = email) && negb (String.eqb (value i) "") && negb (valid_email (value i))
  then Some typeMismatch
  else match minLength c with
       | Some m => if dirty i && negb (String.eqb (value i) "") && (String.length (value i) <? m)%nat
                   then Some tooShort else None
       | None => None
       end.

Section Form.
Context {F : Type} `{EqDecision F}.
Context (fields : list F) (cons : F -> Constraints).

(** A form: the input of each field. *)
Definition Form := F -> Input.

(** The user types [v] into field [k]. *)
Definition update (f : Form) (k : F) (v : string) : Form :=
  fun k' => if decide (k = k') then mkInput (sanitize (itype (cons k)) v) true else f k'.

(** The invalid inputs, in tree order: what the browser reports. *)
Definition form_errors (f : Form) : list (F * Invalid) :=
  omap (fun k => (fun e => (k, e)) <$> check (cons k) (f k)) fields.

(** Interactive validation lets the submission through. *)
Definition submittable (f : Form) : bool := bool_decide (form_errors f = []).
End Form.

(** ** The two forms *)

Inductive LoginField := LEmail | LPassword.
Inductive RegisterField := RUsername | REmail | RFarmName | RCompanyName | RGst | RPassword | RConfirm.

#[export] Instance LoginField_eq_dec : EqDecision LoginField.
Proof. solve_decision. Defined.
#[export] Instance RegisterField_eq_dec : EqDecision RegisterField.
Proof. solve_decision. Defined.

Definition login_fields : list LoginField := [LEmail; LPassword].
Definition register_fields : list RegisterField :=
  [RUsername; REmail; RFarmName; RCompanyName; RGst; RPassword; RConfirm].

(** Login.tsx lines 36-50: an e-mail input and a password input, neither
    [required]. *)
Definition login_constraints (k : LoginField) : Constraints :=
  match k with
  | LEmail => mkConstraints email false None
  | LPassword => mkConstraints password false None
  end.

(** Register.tsx lines 53-141: every input [required], the e-mail input of
    type email, the two password inputs with [minLength={8}]. *)
Definition register_constraints (k : RegisterField) : Constraints :=
  match k with
  | REmail => mkConstraints email true None
  | RPassword | RConfirm => mkConstraints password true (Some 8%nat)
  | RUsername | RFarmName | RCompanyName | RGst => mkConstraints text true None
  end.

(** The [defaultValue]s of Login and the empty inputs of Register. *)
Definition login_init : @Form LoginField := fun k =>
  match k with
  | LEmail => mkInput "manager@sporacle.com" false
  | LPassword => mkInput "password123" false
  end.

Definition register_init : @Form RegisterField := fun _ => mkInput "" false.

(** ** The page while logged out *)

(** What App.tsx renders: the shell when logged in, else a fresh Login or
    Register form according to [authView]. *)
Inductive Mounted :=
| LoginMounted (f : @Form LoginField)
| RegisterMounted (f : @Form RegisterField)
| Shell.

Record UI := mkUI { app : App.State; mounted : Mounted }.

Definition mount_auth (s : App.State) : Mounted :=
  if App.isLoggedIn s then Shell
  else match App.authView s with
       | App.login => LoginMounted login_init
       | App.register => RegisterMounted register_init
       end.

Definition ui_init : UI := mkUI App.init (LoginMounted login_init).

Inductive Event :=
| LoginInput (k : LoginField) (v : string)
| LoginSubmit
| LoginSwitch
| RegisterInput (k : RegisterField) (v : string)
| RegisterSubmit
| RegisterSwitch
| AppEvent (e : App.Event).

(** A user action.  The submit handlers run only when the browser lets
    the submission through; [onLogin] and [onRegister] are [handleLogin],
    [onSwitchToRegister] and [onSwitchToLogin] set [authView]
    (App.tsx 52-62); the actions of the logged-in shell are [App.dispatch]. *)
Definition step (e : Event) (ui : UI) : UI :=
  match e, mounted ui with
  | LoginInput k v, LoginMounted f => mkUI (app ui) (LoginMounted (update login_constraints f k v))
  | LoginSubmit, LoginMounted f =>
      if submittable login_fields login_constraints f
      then mkUI (App.handleLogin (app ui)) Shell else ui
  | LoginSwitch, LoginMounted _ =>
      mkUI (App.setAuthView App.register (app ui)) (RegisterMounted register_init)
  | RegisterInput k v, RegisterMounted f =>
      mkUI (app ui) (RegisterMounted (update register_constraints f k v))
  | RegisterSubmit, RegisterMounted f =>
      if submittable register_fields register_constraints f
      then mkUI (App.handleLogin (app ui)) Shell else ui
  | RegisterSwitch, RegisterMounted _ =>
      mkUI (App.setAuthView App.login (app ui)) (LoginMounted login_init)
  | AppEvent a, Shell => let s := App.dispatch a (app ui) in mkUI s (mount_auth s)
  | _, _ => ui
  end.

Definition run (es : list Event) (ui : UI) : UI := fold_left (fun u e => step e u) es ui.

(** The abstract event of [App] a user action amounts to, if any. *)
Definition abstract (e : Event) (m : Mounted) : option App.Event :=
  match e, m with
  | LoginSubmit, LoginMounted f =>
      if submittable login_fields login_constraints f then Some App.SubmitLogin else None
  | LoginSwitch, LoginMounted _ => Some App.GoRegister
  | RegisterSubmit, RegisterMounted f =>
      if submittable register_fields register_constraints f then Some App.SubmitRegister else None
  | RegisterSwitch, RegisterMounted _ => Some App.GoLogin
  | AppEvent a, Shell => Some a
  | _, _ => None
  end.

(** The mounted form matches the application state, and a Register input
    holds a value only once the user has edited it. *)
Definition ui_inv (ui : UI) : Prop :=
  match mounted ui with
  | Shell => App.isLoggedIn (app ui) = true
  | LoginMounted _ => App.isLoggedIn (app ui) = false /\ App.authView (app ui) = App.login
  | RegisterMounted f => App.isLoggedIn (app ui) = false /\ App.authView (app ui) = App.register /\
      forall k, value (f k) <> "" -> dirty (f k) = true
  end.

End Auth.

Import Auth.

(** ** Lemmas *)

Section FormLemmas.
Context {F : Type} `{EqDecision F} (fields : list F) (cons : F -> Constraints).

Lemma form_errors_nil (f : @Form F) :
  form_errors fields cons f = [] <-> Forall (fun k => check (cons k) (f k) = None) fields.
Proof.
  unfold form_errors. induction fields as [|k ks IH]; [split; auto|].
  rewrite Forall_cons, <- IH. simpl. destruct (check (cons k) (f k)); naive_solver.
Qed.

Lemma submittable_spec (f : @Form F) :
  submittable fields cons f = true <-> Forall (fun k => check (cons k) (f k) = None) fields.
Proof. unfold submittable. by rewrite bool_decide_eq_true, form_errors_nil. Qed.

Lemma update_dirty (f : @Form F) (k : F) (v : string) :
  (forall k', value (f k') <> "" -> dirty (f k') = true) ->
  forall k', value (update cons f k v k') <> "" -> dirty (update cons f k v k') = true.
Proof. intros Hd k'. unfold update. case_decide; [done|apply Hd]. Qed.
End FormLemmas.

(** What each kind of input accepts. *)
Lemma check_text_required (i : Input) :
  check (mkConstraints text true None) i = None <-> value i <> "".
Proof. unfold check. simpl. destruct (String.eqb_spec (value i) ""); naive_solver. Qed.

Lemma check_email_required (i : Input) :
  check (mkConstraints email true None) i = None <-> value i <> "" /\ valid_email (value i) = true.
Proof.
  unfold check. simpl. destruct (String.eqb_spec (value i) ""), (valid_email (value i)); naive_solver.
Qed.

Lemma check_email_optional (i : Input) :
  check (mkConstraints email false None) i = None <-> value i = "" \/ valid_email (value i) = true.
Proof.
  unfold check. simpl. destruct (String.eqb_spec (value i) ""), (valid_email (value i)); naive_solver.
Qed.

Lemma check_password_min8 (i : Input) :
  (value i <> "" -> dirty i = true) ->
  check (mkConstraints password true (Some 8%nat)) i = None <->
    value i <> "" /\ (8 <= String.length (value i))%nat.
Proof.
  intros Hd. unfold check. simpl. destruct (String.eqb_spec (value i) "") as [E|E]; simpl.
  - naive_solver.
  - rewrite (Hd E). simpl. destruct (Nat.ltb_spec (String.length (value i)) 8); naive_solver lia.
Qed.

(** The browser lets a Register submission through exactly when every
    input is filled, the e-mail is valid and both passwords have eight
    characters. *)
Lemma register_submittable (f : @Form RegisterField) :
  (forall k, value (f k) <> "" -> dirty (f k) = true) ->
  submittable register_fields register_constraints f = true <->
    (forall k, value (f k) <> "") /\ valid_email (value (f REmail)) = true /\
    (8 <= String.length (value (f RPassword)))%nat /\ (8 <= String.length (value (f RConfirm)))%nat.
Proof.
  intros Hd. rewrite submittable_spec. unfold register_fields. rewrite !Forall_cons.
  simpl. rewrite !check_text_required, check_email_required, !check_password_min8 by apply Hd.
  split.
  - intros (? & [? ?] & ? & ? & ? & [? ?] & [? ?] & _). split_and!; try done. by intros [].
  - intros (Hall & ? & ? & ?). split_and!; by auto using Forall_nil_2.
Qed.

Lemma login_submittable (f : @Form LoginField) :
  submittable login_fields login_constraints f = true <->
    value (f LEmail) = "" \/ valid_email (value (f LEmail)) = true.
Proof.
  rewrite submittable_spec. unfold login_fields. rewrite !Forall_cons. simpl.
  rewrite check_email_optional. unfold check at 1. simpl.
  split; [naive_solver|]. intros H. split_and!; auto using Forall_nil_2.
Qed.

Lemma mount_auth_inv (s : App.State) : ui_inv (mkUI s (mount_auth s)).
Proof.
  unfold mount_auth, ui_inv. simpl.
  destruct (App.isLoggedIn s) eqn:E; [done|]. destruct (App.authView s) eqn:V; simpl; auto.
Qed.

(** ** Theorems *)

(** C13: The Login and Register forms refine the abstract authentication
    events of [App]: every user action either leaves the application state
    unchanged or acts on it exactly as [App.dispatch] of the abstract event
    it amounts to (a submission the browser lets through is [SubmitLogin]
    or [SubmitRegister], a switch is [GoRegister] or [GoLogin]), and the
    form on screen stays the one App.tsx renders for that state. *)
Theorem auth_refines (e : Event) (ui : UI) :
  ui_inv ui ->
  ui_inv (step e ui) /\
  app (step e ui) = match abstract e (mounted ui) with
                    | Some a => App.dispatch a (app ui)
                    | None => app ui
                    end.
Proof.
  destruct ui as [s m]. intros Hinv. destruct e, m as [f|f|]; try (split; [exact Hinv|reflexivity]);
    unfold ui_inv, step, abstract in *; simpl in *.
  all: try (split; [apply mount_auth_inv|reflexivity]).
  all: first [destruct Hinv as (H1 & H2 & Hd) | destruct Hinv as (H1 & H2)];
    unfold App.dispatch; rewrite ?H1, ?H2.
  all: try destruct (submittable _ _ f); simpl; split_and!; try done; by apply update_dirty.
Qed.

Lemma auth_refines_witness :
  ui_inv ui_init /\
  app (step LoginSwitch ui_init) = App.dispatch App.GoRegister (app ui_init).
Proof.
  assert (H : ui_inv ui_init) by (split; reflexivity).
  split; [exact H | exact (proj2 (auth_refines LoginSwitch ui_init H))].
Defined.

(** C14: Registration checks only what the browser checks: submitting the
    Register form logs in exactly when all seven inputs are filled, the
    e-mail is a valid address and each password input holds at least
    eight characters; the two passwords are not compared.  A refused
    submission changes nothing. *)
Theorem register_validation (ui : UI) (f : @Form RegisterField) :
  ui_inv ui -> mounted ui = RegisterMounted f ->
  (App.isLoggedIn (app (step RegisterSubmit ui)) = true <->
     (forall k, value (f k) <> "") /\ valid_email (value (f REmail)) = true /\
     (8 <= String.length (value (f RPassword)))%nat /\ (8 <= String.length (value (f RConfirm)))%nat) /\
  (App.isLoggedIn (app (step RegisterSubmit ui)) = false -> step RegisterSubmit ui = ui).
Proof.
  destruct ui as [s m]. unfold ui_inv, step. simpl. intros Hinv ->. destruct Hinv as (H1 & _ & Hd).
  rewrite <- (register_submittable f Hd).
  destruct (submittable _ _ f); simpl; split; try done. rewrite H1. naive_solver.
Qed.

(** A registration whose two passwords differ. *)
Definition mismatched_registration : list Event :=
  [LoginSwitch; RegisterInput RUsername "sarah"; RegisterInput REmail " sarah@farm.com ";
   RegisterInput RFarmName "Green Acres"; RegisterInput RCompanyName "Sporacle Inc.";
   RegisterInput RGst "22AAAAA0000A1Z5"; RegisterInput RPassword "password123";
   RegisterInput RConfirm "different456"].

Lemma register_validation_witness :
  ui_inv (run mismatched_registration ui_init) /\
  App.isLoggedIn (app (step RegisterSubmit (run mismatched_registration ui_init))) = true.
Proof.
  assert (H : ui_inv (run mismatched_registration ui_init)).
  { split; [reflexivity|]. split; [reflexivity|]. intros []; vm_compute; congruence. }
  split; [exact H|].
  apply (proj1 (register_validation (run mismatched_registration ui_init)
                  (fun k => match mounted (run mismatched_registration ui_init) with
                            | RegisterMounted f => f k | _ => mkInput "" false end) H eq_refl)).
  split_and!; [intros []; vm_compute; congruence | reflexivity | vm_compute; lia | vm_compute; lia].
Defined.

(** C15: Login checks no credential: submitting the Login form logs in
    whatever the password, and whatever the e-mail input holds as long as
    it is empty or a syntactically valid address (the input is not
    [required]). *)
Theorem login_ignores_password (ui : UI) (f : @Form LoginField) :
  ui_inv ui -> mounted ui = LoginMounted f ->
  App.isLoggedIn (app (step LoginSubmit ui)) = true <->
    value (f LEmail) = "" \/ valid_email (value (f LEmail)) = true.
Proof.
  destruct ui as [s m]. unfold ui_inv, step. simpl. intros Hinv ->. destruct Hinv as [H1 _].
  rewrite <- login_submittable. destruct (submittable _ _ f); simpl; naive_solver.
Qed.

Lemma login_ignores_password_witness :
  let ui := run [LoginInput LEmail ""; LoginInput LPassword "wrong"] ui_init in
  ui_inv ui /\ App.isLoggedIn (app (step LoginSubmit ui)) = true.
Proof.
  simpl. assert (H : ui_inv (run [LoginInput LEmail ""; LoginInput LPassword "wrong"] ui_init))
    by (split; reflexivity).
  split; [exact H|].
  apply (login_ignores_password _ (update login_constraints (update login_constraints login_init LEmail "")
           LPassword "wrong") H eq_refl).
  left. reflexivity.
Defined.
