(* ===== verification/Render.v ===== *)
(** * Render: what the application shows for a state of [App]

    App.tsx renders Login or Register while logged out (lines 49-63) and
    otherwise [Layout] around [renderScreen(activeTab)] (lines 66-109).
    [Layout] (src/components/Layout.tsx 30-90) draws the bottom
    navigation, its button of the active tab highlighted, and the chat
    window.  Each screen renders from its own state: the Dashboard from
    its chamber menu (Dashboard.tsx 60-176), Stats from its chart period
    ([Stats.view]), Trends from its period and the trend series
    ([TrendsData.period_buttons], [TrendsData.card]), Tasks from its
    hooks ([Tasks.view]), Progress from its expanded card
    ([Progress.card]) and Settings from [showProfile] and the dark mode
    ([Settings.view]).  [render] composes them. *)

From stdpp Require Import base list strings gmap.
From Stdlib Require Import String ZArith QArith.
From S2P Require Import Prelude Types Severity Lifecycle Trends Stats Settings TasksScreen Chat App.

Open Scope string_scope.

Module Render.

Import App.

(** ** The Dashboard *)

(** What the Dashboard shows: the selected chamber as title, the chevron
    turned while the menu is open, the menu with the selected chamber
    highlighted and the overlay that closes it, the status card, the
    metric tiles and the preview of [MOCK_TASKS]. *)
Record DashView := mkDashView {
  chamberTitle : string;
  chevronRotated : bool;
  dropdown : option (list (string * bool));
  overlay : bool;
  statusCard : string * string;
  tiles : list MetricTile.TileView;
  taskPreview : list (string * string * string * string)
}.

Definition dashboard_view (selectedChamber : string) (isChamberOpen : bool) : DashView :=
  mkDashView selectedChamber isChamberOpen
    (if isChamberOpen then Some (selector (fun c => c) CHAMBER_LIST selectedChamber) else None)
    isChamberOpen
    (Dashboard.getStatusColor (Dashboard.worstStatus MOCK_METRICS),
     Dashboard.getStatusText (Dashboard.worstStatus MOCK_METRICS))
    (dashboard_tiles MOCK_METRICS)
    (map (fun t => (taskStatus_to_string (Task.status t), Task.timestamp t, Task.title t, Task.location t))
       MOCK_TASKS).

(** ** The screens and the page *)

Inductive ScreenView :=
| DashboardV (v : DashView)
| StatsV (v : Stats.View)
| TrendsV (buttons : list (string * bool)) (cards : list TrendsData.Card)
| TasksV (v : Tasks.View)
| ProgressV (cards : list Progress.Card)
| CameraV
| SettingsV (v : Settings.View).

(** The tab whose screen a view is. *)
Definition view_tab (v : ScreenView) : Tab :=
  match v with
  | DashboardV _ => HOME | StatsV _ => STATS | TrendsV _ _ => TRENDS | TasksV _ => TASKS
  | ProgressV _ => PROGRESS | CameraV => CAMERA | SettingsV _ => SETTINGS
  end.

(** [renderScreen], each screen drawn from its state; [rnd] is the
    stream of [Math.random()] draws the trend series were built from. *)
Definition screen_view (rnd : nat -> Q) (darkMode : bool) (sc : Screen) : ScreenView :=
  match sc with
  | DashboardScreen c o => DashboardV (dashboard_view c o)
  | StatsScreen p => StatsV (Stats.view p)
  | TrendsScreen p => TrendsV (TrendsData.period_buttons p) (map TrendsData.card (TrendsData.TRENDS_DATA rnd))
  | TasksScreen ts => TasksV (Tasks.view ts)
  | ProgressScreen x => ProgressV (map (Progress.card x) Progress.MUSHROOM_DATA)
  | CameraScreen => CameraV
  | SettingsScreen b => SettingsV (Settings.view darkMode b)
  end.

(** The labels of [navItems] (Layout.tsx 16-23). *)
Definition nav_label (t : Tab) : string :=
  match t with
  | HOME => "Home" | STATS => "Stats" | PROGRESS => "Progress" | TRENDS => "Trends"
  | TASKS => "Tasks" | SETTINGS => "Settings" | CAMERA => ""
  end.

(** The bottom navigation: [isActive = activeTab === item.id]. *)
Definition nav_bar (activeTab : Tab) : list (string * bool) := selector nav_label navItems activeTab.

Inductive Page :=
| LoginPage
| RegisterPage
| ShellPage (nav : list (string * bool)) (content : option ScreenView) (chatOpen : option bool).

Definition render (rnd : nat -> Q) (s : State) : Page :=
  if isLoggedIn s then
    ShellPage (nav_bar (activeTab s)) (screen_view rnd (darkMode s) <$> screen s)
      (Sporcbot.isOpen <$> chat s)
  else match authView s with
       | login => LoginPage
       | register => RegisterPage
       end.

End Render.

Import Render.

(** ** Lemmas *)

Lemma view_tab_screen_view (rnd : nat -> Q) (dm : bool) (sc : App.Screen) :
  view_tab (screen_view rnd dm sc) = App.screen_tab sc.
Proof. by destruct sc. Qed.

Lemma navItems_complete (t : Tab) : t <> CAMERA -> t ∈ App.navItems.
Proof. intros H. apply list_elem_of_In. destruct t; simpl; tauto. Qed.

Lemma nav_bar_highlight (t : Tab) : t <> CAMERA ->
  filter (fun b => b.2 = true) (nav_bar t) = [(nav_label t, true)].
Proof.
  intros Ht. apply selector_highlight; [by apply (bool_decide_unpack _) | by apply navItems_complete].
Qed.

(** ** Theorems *)

(** C12: In every state that keeps the application invariant, which every
    reachable state does, the page shown is the one of the state: the
    Login or Register form while logged out, as [authView] says; once
    logged in, the navigation bar with exactly one button highlighted, the
    active tab's, the screen of that tab, and the chat window. *)
Theorem render_consistent (rnd : nat -> Q) (c : N) (s : App.State) :
  App.app_inv c s ->
  (App.isLoggedIn s = false ->
     render rnd s = match App.authView s with App.login => LoginPage | App.register => RegisterPage end) /\
  (App.isLoggedIn s = true -> exists v o,
     render rnd s = ShellPage (nav_bar (App.activeTab s)) (Some v) (Some o) /\
     view_tab v = App.activeTab s /\
     filter (fun b => b.2 = true) (nav_bar (App.activeTab s)) = [(nav_label (App.activeTab s), true)]).
Proof.
  intros (Hout & Hin & _ & Hcam & _). unfold render. split; intros Hl; rewrite Hl; [done|].
  destruct (Hin Hl) as [(sc & Hsc & Htab) (cs & Hcs & _)].
  exists (screen_view rnd (App.darkMode s) sc), (Sporcbot.isOpen cs). rewrite Hsc, Hcs.
  split_and!; [done | by rewrite view_tab_screen_view | by apply nav_bar_highlight].
Qed.

Lemma render_consistent_witness :
  App.app_inv 0 (App.handleLogin App.init) /\
  exists v o, render (fun _ => 0) (App.handleLogin App.init) =
    ShellPage (nav_bar HOME) (Some v) (Some o) /\ view_tab v = HOME /\
    filter (fun b => b.2 = true) (nav_bar HOME) = [(nav_label HOME, true)].
Proof.
  assert (H : App.app_inv 0 (App.handleLogin App.init)) by exact (App.app_inv_login 0 _ App.app_inv_init).
  split; [exact H|]. exact (proj2 (render_consistent (fun _ => 0) 0 _ H) eq_refl).
Defined.
